(** * image-resizer: the benchmark harness and the upload endpoint's quality formula

    A shallow embedding of [benchmark.js] (resource sampler, payload builder,
    load driver, scenario runner) and of the quality-target arithmetic of the
    upload endpoint's [processImage].

    Conventions of the embedding.
    - A JavaScript number that is a time, a CPU reading or a size ratio is a
      rational ([Q]); a number that is a count, an index or a byte length is an
      integer ([Z]).  Where the source can produce a non-finite number
      ([x / 0], [Math.ceil] of it) the value is an [xnum].  The sampler's
      arithmetic is given a second time on binary64 numbers ([Doubles]),
      for the statement that rounding decides.
    - [console.log]/[console.warn]/[console.error] lines and the HTTP requests
      handed to axios are recorded, in program order, as a list of [event]s.
    - What the host decides (clock and CPU readings, the answer to a request,
      which side of [Promise.race] settles first, the content of the seed
      file) is an explicit argument.
    - A function that can [throw] or call [process.exit] returns a
      [completion]. *)

From Stdlib Require Import ZArith QArith Qminmax Qround Qabs Lqa Lia.
From Stdlib Require Import List Bool String.
From Stdlib Require Import Strings.Byte.
From Stdlib Require Import Sorted Permutation Ascii.
From Stdlib Require PrimFloat.
Import ListNotations.

Local Open Scope Q_scope.

(* ================================================================== *)
(** ** Numbers that may be non-finite *)

Module XNum.

(** The result of a JavaScript division followed by [Math.floor] or
    [Math.ceil]: an integer, an infinity or NaN. *)
Inductive xnum : Type :=
| Fin (z : Z)
| PInf
| NInf
| NaN.

(** [a < b] on numbers; every comparison with NaN is false. *)
Definition ltb (a b : xnum) : bool :=
  match a, b with
  | NaN, _ | _, NaN => false
  | Fin x, Fin y => (x <? y)%Z
  | Fin _, PInf => true
  | NInf, Fin _ => true
  | NInf, PInf => true
  | _, _ => false
  end.

(** [Math.max(a, b)]: NaN if either argument is NaN. *)
Definition max (a b : xnum) : xnum :=
  match a, b with
  | NaN, _ | _, NaN => NaN
  | PInf, _ | _, PInf => PInf
  | NInf, y => y
  | x, NInf => x
  | Fin x, Fin y => Fin (Z.max x y)
  end.

(** [Math.min(a, b)]: NaN if either argument is NaN. *)
Definition min (a b : xnum) : xnum :=
  match a, b with
  | NaN, _ | _, NaN => NaN
  | NInf, _ | _, NInf => NInf
  | PInf, y => y
  | x, PInf => x
  | Fin x, Fin y => Fin (Z.min x y)
  end.

(** [Math.ceil(a / b)] for integers [a] and [b] with [0 <= b] (a byte
    length).  Division by zero gives an infinity of the sign of [a], and
    [0 / 0] is NaN.  For [0 < b] the quotient is rounded up; the floating
    point quotient of two integers below 2^53 rounds up to the same
    integer. *)
Definition ceil_div (a b : Z) : xnum :=
  if (b =? 0)%Z then
    if (0 <? a)%Z then PInf else if (a =? 0)%Z then NaN else NInf
  else Fin (- ((- a) / b))%Z.

(** [Math.floor(a / b * c)] for rationals with [0 <= b] and [0 < a],
    [0 < c]: infinite when [b] is zero. *)
Definition floor_div_mul (a b c : Q) : xnum :=
  if Qeq_bool b 0 then PInf else Fin (Qfloor (a / b * c)).

End XNum.
Import XNum.

(* ================================================================== *)
(** ** Configuration *)

Record SafetyLimits : Type := {
  maxConcurrentRequests : Z;
  maxTotalRequestsPerRun : Z;
  maxMemoryThresholdPercent : Q;
  maxMemoryThresholdMB : Q;
  maxTimePerScenarioSec : Q;
  minDelayBetweenScenariosSec : Q
}.

Definition SAFETY_LIMITS : SafetyLimits := {|
  maxConcurrentRequests := 50;
  maxTotalRequestsPerRun := 100;
  maxMemoryThresholdPercent := 80;
  maxMemoryThresholdMB := 4096;
  maxTimePerScenarioSec := 300;
  minDelayBetweenScenariosSec := 5
|}.

Definition TARGET_SIZE_MB : Z := 20.

(* ================================================================== *)
(** ** Resource sampler: [class ResourceMonitor] *)

(** [process.cpuUsage()]: microseconds of user and system CPU time. *)
Record CpuUsage : Type := { user : Q; system : Q }.

(** [process.memoryUsage()] (bytes), and the [memory] part of a sample
    (megabytes). *)
Record MemoryUsage : Type := {
  rss : Q;
  heapTotal : Q;
  heapUsed : Q;
  external : Q
}.

Record Sample : Type := {
  timestamp : Q;
  cpu : Q;
  memory : MemoryUsage
}.

(** The [{ cpu, memory }] objects of [getResults]: accumulators, averages and
    peaks. *)
Record MetricSet : Type := {
  ms_cpu : Q;
  ms_memory : MemoryUsage
}.

(** What the host answers during one call of a sampler method.
    [sample] calls [process.cpuUsage] twice, first with the stored baseline
    and last without argument: the two absolute readings are
    [cpuUsage_now] and [cpuUsage_after]. *)
Record Process : Type := {
  cpuUsage_now : CpuUsage;
  memoryUsage_now : MemoryUsage;
  performance_now : Q;
  os_cpus_length : Q;
  cpuUsage_after : CpuUsage
}.

(** [process.cpuUsage(previousValue)]: the difference to an earlier
    reading. *)
Definition cpuUsage_since (p : Process) (previous : CpuUsage) : CpuUsage :=
  {| user := user (cpuUsage_now p) - user previous;
     system := system (cpuUsage_now p) - system previous |}.

Record ResourceMonitor : Type := {
  cpuUsage : CpuUsage;
  memUsage : MemoryUsage;
  startTime : Q;
  samples : list Sample;
  interval : bool;        (* the timer whose handle is in [this.interval]
                             is scheduled *)
  sampleRate : Q
}.

Definition ResourceMonitor_new (p : Process) : ResourceMonitor := {|
  cpuUsage := cpuUsage_now p;
  memUsage := memoryUsage_now p;
  startTime := performance_now p;
  samples := [];
  interval := false;
  sampleRate := 1000
|}.

(** [start()].  [interval] follows the one timer whose handle the object
    holds: the source overwrites [this.interval] without cancelling an
    earlier timer, so on a sampler whose timer is running [start] leaves that
    earlier timer scheduled, which [interval] does not record.  The harness
    starts every sampler once, right after creating it. *)
Definition start (p : Process) (m : ResourceMonitor) : ResourceMonitor := {|
  cpuUsage := cpuUsage_now p;
  memUsage := memoryUsage_now p;
  startTime := performance_now p;
  samples := [];
  interval := true;
  sampleRate := sampleRate m
|}.

Definition MB : Q := 1024 * 1024.

(** The CPU percentage [sample] records.  Where a divisor is zero (a sample
    taken at the clock reading of [start]) the source yields [NaN] or an
    infinity; the rational quotient is then 0 by convention. *)
Definition cpuUsagePercent (p : Process) (m : ResourceMonitor) : Q :=
  let newCpuUsage := cpuUsage_since p (cpuUsage m) in
  let elapsedMs := performance_now p - startTime m in
  (user newCpuUsage + system newCpuUsage) / (elapsedMs * 1000) * 100
    / os_cpus_length p.

Definition sample (p : Process) (m : ResourceMonitor) : ResourceMonitor :=
  let newMemUsage := memoryUsage_now p in
  let elapsedMs := performance_now p - startTime m in
  {| cpuUsage := cpuUsage_after p;
     memUsage := memUsage m;
     startTime := startTime m;
     samples := samples m ++ [
       {| timestamp := elapsedMs;
          cpu := cpuUsagePercent p m;
          memory := {| rss := rss newMemUsage / MB;
                       heapTotal := heapTotal newMemUsage / MB;
                       heapUsed := heapUsed newMemUsage / MB;
                       external := external newMemUsage / MB |} |} ];
     interval := interval m;
     sampleRate := sampleRate m |}.

(** The value of [getResults]: on an empty series a bare zero metric set,
    otherwise an object with [average], [peak] and [samples]. *)
Inductive Results : Type :=
| ZeroMetrics (zero : MetricSet)
| Summary (average peak : MetricSet) (all : list Sample).

Definition zeroMemory : MemoryUsage :=
  {| rss := 0; heapTotal := 0; heapUsed := 0; external := 0 |}.

Definition zeroMetricSet : MetricSet :=
  {| ms_cpu := 0; ms_memory := zeroMemory |}.

(** The callbacks of the two [reduce] calls, on exact rationals; with the
    rounding of the source they are [Doubles.sumStep_double] and
    [Doubles.peakStep_double]. *)
Definition sumStep (acc : MetricSet) (s : Sample) : MetricSet :=
  {| ms_cpu := ms_cpu acc + cpu s;
     ms_memory :=
       {| rss := rss (ms_memory acc) + rss (memory s);
          heapTotal := heapTotal (ms_memory acc) + heapTotal (memory s);
          heapUsed := heapUsed (ms_memory acc) + heapUsed (memory s);
          external := external (ms_memory acc) + external (memory s) |} |}.

Definition peakStep (acc : MetricSet) (s : Sample) : MetricSet :=
  {| ms_cpu := Qmax (ms_cpu acc) (cpu s);
     ms_memory :=
       {| rss := Qmax (rss (ms_memory acc)) (rss (memory s));
          heapTotal := Qmax (heapTotal (ms_memory acc)) (heapTotal (memory s));
          heapUsed := Qmax (heapUsed (ms_memory acc)) (heapUsed (memory s));
          external := Qmax (external (ms_memory acc)) (external (memory s)) |} |}.

(** [array.length] as a number. *)
Definition length_num {A : Type} (l : list A) : Q :=
  inject_Z (Z.of_nat (List.length l)).

Definition getResults (m : ResourceMonitor) : Results :=
  match samples m with
  | [] => ZeroMetrics zeroMetricSet
  | _ :: _ =>
      let sum := fold_left sumStep (samples m) zeroMetricSet in
      let count := length_num (samples m) in
      let peak := fold_left peakStep (samples m) zeroMetricSet in
      Summary
        {| ms_cpu := ms_cpu sum / count;
           ms_memory :=
             {| rss := rss (ms_memory sum) / count;
                heapTotal := heapTotal (ms_memory sum) / count;
                heapUsed := heapUsed (ms_memory sum) / count;
                external := external (ms_memory sum) / count |} |}
        peak
        (samples m)
  end.

(** [stop]: cancel the timer, take one last sample, reduce. *)
Definition stop (p : Process) (m : ResourceMonitor)
  : ResourceMonitor * Results :=
  let m1 := {| cpuUsage := cpuUsage m; memUsage := memUsage m;
               startTime := startTime m; samples := samples m;
               interval := false; sampleRate := sampleRate m |} in
  let m2 := sample p m1 in
  (m2, getResults m2).

(* ================================================================== *)
(** ** Console output, requests and abrupt completion *)

(** The label [printResults] is called with. *)
Inductive Label : Type :=
| ConcurrentRequestsLabel (adjustedNumRequests : Z)
| SingleRequestLabel (images : Z).

(** One constructor per line (or block of lines) the harness prints, and one
    for each effect on the outside world.  Numbers printed through [toFixed]
    are kept as numbers. *)
Inductive event : Type :=
(* createTestImageBuffer *)
| ErrSampleImageNotFound
| WarnRequestedButGot (sizeMB : Z) (actualSizeMB : Q)
| ErrCreatingTestImageBuffer (message : string)
(* sendImageResizeRequest: axios.post with a form of [files] parts *)
| HttpPost (files : nat) (payloadLength : nat)
(* startSafetyMonitor *)
| LogSafetyMonitoring (systemMemoryMB memoryThresholdMB : Q)
(* ResourceMonitor.printResults *)
| LogResourceUsageHeader (label : Label)
| LogResourceUsage (average peak : MetricSet)
(* runConcurrentRequests *)
| LogSafetyLimitApplied (numRequests adjustedNumRequests : Z)
| LogRunning (adjustedNumRequests numImagesPerRequest : Z)
| LogResultsFor (adjustedNumRequests : Z)
| LogTotalTime (totalDuration : Q)
| LogSuccessRate (successCount : nat) (adjustedNumRequests : Z)
| LogAverageRequestDuration (avgDuration : Q)
| LogAverageProcessingTime (avgProcessingTime : Q)
| LogCompressionResults (totalOriginalSize : Q) (numImages : Z)
| LogQuality (quality : string) (size ratio : Q)
| ErrSafetyMechanismTriggered (message : string)
(* runBenchmarks *)
| LogCreatingTestImageBuffer
| LogCreatedTestImageBuffer (length : nat)
| LogSkippingScenario (name : string)
| LogScenario (name : string)
| LogRequestCompleted (duration : Q)
| LogProcessingTime (totalProcessingTime : Q)
| LogRequestFailed (duration : Q) (error : string)
| LogCoolingDown (seconds : Q)
| Sleep (ms : Q)
| LogOptimizationSuggestions
| ClearSafetyMonitor
| ErrBenchmarkFailed (message : string).

(** How a call ends: with a value, with a thrown [Error] (its message), with
    [process.exit], or not within the steps allowed to a loop. *)
Inductive completion (A : Type) : Type :=
| Normal (a : A)
| Throw (message : string)
| Exit (code : Z)
| OutOfFuel.
Arguments Normal {A} a.
Arguments Throw {A} message.
Arguments Exit {A} code.
Arguments OutOfFuel {A}.

(** A computation: what it printed and did, and how it ended. *)
Definition M (A : Type) : Type := (list event * completion A)%type.

Definition ret {A : Type} (a : A) : M A := ([], Normal a).

Definition bind {A B : Type} (m : M A) (k : A -> M B) : M B :=
  match m with
  | (tr, Normal a) => let (tr', c) := k a in (tr ++ tr', c)
  | (tr, Throw msg) => (tr, Throw msg)
  | (tr, Exit code) => (tr, Exit code)
  | (tr, OutOfFuel) => (tr, OutOfFuel)
  end.

Definition emit (e : event) : M unit := ([e], Normal tt).
Definition throw {A : Type} (message : string) : M A := ([], Throw message).
Definition process_exit {A : Type} (code : Z) : M A := ([], Exit code).
Definition lift {A : Type} (c : completion A) : M A := ([], c).

(** [try { body } catch (error) { handler(error.message) }]. *)
Definition try_catch {A : Type} (body : M A) (handler : string -> M A) : M A :=
  match body with
  | (tr, Throw msg) => let (tr', c) := handler msg in (tr ++ tr', c)
  | other => other
  end.

Definition when (b : bool) (m : M unit) : M unit := if b then m else ret tt.

Declare Scope js_scope.
Delimit Scope js_scope with js.
Notation "x <- m ;; k" := (bind m (fun x => k))
  (at level 61, m at next level, right associativity) : js_scope.
Notation "m ;;; k" := (bind m (fun _ => k))
  (at level 61, right associativity) : js_scope.
Local Open Scope js_scope.

(** [for (const x of xs) { body(x) }]. *)
Fixpoint forEach {A : Type} (xs : list A) (body : A -> M unit) : M unit :=
  match xs with
  | [] => ret tt
  | x :: rest => body x ;;; forEach rest body
  end.

(** [for (let i = 0; i < n; i++) { out.push(body(i)) }], from index [i]. *)
Fixpoint pushEach {A : Type} (n i : nat) (body : nat -> M A) : M (list A) :=
  match n with
  | O => ret []
  | S n' => x <- body i ;; rest <- pushEach n' (S i) body ;; ret (x :: rest)
  end.

Definition trace {A : Type} (m : M A) : list event := fst m.
Definition outcome {A : Type} (m : M A) : completion A := snd m.

(* ================================================================== *)
(** ** Load driver: the synthetic payload *)

Definition Buffer : Type := list byte.

Definition Buffer_length (b : Buffer) : Z := Z.of_nat (List.length b).

(** [Buffer.alloc(size)]: [size] zero bytes.  The harness calls it with
    [0] or with a positive size; the platform's maximal buffer length is not
    part of the model. *)
Definition Buffer_alloc (size : Z) : Buffer := repeat x00 (Z.to_nat size).

(** [buffer.subarray(start, end)]: a negative index counts from the end and
    both are clamped to the buffer. *)
Definition subarray (b : Buffer) (start end_ : Z) : Buffer :=
  let len := Buffer_length b in
  let clamp i := if (i <? 0)%Z then Z.max (len + i) 0 else Z.min i len in
  let s := clamp start in
  let e := clamp end_ in
  firstn (Z.to_nat (e - s)) (skipn (Z.to_nat s) b).

(** The loop [for (let i = 0; i < requiredCopies; i++) buffer =
    Buffer.concat([buffer, sampleImage])], entered with counter [i].  Each
    unit of [fuel] pays for one test of the loop condition. *)
Fixpoint appendCopies (fuel : nat) (i : Z) (requiredCopies : xnum)
    (sampleImage buffer : Buffer) : completion Buffer :=
  match fuel with
  | O => OutOfFuel
  | S fuel' =>
      if XNum.ltb (Fin i) requiredCopies
      then appendCopies fuel' (i + 1) requiredCopies sampleImage
             (buffer ++ sampleImage)
      else Normal buffer
  end.

(** [createTestImageBuffer(sizeMB)].  [sampleFile] is the content of the file
    at [SAMPLE_IMAGE_PATH], [None] when there is no such file. *)
Definition createTestImageBuffer (fuel : nat) (sampleFile : option Buffer)
    (sizeMB : Z) : M Buffer :=
  try_catch
    (match sampleFile with
     | None => emit ErrSampleImageNotFound ;;; process_exit 1
     | Some sampleImage =>
         let targetSizeBytes := (sizeMB * 1024 * 1024)%Z in
         let requiredCopies :=
           ceil_div targetSizeBytes (Buffer_length sampleImage) in
         buffer <- lift (appendCopies fuel 0 requiredCopies sampleImage []) ;;
         let buffer :=
           if (Buffer_length buffer >? targetSizeBytes)%Z
           then subarray buffer 0 targetSizeBytes else buffer in
         let buffer :=
           if (Buffer_length buffer <? targetSizeBytes)%Z
           then buffer ++ Buffer_alloc (targetSizeBytes - Buffer_length buffer)
           else buffer in
         let actualSizeMB := inject_Z (Buffer_length buffer) / MB in
         when (negb (Qle_bool (Qabs (actualSizeMB - inject_Z sizeMB)) (1 # 100)))
              (emit (WarnRequestedButGot sizeMB actualSizeMB)) ;;;
         ret buffer
     end)
    (fun message => emit (ErrCreatingTestImageBuffer message) ;;; throw message).

(* ================================================================== *)
(** ** Load driver: one request *)

(** The [timings] object of a response as far as the harness reads it. *)
Record Timings : Type := { totalProcessingTime : option Q }.

(** The [sizes] object of a response; [totalProcessedSize] keeps the order of
    its keys, which [Object.entries] follows. *)
Record Sizes : Type := {
  totalOriginalSize : Q;
  totalProcessedSize : option (list (string * Q))
}.

(** [response.data]: the JSON object of the endpoint; either field may be
    missing. *)
Record ResponseData : Type := {
  data_timings : option Timings;
  data_sizes : option Sizes
}.

(** How [axios.post] settles: with a response, or rejected with an error
    (network failure, or a status outside 2xx). *)
Inductive PostResult : Type :=
| Resolved (data : ResponseData)
| Rejected (message : string).

(** What the host decides for one request: the two clock readings around it
    and how the post settles. *)
Record RequestWorld : Type := {
  now_before : Q;
  post : PostResult;
  now_after : Q
}.

Record RequestOutcome : Type := {
  success : bool;
  duration : Q;
  timings : option Timings;
  sizes : option Sizes;
  error : option string
}.

(** [sendImageResizeRequest(numImages, imageBuffer)].  The form holds one
    part per iteration of [for (let i = 0; i < numImages; i++)]. *)
Definition sendImageResizeRequest (w : RequestWorld) (numImages : Z)
    (imageBuffer : Buffer) : M RequestOutcome :=
  let formData := repeat imageBuffer (Z.to_nat numImages) in
  let startTime := now_before w in
  try_catch
    (response <-
       (emit (HttpPost (List.length formData) (List.length imageBuffer)) ;;;
        match post w with
        | Resolved data => ret data
        | Rejected message => throw message
        end) ;;
     let endTime := now_after w in
     let duration := endTime - startTime in
     ret {| success := true;
            duration := duration;
            timings := data_timings response;
            sizes := data_sizes response;
            error := None |})
    (fun message =>
       let endTime := now_after w in
       let duration := endTime - startTime in
       ret {| success := false;
              duration := duration;
              timings := None;
              sizes := None;
              error := Some message |}).

(* ================================================================== *)
(** ** Safety governor *)

(** The ceiling [startSafetyMonitor] computes from [os.totalmem()]. *)
Definition getSystemMemoryMB (totalmem : Q) : Q := totalmem / MB.

Definition memoryThresholdMB (totalmem : Q) : Q :=
  Qmin (getSystemMemoryMB totalmem
          * (maxMemoryThresholdPercent SAFETY_LIMITS / 100))
       (maxMemoryThresholdMB SAFETY_LIMITS).

(** [startSafetyMonitor()] up to the scheduling of the watchdog.  The
    watchdog's tick, which ends the process when resident memory passes the
    ceiling, is asynchronous to the runner and is not part of this model
    (one firing of it is [safetyMonitorTick]): the runs below are the runs in
    which it never fires, and a run that it ends prints a beginning of the
    trace given here, followed by the watchdog's two lines. *)
Definition startSafetyMonitor (totalmem : Q) : M unit :=
  emit (LogSafetyMonitoring (getSystemMemoryMB totalmem)
          (memoryThresholdMB totalmem)).

(** [monitor.printResults(label)]: reads [results.average] and
    [results.peak], which the zero metric set of an empty series does not
    have. *)
Definition printResults (m : ResourceMonitor) (label : Label) : M Results :=
  let results := getResults m in
  emit (LogResourceUsageHeader label) ;;;
  match results with
  | Summary average peak _ =>
      emit (LogResourceUsage average peak) ;;; ret results
  | ZeroMetrics _ =>
      throw "Cannot read properties of undefined (reading 'cpu')"
  end.

(* ================================================================== *)
(** ** Load driver: a burst of concurrent requests *)

(** What the host decides during one scenario.  [request i] answers the
    request dispatched at index [i]; [timer_ticks] are the readings at which
    the sampler's timer fired while the scenario was awaited;
    [timeout_first] tells whether the scenario timer settles the race before
    all requests have. *)
Record ScenarioWorld : Type := {
  monitor_created : Process;
  monitor_started : Process;
  request : nat -> RequestWorld;
  race_before : Q;
  timeout_first : bool;
  timer_ticks : list Process;
  race_after : Q;
  monitor_stopped : Process
}.

Record ConcurrentResult : Type := {
  results : list RequestOutcome;
  resourceUsage : option Results;
  safetyTriggered : bool
}.

(** The samples the timer adds to a running monitor. *)
Definition tick (m : ResourceMonitor) (ps : list Process) : ResourceMonitor :=
  fold_left (fun m p => sample p m) ps m.

(** The callback of the [reduce] that adds up server-reported processing
    times: an outcome without [timings], or with a missing or zero
    [totalProcessingTime], leaves the sum as it is. *)
Definition addProcessingTime (sum : Q) (r : RequestOutcome) : Q :=
  match timings r with
  | Some t =>
      match totalProcessingTime t with
      | Some x => if Qeq_bool x 0 then sum else sum + x
      | None => sum
      end
  | None => sum
  end.

Definition avgDuration (successfulResults : list RequestOutcome) : Q :=
  fold_left (fun sum r => sum + duration r) successfulResults 0
    / length_num successfulResults.

Definition avgProcessingTime (successfulResults : list RequestOutcome) : Q :=
  fold_left addProcessingTime successfulResults 0
    / length_num successfulResults.

(** The block that prints the compression results of one outcome; the source
    has it twice, in [runConcurrentRequests] and in [runBenchmarks].  For a
    size of 0 the source prints the ratio [Infinity] or [NaN]; the rational
    quotient is then 0 by convention. *)
Definition logCompression (s : Sizes) (numImages : Z) : M unit :=
  emit (LogCompressionResults (totalOriginalSize s) numImages) ;;;
  match totalProcessedSize s with
  | Some entries =>
      forEach entries (fun entry =>
        let quality := fst entry in
        let size := snd entry in
        let ratio := totalOriginalSize s / size in
        emit (LogQuality quality size ratio))
  | None => ret tt
  end.

(** The block [if (successfulResults.length > 0) { ... }] of
    [runConcurrentRequests]: the two averages and the compression results of
    the first successful outcome. *)
Definition reportAverages (successfulResults : list RequestOutcome)
    (numImagesPerRequest : Z) : M unit :=
  match successfulResults with
  | firstSuccessfulResult :: _ =>
      emit (LogAverageRequestDuration (avgDuration successfulResults)) ;;;
      emit (LogAverageProcessingTime (avgProcessingTime successfulResults)) ;;;
      match sizes firstSuccessfulResult with
      | Some s => logCompression s numImagesPerRequest
      | None => ret tt
      end
  | [] => ret tt
  end.

(** [Promise.race([Promise.all(requests), timeoutPromise])]; every request
    promise fulfils (see [sendImageResizeRequest]), so the race is lost only
    to the timer. *)
Definition race (w : ScenarioWorld) (requests : list RequestOutcome)
  : M (list RequestOutcome) :=
  if timeout_first w
  then throw "Timeout: Scenario took longer than 300 seconds"
  else ret requests.

Definition runConcurrentRequests (w : ScenarioWorld)
    (numRequests numImagesPerRequest : Z) (imageBuffer : Buffer)
  : M ConcurrentResult :=
  let adjustedNumRequests :=
    Z.min numRequests (maxConcurrentRequests SAFETY_LIMITS) in
  when (adjustedNumRequests <? numRequests)%Z
       (emit (LogSafetyLimitApplied numRequests adjustedNumRequests)) ;;;
  emit (LogRunning adjustedNumRequests numImagesPerRequest) ;;;
  let monitor := start (monitor_started w)
                   (ResourceMonitor_new (monitor_created w)) in
  requests <- pushEach (Z.to_nat adjustedNumRequests) 0 (fun i =>
                sendImageResizeRequest (request w i) numImagesPerRequest
                  imageBuffer) ;;
  let startTime := race_before w in
  let monitor := tick monitor (timer_ticks w) in
  try_catch
    (results <- race w requests ;;
     let endTime := race_after w in
     let totalDuration := endTime - startTime in
     let successCount := List.length (filter success results) in
     let (monitor, resourceUsage) := stop (monitor_stopped w) monitor in
     printResults monitor (ConcurrentRequestsLabel adjustedNumRequests) ;;;
     emit (LogResultsFor adjustedNumRequests) ;;;
     emit (LogTotalTime totalDuration) ;;;
     emit (LogSuccessRate successCount adjustedNumRequests) ;;;
     let successfulResults := filter success results in
     reportAverages successfulResults numImagesPerRequest ;;;
     ret {| results := results;
            resourceUsage := Some resourceUsage;
            safetyTriggered := false |})
    (fun message =>
       let (monitor, _) := stop (monitor_stopped w) monitor in
       emit (ErrSafetyMechanismTriggered message) ;;;
       ret {| results := [];
              resourceUsage := None;
              safetyTriggered := true |}).

(* ================================================================== *)
(** ** Scenario runner *)

Record Scenario : Type := {
  name : string;
  concurrency : Z;
  images : Z
}.

Definition scenarios : list Scenario := [
  {| name := "Single request with 8 images"; concurrency := 1; images := 8 |};
  {| name := "10 concurrent requests with 8 images each";
     concurrency := 10; images := 8 |};
  {| name := "50 concurrent requests with 8 images each";
     concurrency := 50; images := 8 |}
].

(** The single-request branch of the loop body of [runBenchmarks]; its value
    is the new [previousScenarioFailed]. *)
Definition singleRequest (w : ScenarioWorld) (scenario : Scenario)
    (imageBuffer : Buffer) : M bool :=
  let monitor := start (monitor_started w)
                   (ResourceMonitor_new (monitor_created w)) in
  singleResult <- sendImageResizeRequest (request w 0%nat) (images scenario)
                    imageBuffer ;;
  let monitor := tick monitor (timer_ticks w) in
  let (monitor, resourceUsage) := stop (monitor_stopped w) monitor in
  printResults monitor (SingleRequestLabel (images scenario)) ;;;
  if success singleResult then
    emit (LogRequestCompleted (duration singleResult)) ;;;
    t <- match timings singleResult with
         | Some t => ret t
         | None => throw
             "Cannot read properties of undefined (reading 'totalProcessingTime')"
         end ;;
    x <- match totalProcessingTime t with
         | Some x => ret x
         | None => throw
             "Cannot read properties of undefined (reading 'toFixed')"
         end ;;
    emit (LogProcessingTime x) ;;;
    match sizes singleResult with
    | Some s => logCompression s (images scenario)
    | None => ret tt
    end ;;;
    ret false
  else
    emit (LogRequestFailed (duration singleResult)
            (match error singleResult with Some e => e | None => "" end)) ;;;
    ret true.

(** The loop body of [runBenchmarks] for a scenario that is not skipped, up
    to the cooldown; its value is the new [previousScenarioFailed]. *)
Definition runScenario (w : ScenarioWorld) (scenario : Scenario)
    (imageBuffer : Buffer) : M bool :=
  emit (LogScenario (name scenario)) ;;;
  if (concurrency scenario =? 1)%Z then
    singleRequest w scenario imageBuffer
  else
    result <- runConcurrentRequests w (concurrency scenario) (images scenario)
                imageBuffer ;;
    ret (safetyTriggered result).

Definition coolDown : M unit :=
  emit (LogCoolingDown (minDelayBetweenScenariosSec SAFETY_LIMITS)) ;;;
  emit (Sleep (minDelayBetweenScenariosSec SAFETY_LIMITS * 1000)).

(** [for (const scenario of scenarios) { ... }] with the flag
    [previousScenarioFailed]; [world i] is the host's behaviour during the
    scenario at position [i] of the whole list. *)
Fixpoint scenarioLoop (world : nat -> ScenarioWorld) (i : nat)
    (todo : list Scenario) (imageBuffer : Buffer)
    (previousScenarioFailed : bool) : M bool :=
  match todo with
  | [] => ret previousScenarioFailed
  | scenario :: rest =>
      if previousScenarioFailed then
        emit (LogSkippingScenario (name scenario)) ;;;
        scenarioLoop world (S i) rest imageBuffer previousScenarioFailed
      else
        failed <- runScenario (world i) scenario imageBuffer ;;
        coolDown ;;;
        scenarioLoop world (S i) rest imageBuffer failed
  end.

Record Host : Type := {
  totalmem : Q;
  sampleFile : option Buffer;
  world : nat -> ScenarioWorld
}.

Definition runBenchmarks (fuel : nat) (h : Host) : M unit :=
  try_catch
    (startSafetyMonitor (totalmem h) ;;;
     emit LogCreatingTestImageBuffer ;;;
     imageBuffer <- createTestImageBuffer fuel (sampleFile h) TARGET_SIZE_MB ;;
     emit (LogCreatedTestImageBuffer (List.length imageBuffer)) ;;;
     previousScenarioFailed <-
       scenarioLoop (world h) 0 scenarios imageBuffer false ;;
     when (negb previousScenarioFailed) (emit LogOptimizationSuggestions) ;;;
     emit ClearSafetyMonitor)
    (fun message => emit (ErrBenchmarkFailed message)).

(* ================================================================== *)
(** ** Upload endpoint: the quality targets of [processImage] *)

Definition originalSizeKB (fileBuffer : Buffer) : Q :=
  inject_Z (Buffer_length fileBuffer) / 1024.

(** [Math.max(10, Math.min(30, Math.floor(50 / originalSizeKB * 100)))]. *)
Definition targetQuality_low (fileBuffer : Buffer) : xnum :=
  XNum.max (Fin 10)
    (XNum.min (Fin 30) (floor_div_mul 50 (originalSizeKB fileBuffer) 100)).

(** [Math.min(10, Math.max(30, Math.floor(60 / originalSizeKB * 100)))]. *)
Definition targetQuality_medium (fileBuffer : Buffer) : xnum :=
  XNum.min (Fin 10)
    (XNum.max (Fin 30) (floor_div_mul 60 (originalSizeKB fileBuffer) 100)).

(* ================================================================== *)
(** ** Definitions used in the statements *)

(** The CPU percentage as the specification words it: CPU time and wall time
    both counted from the same earlier instant, at which the CPU reading was
    [cpu0] and the clock [time0] (milliseconds; CPU time is in
    microseconds). *)
Definition cpuPercentSince (cpu0 : CpuUsage) (time0 : Q) (p : Process) : Q :=
  let user_cpu_delta := user (cpuUsage_now p) - user cpu0 in
  let system_cpu_delta := system (cpuUsage_now p) - system cpu0 in
  let elapsed_time := (performance_now p - time0) * 1000 in
  (user_cpu_delta + system_cpu_delta) / elapsed_time / os_cpus_length p * 100.

(** A process on four cores that uses half a second of CPU time in every
    second, read at [t] milliseconds. *)
Definition steadyProcess (t : Q) : Process :=
  {| cpuUsage_now := {| user := 400 * t; system := 100 * t |};
     memoryUsage_now := {| rss := 64 * MB; heapTotal := 32 * MB;
                           heapUsed := 16 * MB; external := 1 * MB |};
     performance_now := t;
     os_cpus_length := 4;
     cpuUsage_after := {| user := 400 * t; system := 100 * t |} |}.

(** A sampler started at time 0 and sampled after one and after two
    seconds. *)
Definition twoSamples : ResourceMonitor :=
  sample (steadyProcess 2000)
    (sample (steadyProcess 1000)
       (start (steadyProcess 0) (ResourceMonitor_new (steadyProcess 0)))).

(** The accumulators of the two reductions after [k] samples: every sum is at
    most [k] times the matching peak. *)
Definition bounded (k : nat) (sum peak : MetricSet) : Prop :=
  let n := inject_Z (Z.of_nat k) in
  ms_cpu sum <= n * ms_cpu peak /\
  rss (ms_memory sum) <= n * rss (ms_memory peak) /\
  heapTotal (ms_memory sum) <= n * heapTotal (ms_memory peak) /\
  heapUsed (ms_memory sum) <= n * heapUsed (ms_memory peak) /\
  external (ms_memory sum) <= n * external (ms_memory peak).

(** Kinds of events. *)
Definition isHttpPost (e : event) : bool :=
  match e with HttpPost _ _ => true | _ => false end.

Definition isSafetyLimitApplied (e : event) : bool :=
  match e with LogSafetyLimitApplied _ _ => true | _ => false end.

(** The lines derived from the successful outcomes: the two averages and the
    compression block. *)
Definition isDerivedReport (e : event) : bool :=
  match e with
  | LogAverageRequestDuration _ | LogAverageProcessingTime _
  | LogCompressionResults _ _ | LogQuality _ _ _ => true
  | _ => false
  end.

Definition countPosts (tr : list event) : nat :=
  List.length (filter isHttpPost tr).

Definition Qsum (l : list Q) : Q := fold_right Qplus 0 l.

(** The server-reported processing times among some outcomes: one entry for
    each outcome that reports one. *)
Definition reportedTimes (l : list RequestOutcome) : list Q :=
  flat_map (fun r =>
    match timings r with
    | Some t => match totalProcessingTime t with
                | Some x => [x]
                | None => []
                end
    | None => []
    end) l.

(** The mean processing time as the specification words it: over the
    outcomes that report one. *)
Definition meanOfReported (successfulResults : list RequestOutcome) : Q :=
  Qsum (reportedTimes successfulResults)
    / length_num (reportedTimes successfulResults).

(** A scenario fails, for the runner, when its single request is rejected or
    when the scenario timer wins the race of its burst. *)
Definition scenarioFails (w : ScenarioWorld) (scenario : Scenario) : bool :=
  if (concurrency scenario =? 1)%Z then
    match post (request w 0%nat) with
    | Rejected _ => true
    | Resolved _ => false
    end
  else timeout_first w.

Definition skipLines (rest : list Scenario) : list event :=
  map (fun scenario => LogSkippingScenario (name scenario)) rest.

(** Example hosts. *)
Definition fullReport (ms : Q) : ResponseData :=
  {| data_timings := Some {| totalProcessingTime := Some ms |};
     data_sizes := Some {| totalOriginalSize := 1000;
                           totalProcessedSize :=
                             Some [("low"%string, 250); ("medium"%string, 500);
                                   ("original"%string, 900)] |} |}.

Definition bareReport : ResponseData :=
  {| data_timings := None; data_sizes := None |}.

Definition answered (data : ResponseData) : RequestWorld :=
  {| now_before := 10; post := Resolved data; now_after := 510 |}.

Definition refused : RequestWorld :=
  {| now_before := 10;
     post := Rejected "connect ECONNREFUSED 127.0.0.1:3000";
     now_after := 12 |}.

(** A scenario of two seconds in which the request at an even index gets a
    full report of 100 ms and the one at an odd index a report without
    timings. *)
Definition mixedWorld (timeout : bool) : ScenarioWorld :=
  {| monitor_created := steadyProcess 0;
     monitor_started := steadyProcess 0;
     request := fun i => if Nat.even i then answered (fullReport 100)
                         else answered bareReport;
     race_before := 11;
     timeout_first := timeout;
     timer_ticks := [steadyProcess 1000];
     race_after := 520;
     monitor_stopped := steadyProcess 2000 |}.

(** A scenario in which every request is refused. *)
Definition downWorld : ScenarioWorld :=
  {| monitor_created := steadyProcess 0;
     monitor_started := steadyProcess 0;
     request := fun _ => refused;
     race_before := 11;
     timeout_first := false;
     timer_ticks := [];
     race_after := 13;
     monitor_stopped := steadyProcess 3 |}.

(** A run in which the first scenario is answered and every later one, if
    started, times out. *)
Definition laterTimeOut (i : nat) : ScenarioWorld :=
  mixedWorld (negb (Nat.eqb i 0)).

(** A host without a seed file. *)
Definition noSeedHost : Host :=
  {| totalmem := 8192 * MB; sampleFile := None; world := laterTimeOut |}.

(* ================================================================== *)
(** ** Safety governor: the watchdog *)

(** The two lines the watchdog prints before it ends the process. *)
Inductive alert : Type :=
| ErrSafetyAlert (rssMemoryMB memoryThresholdMB : Q)
| ErrTerminatingBenchmark.

(** One firing of the interval callback of [startSafetyMonitor], with the
    ceiling computed when the monitor was started and the memory reading of
    this firing. *)
Definition safetyMonitorTick (memoryThresholdMB : Q) (memUsage : MemoryUsage)
  : list alert * completion unit :=
  let rssMemoryMB := rss memUsage / MB in
  if negb (Qle_bool rssMemoryMB memoryThresholdMB)
  then ([ErrSafetyAlert rssMemoryMB memoryThresholdMB;
         ErrTerminatingBenchmark], Exit 1)
  else ([], Normal tt).

(* ================================================================== *)
(** ** More definitions used in statements *)

(** The outcome a request settles to. *)
Definition outcomeOf (w : RequestWorld) : RequestOutcome :=
  match post w with
  | Resolved data =>
      {| success := true; duration := now_after w - now_before w;
         timings := data_timings data; sizes := data_sizes data;
         error := None |}
  | Rejected message =>
      {| success := false; duration := now_after w - now_before w;
         timings := None; sizes := None; error := Some message |}
  end.

Definition isResolved (w : RequestWorld) : bool :=
  match post w with Resolved _ => true | Rejected _ => false end.

(** The number of posts a scenario sends when it is run. *)
Definition postsOf (scenario : Scenario) : nat :=
  if (concurrency scenario =? 1)%Z then 1%nat
  else Z.to_nat (Z.min (concurrency scenario)
                   (maxConcurrentRequests SAFETY_LIMITS)).

Definition totalPosts (l : list Scenario) : nat :=
  fold_right (fun scenario n => (postsOf scenario + n)%nat) 0%nat l.

(** A seed of three bytes. *)
Definition threeBytes : Buffer := [x01; x02; x03].


(** [v] is the largest of zero and the values of [f] over [l]. *)
Definition isPeakOf (f : Sample -> Q) (l : list Sample) (v : Q) : Prop :=
  0 <= v /\
  Forall (fun s => f s <= v) l /\
  (v = 0 \/ exists s, In s l /\ v = f s).

(** The arithmetic mean of the values of [f] over [l]. *)
Definition meanOf {A : Type} (f : A -> Q) (l : list A) : Q :=
  Qsum (map f l) / length_num l.


(** How a scenario that is run ends, read off the host's behaviour: the new
    value of [previousScenarioFailed], or the [TypeError] of a single request
    whose response lacks the processing time. *)
Definition scenarioOutcome (w : ScenarioWorld) (scenario : Scenario)
  : completion bool :=
  if (concurrency scenario =? 1)%Z then
    match post (request w 0%nat) with
    | Rejected _ => Normal true
    | Resolved data =>
        match data_timings data with
        | None =>
            Throw
              "Cannot read properties of undefined (reading 'totalProcessingTime')"
        | Some t =>
            match totalProcessingTime t with
            | None =>
                Throw "Cannot read properties of undefined (reading 'toFixed')"
            | Some _ => Normal false
            end
        end
    end
  else Normal (timeout_first w).

(** A run in which the single request is answered without timings. *)
Definition bareWorld (i : nat) : ScenarioWorld :=
  {| monitor_created := steadyProcess 0;
     monitor_started := steadyProcess 0;
     request := fun _ => answered bareReport;
     race_before := 11;
     timeout_first := false;
     timer_ticks := [];
     race_after := 520;
     monitor_stopped := steadyProcess 2000 |}.

(* ================================================================== *)
(** ** Upload endpoint, other version: the quality targets *)

Module Earlier.

(** [Math.max(5, Math.min(30, Math.floor(50 / originalSizeKB * 100)))]. *)
Definition low_targetQuality (fileBuffer : Buffer) : xnum :=
  XNum.max (Fin 5)
    (XNum.min (Fin 30) (floor_div_mul 50 (originalSizeKB fileBuffer) 100)).

(** [Math.min(90, Math.max(30, Math.floor(60 / originalSizeKB * 100)))]. *)
Definition medium_targetQuality (fileBuffer : Buffer) : xnum :=
  XNum.min (Fin 90)
    (XNum.max (Fin 30) (floor_div_mul 60 (originalSizeKB fileBuffer) 100)).

End Earlier.


(* ================================================================== *)
(** ** Upload endpoint: [processImage], the route [/upload] and saving *)

Module Upload.

(** The three values [processImage] is called with. *)
Inductive Quality : Type := Low | Medium | Original.

(** What [processImage] asks of the image library: the input, the options of
    [resize] if it is called, and the options of [jpeg] if it is called
    (an option not given is [None] or [false]). *)
Record ResizeOptions : Type := {
  width : Z;
  fit : string;
  withoutEnlargement : bool
}.

Record JpegOptions : Type := {
  quality : xnum;
  progressive : bool;
  optimizeScans : bool;
  chromaSubsampling : option string;
  mozjpeg : bool
}.

Record Pipeline : Type := {
  input : Buffer;
  resize : option ResizeOptions;
  jpeg : option JpegOptions
}.

(** How [toBuffer()] settles. *)
Inductive Encoded : Type :=
| ToBufferResolved (result : Buffer)
| ToBufferRejected (message : string).

(** What the endpoint does to the outside world and prints. *)
Inductive action : Type :=
| ToBuffer (p : Pipeline)
| LogProcessing (q : Quality)
    (processTime originalSizeKB resultSizeKB compressionRatio : Q)
| Mkdir (path : string)
| WriteFile (path : string) (data : Buffer)
| LogSavingTimes (lowTime mediumTime originalTime : Q)
| ErrSavingProcessedImages (message : string)
| LogSizeSummary (totalOriginalSize lowSize mediumSize originalSize : Q).

Definition Run (A : Type) : Type := (list action * completion A)%type.

Definition pure {A : Type} (a : A) : Run A := ([], Normal a).

Definition andThen {A B : Type} (m : Run A) (k : A -> Run B) : Run B :=
  match m with
  | (tr, Normal a) => let (tr', c) := k a in (tr ++ tr', c)
  | (tr, Throw msg) => (tr, Throw msg)
  | (tr, Exit code) => (tr, Exit code)
  | (tr, OutOfFuel) => (tr, OutOfFuel)
  end.

Definition perform (e : action) : Run unit := ([e], Normal tt).
Definition raise {A : Type} (message : string) : Run A := ([], Throw message).

Definition tryCatch {A : Type} (body : Run A) (handler : string -> Run A)
  : Run A :=
  match body with
  | (tr, Throw msg) => let (tr', c) := handler msg in (tr ++ tr', c)
  | other => other
  end.

Definition effects {A : Type} (m : Run A) : list action := fst m.
Definition ending {A : Type} (m : Run A) : completion A := snd m.

Declare Scope upload_scope.
Delimit Scope upload_scope with upload.
Notation "x <- m ;; k" := (andThen m (fun x => k))
  (at level 61, m at next level, right associativity) : upload_scope.
Notation "m ;;; k" := (andThen m (fun _ => k))
  (at level 61, right associativity) : upload_scope.
Local Open Scope upload_scope.

(** What the host decides during one request: the image library, the clock
    readings in the order of the calls of [performance.now()], and the file
    system ([None] for success, [Some message] for a rejection). *)
Record World : Type := {
  sharp : Pipeline -> Encoded;
  totalStartTime : Q;
  fileStartTime : nat -> Q;
  processClock : nat -> Quality -> Q * Q;
  fileEndTime : nat -> Q;
  saveStartTime : Q;
  saveClock : string -> Q * Q;
  mkdir : string -> option string;
  writeFile : string -> option string;
  saveEndTime : Q;
  totalEndTime : Q
}.

(** The object [processImage] returns. *)
Record Processed : Type := {
  buffer : Buffer;
  processTime : Q;
  originalSize : Q;
  resultSize : Q;
  compressionRatio : Q
}.

(** The pipeline [processImage] builds for a quality: [sharp(fileBuffer)],
    then [resize] and [jpeg] as the quality asks. *)
Definition pipelineFor (fileBuffer : Buffer) (q : Quality) : Pipeline :=
  let originalSizeKB := originalSizeKB fileBuffer in
  match q with
  | Low =>
      let targetQuality := targetQuality_low fileBuffer in
      let resized :=
        if negb (Qle_bool originalSizeKB 1024)
        then Some {| width := 1000; fit := "inside";
                     withoutEnlargement := true |}
        else None in
      {| input := fileBuffer;
         resize := resized;
         jpeg := Some {| quality := targetQuality;
                         progressive := true;
                         optimizeScans := true;
                         chromaSubsampling := Some "4:2:0"%string;
                         mozjpeg := true |} |}
  | Medium =>
      let targetQuality := targetQuality_medium fileBuffer in
      {| input := fileBuffer;
         resize := None;
         jpeg := Some {| quality := targetQuality;
                         progressive := true;
                         optimizeScans := true;
                         chromaSubsampling := None;
                         mozjpeg := false |} |}
  | Original =>
      {| input := fileBuffer; resize := None; jpeg := None |}
  end.

(** Running a pipeline to a buffer.  Every error of the library, when the
    pipeline is built or when it is run, is a rejection here. *)
Definition toBuffer (w : World) (p : Pipeline) : Run Buffer :=
  perform (ToBuffer p) ;;;
  match sharp w p with
  | ToBufferResolved result => pure result
  | ToBufferRejected message => raise message
  end.

(** [processImage(fileBuffer, quality)], with the two clock readings of the
    call. *)
Definition processImage (w : World) (clock : Q * Q) (fileBuffer : Buffer)
    (q : Quality) : Run Processed :=
  let startTime := fst clock in
  let originalSizeKB := originalSizeKB fileBuffer in
  result <- toBuffer w (pipelineFor fileBuffer q) ;;
  let endTime := snd clock in
  let processTime := endTime - startTime in
  let resultSizeKB := inject_Z (Buffer_length result) / 1024 in
  let compressionRatio := originalSizeKB / resultSizeKB in
  perform (LogProcessing q processTime originalSizeKB resultSizeKB
          compressionRatio) ;;;
  pure {| buffer := result;
         processTime := processTime;
         originalSize := originalSizeKB;
         resultSize := resultSizeKB;
         compressionRatio := compressionRatio |}.

(** An uploaded file as the route reads it. *)
Record UploadedFile : Type := {
  name : string;
  data : Buffer
}.

(** [req.files.media]: one file or an array of files. *)
Inductive Media : Type :=
| OneFile (file : UploadedFile)
| ManyFiles (files : list UploadedFile).

(** An object with the keys [low], [medium] and [original]. *)
Record PerQuality (A : Type) : Type := {
  low : A;
  medium : A;
  original : A
}.
Arguments low {A} _.
Arguments medium {A} _.
Arguments original {A} _.

(** An entry [{ name, buffer }] of [processedImages]. *)
Record ProcessedImage : Type := {
  image_name : string;
  image_buffer : Buffer
}.

(** An entry of [timings.files]. *)
Record FileTimings : Type := {
  timed_fileName : string;
  timed_qualities : PerQuality Q;
  totalTime : Q
}.

(** An entry of [sizes.files]; each quality has a [size] and a [ratio]. *)
Record FileSizes : Type := {
  sized_fileName : string;
  sized_qualities : PerQuality (Q * Q)
}.

Record ReportTimings : Type := {
  totalProcessingTime : Q;
  timings_files : list FileTimings
}.

Record ReportSizes : Type := {
  totalOriginalSize : Q;
  totalProcessedSize : PerQuality Q;
  sizes_files : option (list FileSizes)
}.

Inductive Response : Type :=
| Status (code : Z) (body : string)
| Json (message : string) (timings : ReportTimings) (sizes : ReportSizes).

(** The three objects the route fills while it goes through the files. *)
Record Acc : Type := {
  processedImages : PerQuality (list ProcessedImage);
  timings : ReportTimings;
  sizes : ReportSizes
}.

Definition initialAcc : Acc := {|
  processedImages := {| low := []; medium := []; original := [] |};
  timings := {| totalProcessingTime := 0; timings_files := [] |};
  sizes := {| totalOriginalSize := 0;
              totalProcessedSize := {| low := 0; medium := 0; original := 0 |};
              sizes_files := None |}
|}.

(** The body of the [try] block for the file at position [i]. *)
Definition processFile (w : World) (i : nat) (file : UploadedFile)
    (acc : Acc) : Run Acc :=
  let fileStartTime := fileStartTime w i in
  let fileBuffer := data file in
  let originalFileSize := inject_Z (Buffer_length fileBuffer) / 1024 in
  let totalOriginalSize := totalOriginalSize (sizes acc) + originalFileSize in
  l <- processImage w (processClock w i Low) fileBuffer Low ;;
  let lows := low (processedImages acc)
              ++ [{| image_name := ("low_" ++ name file)%string;
                     image_buffer := buffer l |}] in
  let lowTotal := low (totalProcessedSize (sizes acc)) + resultSize l in
  m <- processImage w (processClock w i Medium) fileBuffer Medium ;;
  let mediums := medium (processedImages acc)
                 ++ [{| image_name := ("medium_" ++ name file)%string;
                        image_buffer := buffer m |}] in
  let mediumTotal := medium (totalProcessedSize (sizes acc)) + resultSize m in
  o <- processImage w (processClock w i Original) fileBuffer Original ;;
  let originals := original (processedImages acc)
                   ++ [{| image_name := ("original_" ++ name file)%string;
                          image_buffer := buffer o |}] in
  let originalTotal :=
    original (totalProcessedSize (sizes acc)) + resultSize o in
  let fileEndTime := fileEndTime w i in
  let fileTimings :=
    {| timed_fileName := name file;
       timed_qualities := {| low := processTime l; medium := processTime m;
                             original := processTime o |};
       totalTime := fileEndTime - fileStartTime |} in
  let fileSizes :=
    {| sized_fileName := name file;
       sized_qualities :=
         {| low := (resultSize l, compressionRatio l);
            medium := (resultSize m, compressionRatio m);
            original := (resultSize o, compressionRatio o) |} |} in
  pure {| processedImages :=
           {| low := lows; medium := mediums; original := originals |};
         timings :=
           {| totalProcessingTime := totalProcessingTime (timings acc);
              timings_files := timings_files (timings acc) ++ [fileTimings] |};
         sizes :=
           {| totalOriginalSize := totalOriginalSize;
              totalProcessedSize :=
                {| low := lowTotal; medium := mediumTotal;
                   original := originalTotal |};
              sizes_files :=
                Some (match sizes_files (sizes acc) with
                      | Some files => files
                      | None => []
                      end ++ [fileSizes]) |} |}.

(** [for (const file of mediaFiles) { try { ... } catch (error) { return
    res.status(500).send(...) } }]: the accumulators at the end of the
    loop, or the response of the early return. *)
Fixpoint processFiles (w : World) (i : nat) (mediaFiles : list UploadedFile)
    (acc : Acc) : Run (Acc + Response) :=
  match mediaFiles with
  | [] => pure (inl acc)
  | file :: rest =>
      step <- tryCatch
                (acc' <- processFile w i file acc ;; pure (inl acc'))
                (fun _ =>
                   pure (inr (Status 500
                               ("Error processing file: " ++ name file)%string))) ;;
      match step with
      | inl acc' => processFiles w (S i) rest acc'
      | inr response => pure (inr response)
      end
  end.

(** [s.lastIndexOf(c)]: the position of the last [c], or -1. *)
Fixpoint lastIndexOf_from (c : Ascii.ascii) (s : string) (i found : Z) : Z :=
  match s with
  | EmptyString => found
  | String a rest =>
      lastIndexOf_from c rest (i + 1) (if Ascii.eqb a c then i else found)
  end.

Definition lastIndexOf (c : Ascii.ascii) (s : string) : Z :=
  lastIndexOf_from c s 0 (-1).

(** [s.substring(0, end)]; a negative [end] counts as 0. *)
Definition substring_to (s : string) (end_ : Z) : string :=
  String.substring 0 (Z.to_nat end_) s.

(** [saveImageToDisk(buffer, filePath)]. *)
Definition saveImageToDisk (w : World) (image : Buffer) (filePath : string)
  : Run Q :=
  let startTime := fst (saveClock w filePath) in
  let dir := substring_to filePath (lastIndexOf "/"%char filePath) in
  perform (Mkdir dir) ;;;
  match mkdir w dir with
  | Some message => raise message
  | None => pure tt
  end ;;;
  perform (WriteFile filePath image) ;;;
  match writeFile w filePath with
  | Some message => raise message
  | None => pure tt
  end ;;;
  let endTime := snd (saveClock w filePath) in
  pure (endTime - startTime).

(** [for (const file of files) { const time = await saveImageToDisk(...,
    prefix + file.name); total += time; }]. *)
Fixpoint saveEach (w : World) (prefix : string) (files : list ProcessedImage)
    (total : Q) : Run Q :=
  match files with
  | [] => pure total
  | file :: rest =>
      time <- saveImageToDisk w (image_buffer file)
                (prefix ++ image_name file)%string ;;
      saveEach w prefix rest (total + time)
  end.

Definition saveProcessedImages (w : World)
    (images : PerQuality (list ProcessedImage)) : Run unit :=
  tryCatch
    (lowTime <- saveEach w "output/low/" (low images) 0 ;;
     mediumTime <- saveEach w "output/medium/" (medium images) 0 ;;
     originalTime <- saveEach w "output/original/" (original images) 0 ;;
     perform (LogSavingTimes lowTime mediumTime originalTime))
    (fun message => perform (ErrSavingProcessedImages message)).

(** The handler of [POST /upload]; [files] is [req.files], absent or with an
    absent or present [media]. *)
Definition upload (w : World) (files : option (option Media)) : Run Response :=
  match files with
  | None | Some None => pure (Status 400 "No files were uploaded.")
  | Some (Some media) =>
      let mediaFiles :=
        match media with
        | OneFile file => [file]
        | ManyFiles files => files
        end in
      step <- processFiles w 0 mediaFiles initialAcc ;;
      match step with
      | inr response => pure response
      | inl acc =>
          saveProcessedImages w (processedImages acc) ;;;
          let timings :=
            {| totalProcessingTime := totalEndTime w - totalStartTime w;
               timings_files := timings_files (timings acc) |} in
          let s := sizes acc in
          perform (LogSizeSummary (totalOriginalSize s)
                  (low (totalProcessedSize s))
                  (medium (totalProcessedSize s))
                  (original (totalProcessedSize s))) ;;;
          pure (Json "Files uploaded and processed successfully" timings s)
      end
  end.

(** *** Definitions used in statements *)

Definition mediaFilesOf (files : option (option Media))
  : option (list UploadedFile) :=
  match files with
  | Some (Some (OneFile file)) => Some [file]
  | Some (Some (ManyFiles files)) => Some files
  | _ => None
  end.

(** What the library returns for a file at a quality; the empty buffer stands
    for a rejection. *)
Definition encoded (w : World) (q : Quality) (file : UploadedFile) : Buffer :=
  match sharp w (pipelineFor (data file) q) with
  | ToBufferResolved result => result
  | ToBufferRejected _ => []
  end.

Definition resolves (w : World) (q : Quality) (file : UploadedFile) : bool :=
  match sharp w (pipelineFor (data file) q) with
  | ToBufferResolved _ => true
  | ToBufferRejected _ => false
  end.

(** The library encodes a file at all three qualities. *)
Definition succeeds (w : World) (file : UploadedFile) : bool :=
  resolves w Low file && resolves w Medium file && resolves w Original file.

Definition sizeKB (b : Buffer) : Q := inject_Z (Buffer_length b) / 1024.

Definition isToBuffer (e : action) : bool :=
  match e with ToBuffer _ => true | _ => false end.

Definition touchesDisk (e : action) : bool :=
  match e with Mkdir _ | WriteFile _ _ => true | _ => false end.

(** The files written, in order. *)
Definition written (tr : list action) : list (string * Buffer) :=
  flat_map (fun e => match e with
                     | WriteFile path image => [(path, image)]
                     | _ => []
                     end) tr.

(** The directories created, in order. *)
Definition directories (tr : list action) : list string :=
  flat_map (fun e => match e with Mkdir path => [path] | _ => [] end) tr.

(** The files the route means to write for the uploaded files. *)
Definition outputFiles (w : World) (prefix tag : string) (q : Quality)
    (files : list UploadedFile) : list (string * Buffer) :=
  map (fun file => ((prefix ++ tag ++ name file)%string, encoded w q file))
    files.

(** A library that turns every input into the one byte [x2a], and one that
    rejects the empty input only. *)
Definition oneByteCodec (p : Pipeline) : Encoded := ToBufferResolved [x2a].

Definition rejectsEmpty (p : Pipeline) : Encoded :=
  match input p with
  | [] => ToBufferRejected "Input Buffer is empty"
  | _ => ToBufferResolved [x2a]
  end.

(** A host with a given library, a clock that stands still and a disk that
    takes every write. *)
Definition quietWorld (codec : Pipeline -> Encoded) : World :=
  {| sharp := codec;
     totalStartTime := 0;
     fileStartTime := fun _ => 0;
     processClock := fun _ _ => (0, 0);
     fileEndTime := fun _ => 0;
     saveStartTime := 0;
     saveClock := fun _ => (0, 0);
     mkdir := fun _ => None;
     writeFile := fun _ => None;
     saveEndTime := 0;
     totalEndTime := 40 |}.

(** The same host with a disk that is full. *)
Definition fullDisk (codec : Pipeline -> Encoded) : World :=
  {| sharp := codec;
     totalStartTime := 0;
     fileStartTime := fun _ => 0;
     processClock := fun _ _ => (0, 0);
     fileEndTime := fun _ => 0;
     saveStartTime := 0;
     saveClock := fun _ => (0, 0);
     mkdir := fun _ => None;
     writeFile := fun _ => Some "ENOSPC: no space left on device"%string;
     saveEndTime := 0;
     totalEndTime := 40 |}.

Definition photo : UploadedFile :=
  {| name := "a.png"; data := [x01; x02; x03] |}.

Definition emptyFile : UploadedFile := {| name := "b.png"; data := [] |}.

(** The entry of [processedImages] for a file at a quality. *)
Definition imageOf (w : World) (tag : string) (q : Quality)
    (file : UploadedFile) : ProcessedImage :=
  {| image_name := (tag ++ name file)%string;
     image_buffer := encoded w q file |}.

(** The accumulators hold the totals and the entries of the files [done], in
    order. *)
Definition summarises (w : World) (done : list UploadedFile) (acc : Acc)
  : Prop :=
  totalOriginalSize (sizes acc)
  == Qsum (map (fun file => sizeKB (data file)) done) /\
  low (totalProcessedSize (sizes acc))
  == Qsum (map (fun file => sizeKB (encoded w Low file)) done) /\
  medium (totalProcessedSize (sizes acc))
  == Qsum (map (fun file => sizeKB (encoded w Medium file)) done) /\
  original (totalProcessedSize (sizes acc))
  == Qsum (map (fun file => sizeKB (encoded w Original file)) done) /\
  low (processedImages acc) = map (imageOf w "low_" Low) done /\
  medium (processedImages acc) = map (imageOf w "medium_" Medium) done /\
  original (processedImages acc) = map (imageOf w "original_" Original) done /\
  map timed_fileName (timings_files (timings acc)) = map name done /\
  map sized_fileName (match sizes_files (sizes acc) with
                      | Some files => files
                      | None => []
                      end) = map name done.

Definition toBufferCount (tr : list action) : nat :=
  List.length (filter isToBuffer tr).

(** The directory [saveImageToDisk] creates for a path. *)
Definition dirOf (filePath : string) : string :=
  substring_to filePath (lastIndexOf "/" filePath).

(** What saving a list of images does when the disk takes every write. *)
Definition saveEvents (prefix : string) (files : list ProcessedImage)
  : list action :=
  flat_map (fun file =>
    [Mkdir (dirOf (prefix ++ image_name file));
     WriteFile (prefix ++ image_name file)%string (image_buffer file)]) files.

Definition noSlash (s : string) : bool :=
  negb (existsb (Ascii.eqb "/"%char) (list_ascii_of_string s)).

End Upload.


(* ================================================================== *)
(** ** The sample image: the pixel loop of [createSampleImage] *)

Module SampleImage.

(** The byte an element of a [Buffer] takes when a number is stored in it:
    the number modulo 256. *)
Definition toUint8 (v : Z) : byte :=
  match Byte.of_N (Z.to_N (v mod 256)) with
  | Some b => b
  | None => x00
  end.

(** [buffer[i] = v]; a store outside the buffer does nothing. *)
Definition store (buffer : Buffer) (i v : Z) : Buffer :=
  if ((0 <=? i) && (i <? Buffer_length buffer))%Z
  then firstn (Z.to_nat i) buffer ++ toUint8 v
       :: skipn (S (Z.to_nat i)) buffer
  else buffer.

(** [for (let i = start; i < start + n; i++) body], on a state. *)
Fixpoint forLoop {S : Type} (n : nat) (i : Z) (body : Z -> S -> S) (s : S)
  : S :=
  match n with
  | O => s
  | Datatypes.S n' => forLoop n' (i + 1) body (body i s)
  end.

(** The buffer [createSampleImage] hands to the image library, for a width
    and a height (both 1000 in the script). *)
Definition gradient (width height : Z) : Buffer :=
  let channels := 3%Z in
  let buffer := Buffer_alloc (width * height * channels) in
  forLoop (Z.to_nat height) 0 (fun y buffer =>
    forLoop (Z.to_nat width) 0 (fun x buffer =>
      let i := ((y * width + x) * channels)%Z in
      let buffer := store buffer i (255 * x / width) in
      let buffer := store buffer (i + 1) (255 * y / height) in
      store buffer (i + 2) (255 * (x + y) / (width + height)))
      buffer)
    buffer.

(** *** Definitions used in statements *)

(** The three channel values of the pixel in column [x] of row [y]. *)
Definition pixel (width height x y : Z) : list Z :=
  [255 * x / width; 255 * y / height; 255 * (x + y) / (width + height)]%Z.

Definition row (width height y : Z) (from : Z) (n : nat) : Buffer :=
  flat_map (fun k => map toUint8 (pixel width height (from + Z.of_nat k) y))
    (seq 0 n).

Definition rows (width height : Z) (from : Z) (n : nat) : Buffer :=
  flat_map (fun k => row width height (from + Z.of_nat k) 0 (Z.to_nat width))
    (seq 0 n).

End SampleImage.


(* ================================================================== *)
(** ** Resource sampler: the arithmetic in double precision *)

(** The sampler above computes with exact rationals.  [Doubles] has
    [start], [sample], [stop] and [getResults] on the numbers of the source:
    IEEE 754 binary64, every operation rounded to nearest. *)
Module Doubles.
Import PrimFloat.
Local Open Scope float_scope.

Definition double : Set := float.

(** [Math.max(a, b)]: [NaN] when either argument is, and [+0] above [-0]. *)
Definition Math_max (a b : double) : double :=
  if (is_nan a || is_nan b)%bool then nan
  else if a <? b then b
  else if b <? a then a
  else if get_sign a then b else a.

(** [array.length] as a number; exact below [2^53]. *)
Fixpoint length_double {A : Type} (l : list A) : double :=
  match l with
  | [] => 0
  | _ :: rest => length_double rest + 1
  end.

Record DoubleCpuUsage : Set := { d_user : double; d_system : double }.

Record DoubleMemoryUsage : Set := {
  d_rss : double;
  d_heapTotal : double;
  d_heapUsed : double;
  d_external : double
}.

Record DoubleSample : Set := {
  d_timestamp : double;
  d_cpu : double;
  d_memory : DoubleMemoryUsage
}.

Record DoubleMetricSet : Set := {
  d_ms_cpu : double;
  d_ms_memory : DoubleMemoryUsage
}.

Record DoubleProcess : Set := {
  d_cpuUsage_now : DoubleCpuUsage;
  d_memoryUsage_now : DoubleMemoryUsage;
  d_performance_now : double;
  d_os_cpus_length : double;
  d_cpuUsage_after : DoubleCpuUsage
}.

Record DoubleMonitor : Set := {
  d_cpuUsage : DoubleCpuUsage;
  d_memUsage : DoubleMemoryUsage;
  d_startTime : double;
  d_samples : list DoubleSample;
  d_interval : bool;
  d_sampleRate : double
}.

Definition new_double (p : DoubleProcess) : DoubleMonitor := {|
  d_cpuUsage := d_cpuUsage_now p;
  d_memUsage := d_memoryUsage_now p;
  d_startTime := d_performance_now p;
  d_samples := [];
  d_interval := false;
  d_sampleRate := 1000
|}.

Definition start_double (p : DoubleProcess) (m : DoubleMonitor)
  : DoubleMonitor := {|
  d_cpuUsage := d_cpuUsage_now p;
  d_memUsage := d_memoryUsage_now p;
  d_startTime := d_performance_now p;
  d_samples := [];
  d_interval := true;
  d_sampleRate := d_sampleRate m
|}.

Definition sample_double (p : DoubleProcess) (m : DoubleMonitor)
  : DoubleMonitor :=
  let newCpuUsage :=
    {| d_user := d_user (d_cpuUsage_now p) - d_user (d_cpuUsage m);
       d_system := d_system (d_cpuUsage_now p) - d_system (d_cpuUsage m) |} in
  let newMemUsage := d_memoryUsage_now p in
  let elapsedMs := d_performance_now p - d_startTime m in
  let cpuUsagePercent :=
    (d_user newCpuUsage + d_system newCpuUsage) / (elapsedMs * 1000) * 100
      / d_os_cpus_length p in
  {| d_cpuUsage := d_cpuUsage_after p;
     d_memUsage := d_memUsage m;
     d_startTime := d_startTime m;
     d_samples := d_samples m ++ [
       {| d_timestamp := elapsedMs;
          d_cpu := cpuUsagePercent;
          d_memory :=
            {| d_rss := d_rss newMemUsage / (1024 * 1024);
               d_heapTotal := d_heapTotal newMemUsage / (1024 * 1024);
               d_heapUsed := d_heapUsed newMemUsage / (1024 * 1024);
               d_external := d_external newMemUsage / (1024 * 1024) |} |} ];
     d_interval := d_interval m;
     d_sampleRate := d_sampleRate m |}.

Inductive DoubleResults : Set :=
| DoubleZeroMetrics (zero : DoubleMetricSet)
| DoubleSummary (average peak : DoubleMetricSet) (all : list DoubleSample).

Definition zero_double : DoubleMetricSet :=
  {| d_ms_cpu := 0;
     d_ms_memory := {| d_rss := 0; d_heapTotal := 0; d_heapUsed := 0;
                       d_external := 0 |} |}.

Definition sumStep_double (acc : DoubleMetricSet) (s : DoubleSample)
  : DoubleMetricSet :=
  {| d_ms_cpu := d_ms_cpu acc + d_cpu s;
     d_ms_memory :=
       {| d_rss := d_rss (d_ms_memory acc) + d_rss (d_memory s);
          d_heapTotal :=
            d_heapTotal (d_ms_memory acc) + d_heapTotal (d_memory s);
          d_heapUsed :=
            d_heapUsed (d_ms_memory acc) + d_heapUsed (d_memory s);
          d_external :=
            d_external (d_ms_memory acc) + d_external (d_memory s) |} |}.

Definition peakStep_double (acc : DoubleMetricSet) (s : DoubleSample)
  : DoubleMetricSet :=
  {| d_ms_cpu := Math_max (d_ms_cpu acc) (d_cpu s);
     d_ms_memory :=
       {| d_rss := Math_max (d_rss (d_ms_memory acc)) (d_rss (d_memory s));
          d_heapTotal :=
            Math_max (d_heapTotal (d_ms_memory acc))
              (d_heapTotal (d_memory s));
          d_heapUsed :=
            Math_max (d_heapUsed (d_ms_memory acc)) (d_heapUsed (d_memory s));
          d_external :=
            Math_max (d_external (d_ms_memory acc))
              (d_external (d_memory s)) |} |}.

Definition getResults_double (m : DoubleMonitor) : DoubleResults :=
  match d_samples m with
  | [] => DoubleZeroMetrics zero_double
  | _ :: _ =>
      let sum := fold_left sumStep_double (d_samples m) zero_double in
      let count := length_double (d_samples m) in
      let peak := fold_left peakStep_double (d_samples m) zero_double in
      DoubleSummary
        {| d_ms_cpu := d_ms_cpu sum / count;
           d_ms_memory :=
             {| d_rss := d_rss (d_ms_memory sum) / count;
                d_heapTotal := d_heapTotal (d_ms_memory sum) / count;
                d_heapUsed := d_heapUsed (d_ms_memory sum) / count;
                d_external := d_external (d_ms_memory sum) / count |} |}
        peak
        (d_samples m)
  end.

Definition stop_double (p : DoubleProcess) (m : DoubleMonitor)
  : DoubleMonitor * DoubleResults :=
  let m1 := {| d_cpuUsage := d_cpuUsage m; d_memUsage := d_memUsage m;
               d_startTime := d_startTime m; d_samples := d_samples m;
               d_interval := false; d_sampleRate := d_sampleRate m |} in
  let m2 := sample_double p m1 in
  (m2, getResults_double m2).

(** A process on one core that has used [cpu] microseconds of CPU time when
    the clock reads [ms] milliseconds. *)
Definition oneCore (ms cpu : double) : DoubleProcess :=
  {| d_cpuUsage_now := {| d_user := cpu; d_system := 0 |};
     d_memoryUsage_now :=
       {| d_rss := 64 * (1024 * 1024); d_heapTotal := 32 * (1024 * 1024);
          d_heapUsed := 16 * (1024 * 1024); d_external := 1024 * 1024 |};
     d_performance_now := ms;
     d_os_cpus_length := 1;
     d_cpuUsage_after := {| d_user := cpu; d_system := 0 |} |}.

(** A window of three seconds: the sampler is created and started at time 0,
    its timer fires after one and after two seconds, and it is stopped after
    three; the process has by then used 1000, 3000 and 6000 microseconds of
    CPU time. *)
Definition threeSeconds : DoubleMonitor * DoubleResults :=
  stop_double (oneCore 3000 6000)
    (sample_double (oneCore 2000 3000)
       (sample_double (oneCore 1000 1000)
          (start_double (oneCore 0 0) (new_double (oneCore 0 0))))).

(** The double nearest to 0.1, which prints as [0.1], and the next double
    above it, which prints as [0.10000000000000002]. *)
Definition tenth : double := 0x1.999999999999ap-4.
Definition tenth_above : double := 0x1.999999999999bp-4.

End Doubles.

(* ================================================================== *)
(** ** Definitions used in the statements about the whole run *)

Definition isSkippingScenario (e : event) : bool :=
  match e with LogSkippingScenario _ => true | _ => false end.


(** A run in which the single request is answered, every request of the
    second scenario is refused well before the scenario timer, and the third
    scenario is answered. *)
Definition refusedBurst (i : nat) : ScenarioWorld :=
  if Nat.eqb i 1 then downWorld else mixedWorld false.




(* ================================================================== *)
(** * Properties *)

(** ** Resource sampler *)

(** Every recorded sample relates the CPU time used since the stored CPU
    baseline to the wall time since [startTime]. *)
Lemma sample_cpu (p : Process) (m : ResourceMonitor) :
  exists s,
    samples (sample p m) = samples m ++ [s] /\
    cpu s == cpuPercentSince (cpuUsage m) (startTime m) p.
Proof.
  eexists; split; [reflexivity|].
  cbn [cpu]. unfold cpuUsagePercent, cpuPercentSince, cpuUsage_since.
  cbn [user system]. unfold Qdiv. ring.
Qed.

(** [sample] moves the CPU baseline and leaves [startTime] where [start] put
    it. *)
Lemma sample_baselines (p : Process) (m : ResourceMonitor) :
  cpuUsage (sample p m) = cpuUsage_after p /\
  startTime (sample p m) = startTime m.
Proof. split; reflexivity. Qed.

(** The first sample after [start] is the percentage since [start]. *)
Lemma first_sample_cpu (p0 p : Process) (m : ResourceMonitor) :
  exists s,
    samples (sample p (start p0 m)) = [s] /\
    cpu s == cpuPercentSince (cpuUsage_now p0) (performance_now p0) p.
Proof.
  destruct (sample_cpu p (start p0 m)) as [s [Hs Hc]].
  exists s. split; [exact Hs | exact Hc].
Qed.

(** C5 (fails on the code).  Started at time 0 and sampled after one and
    after two seconds on a process that uses half a second of CPU time per
    second on four cores, the sampler records 12.5 % and then 6.25 %: the
    second sample divides the CPU time of the last second by the two seconds
    since [start], where the percentage since the previous sample is
    12.5 %. *)
Theorem sample_cpu_elapsed_since_start :
  exists s1 s2,
    samples twoSamples = [s1; s2] /\
    cpu s1 == 25 # 2 /\
    cpu s2 == 25 # 4 /\
    cpuPercentSince (cpuUsage_after (steadyProcess 1000))
      (performance_now (steadyProcess 1000)) (steadyProcess 2000) == 25 # 2 /\
    ~ cpu s2 ==
      cpuPercentSince (cpuUsage_after (steadyProcess 1000))
        (performance_now (steadyProcess 1000)) (steadyProcess 2000).
Proof.
  do 2 eexists. split; [reflexivity|].
  repeat split; try reflexivity.
  intro H. vm_compute in H. discriminate H.
Qed.

Lemma bounded_field_step (k : nat) (s p x : Q) :
  s <= inject_Z (Z.of_nat k) * p ->
  s + x <= inject_Z (Z.of_nat (S k)) * Qmax p x.
Proof.
  intro H.
  rewrite Nat2Z.inj_succ. unfold Z.succ. rewrite inject_Z_plus.
  assert (Hk : 0 <= inject_Z (Z.of_nat k)).
  { change 0 with (inject_Z 0). rewrite <- Zle_Qle. lia. }
  pose proof (Q.le_max_l p x). pose proof (Q.le_max_r p x).
  change (inject_Z 1) with 1. nra.
Qed.

Lemma bounded_step (k : nat) (sum peak : MetricSet) (s : Sample) :
  bounded k sum peak -> bounded (S k) (sumStep sum s) (peakStep peak s).
Proof.
  unfold bounded. cbv zeta. intros (H1 & H2 & H3 & H4 & H5).
  repeat split; cbn [sumStep peakStep ms_cpu ms_memory rss heapTotal heapUsed
                     external]; apply bounded_field_step; assumption.
Qed.

Lemma bounded_fold (l : list Sample) :
  forall (k : nat) (sum peak : MetricSet),
    bounded k sum peak ->
    bounded (k + List.length l) (fold_left sumStep l sum)
      (fold_left peakStep l peak).
Proof.
  induction l as [|s l IH]; intros k sum peak H; cbn [fold_left List.length].
  - rewrite Nat.add_0_r. exact H.
  - rewrite Nat.add_succ_r. apply (IH (S k)). apply bounded_step. exact H.
Qed.

Lemma bounded_zero : bounded 0 zeroMetricSet zeroMetricSet.
Proof. unfold bounded. cbn. repeat split; lra. Qed.

Lemma length_num_pos {A : Type} (l : list A) : l <> [] -> 0 < length_num l.
Proof.
  intro H. destruct l as [|a l]; [congruence|].
  unfold length_num. change 0 with (inject_Z 0). rewrite <- Zlt_Qlt.
  cbn [List.length]. lia.
Qed.

(** C6 (amended).  With the sums and the quotients of the averages taken as
    exact rational numbers: on a non-empty series [getResults] returns a
    summary over the whole series in which the peak CPU is at least the
    average CPU and each of the four peak memory fields is at least its
    average. *)
Theorem getResults_peak_ge_average (m : ResourceMonitor) :
  samples m <> [] ->
  exists average peak,
    getResults m = Summary average peak (samples m) /\
    ms_cpu average <= ms_cpu peak /\
    rss (ms_memory average) <= rss (ms_memory peak) /\
    heapTotal (ms_memory average) <= heapTotal (ms_memory peak) /\
    heapUsed (ms_memory average) <= heapUsed (ms_memory peak) /\
    external (ms_memory average) <= external (ms_memory peak).
Proof.
  intro Hne.
  pose proof (length_num_pos _ Hne) as Hpos.
  pose proof (bounded_fold (samples m) 0 _ _ bounded_zero) as Hb.
  cbn [Nat.add] in Hb. unfold bounded in Hb. cbv zeta in Hb.
  fold (length_num (samples m)) in Hb.
  destruct Hb as (H1 & H2 & H3 & H4 & H5).
  unfold getResults.
  destruct (samples m) as [|s l] eqn:E; [congruence|].
  do 2 eexists. split; [reflexivity|].
  cbn [ms_cpu ms_memory rss heapTotal heapUsed external].
  repeat split; apply Qle_shift_div_r; try exact Hpos;
    rewrite Qmult_comm; assumption.
Qed.

Lemma getResults_peak_ge_average_witness :
  exists average peak,
    getResults twoSamples = Summary average peak (samples twoSamples) /\
    ms_cpu average <= ms_cpu peak /\
    rss (ms_memory average) <= rss (ms_memory peak) /\
    heapTotal (ms_memory average) <= heapTotal (ms_memory peak) /\
    heapUsed (ms_memory average) <= heapUsed (ms_memory peak) /\
    external (ms_memory average) <= external (ms_memory peak).
Proof.
  apply (getResults_peak_ge_average twoSamples).
  vm_compute. discriminate.
Defined.

(** C6 (counterexample).  In the double precision of the source the average
    can exceed the peak.  On one core, a sampler started at time 0 whose timer
    fires after one and two seconds and which is stopped after three, the
    process having used 1000, 3000 and 6000 microseconds of CPU time by then,
    records the CPU percentage 0.1 three times.  The peak is 0.1; the sum
    0.1 + 0.1 + 0.1 rounds to 0.30000000000000004 and the average to
    0.10000000000000002, so [peak.cpu >= average.cpu] is false. *)
Lemma getResults_double_average_above_peak :
  exists average peak,
    snd Doubles.threeSeconds
    = Doubles.DoubleSummary average peak
        (Doubles.d_samples (fst Doubles.threeSeconds)) /\
    map Doubles.d_cpu (Doubles.d_samples (fst Doubles.threeSeconds))
    = [Doubles.tenth; Doubles.tenth; Doubles.tenth] /\
    Doubles.d_ms_cpu peak = Doubles.tenth /\
    Doubles.d_ms_cpu average = Doubles.tenth_above /\
    PrimFloat.ltb (Doubles.d_ms_cpu peak) (Doubles.d_ms_cpu average) = true /\
    PrimFloat.leb (Doubles.d_ms_cpu average) (Doubles.d_ms_cpu peak) = false.
Proof.
  do 2 eexists. split; [reflexivity|].
  split; [vm_compute; reflexivity|].
  split; [vm_compute; reflexivity|].
  split; [vm_compute; reflexivity|].
  split; vm_compute; reflexivity.
Qed.

(** On an empty series [getResults] returns the metric set whose five
    numbers are all zero, and whenever it divides, the divisor (the number
    of samples) is positive. *)
Lemma getResults_empty (m : ResourceMonitor) :
  (samples m = [] ->
   getResults m =
     ZeroMetrics {| ms_cpu := 0;
                    ms_memory := {| rss := 0; heapTotal := 0; heapUsed := 0;
                                    external := 0 |} |}) /\
  (forall average peak all,
     getResults m = Summary average peak all ->
     0 < length_num (samples m) /\
     ms_cpu average =
       ms_cpu (fold_left sumStep (samples m) zeroMetricSet)
         / length_num (samples m)).
Proof.
  split.
  - intro H. unfold getResults. rewrite H. reflexivity.
  - intros average peak all H. unfold getResults in H.
    destruct (samples m) as [|s l] eqn:E; [discriminate H|].
    injection H as <- _ _. split; [|reflexivity].
    apply length_num_pos. discriminate.
Qed.

(** On a non-empty series [getResults] is a summary of that series. *)
Lemma getResults_nonempty (m : ResourceMonitor) :
  samples m <> [] ->
  exists average peak, getResults m = Summary average peak (samples m).
Proof.
  intro H. unfold getResults. destruct (samples m); [congruence|].
  do 2 eexists. reflexivity.
Qed.

(** [stop] always leaves at least one sample, so the summary it returns is
    never the zero metric set. *)
Lemma stop_samples (p : Process) (m : ResourceMonitor) :
  samples (fst (stop p m)) <> [].
Proof.
  unfold stop. cbn [fst sample samples].
  destruct (samples m); discriminate.
Qed.

Lemma stop_results (p : Process) (m : ResourceMonitor) :
  snd (stop p m) = getResults (fst (stop p m)).
Proof. reflexivity. Qed.



(* ================================================================== *)
(** ** Upload endpoint *)

Lemma min10_max30 (x : xnum) :
  x <> NaN -> XNum.min (Fin 10) (XNum.max (Fin 30) x) = Fin 10.
Proof.
  destruct x as [z| | |]; intro H; try reflexivity; [|congruence].
  cbn. f_equal. lia.
Qed.

Lemma floor_div_mul_not_NaN (a b c : Q) : floor_div_mul a b c <> NaN.
Proof. unfold floor_div_mul. destruct (Qeq_bool b 0); discriminate. Qed.

(** C10.  Whatever the uploaded buffer, the medium quality target is 10: the
    inner [Math.max(30, _)] is at least 30 and the outer [Math.min(10, _)]
    cuts it to 10. *)
Theorem targetQuality_medium_constant (fileBuffer : Buffer) :
  targetQuality_medium fileBuffer = Fin 10.
Proof.
  unfold targetQuality_medium. apply min10_max30. apply floor_div_mul_not_NaN.
Qed.

(** The low quality target, with the bounds in the usual order, does depend
    on the size: 30 for a file of one byte, 10 for one of a megabyte. *)
Lemma targetQuality_low_varies :
  targetQuality_low [x00] = Fin 30 /\
  targetQuality_low (Buffer_alloc 1048576) = Fin 10.
Proof. split; vm_compute; reflexivity. Qed.

(* ================================================================== *)
(** ** Load driver: the synthetic payload *)

(** With an infinite number of required copies the copy loop uses up any
    number of steps. *)
Lemma appendCopies_PInf (sampleImage : Buffer) (fuel : nat) :
  forall (i : Z) (buffer : Buffer),
    appendCopies fuel i PInf sampleImage buffer = OutOfFuel.
Proof.
  induction fuel as [|fuel IH]; intros i buffer; cbn; [reflexivity|].
  apply IH.
Qed.

(** C4 (fails on the code).  With an empty seed file and the harness's target
    of 20 MB, [requiredCopies] is [Math.ceil(20971520 / 0)], infinite; the
    copy loop never ends: whatever number of steps it is given, the call has
    not returned, and it has printed nothing. *)
Theorem createTestImageBuffer_empty_seed_diverges (fuel : nat) :
  ceil_div (TARGET_SIZE_MB * 1024 * 1024) (Buffer_length []) = PInf /\
  createTestImageBuffer fuel (Some []) TARGET_SIZE_MB = ([], OutOfFuel).
Proof.
  split; [reflexivity|].
  unfold createTestImageBuffer.
  change (ceil_div (TARGET_SIZE_MB * 1024 * 1024) (Buffer_length []))
    with PInf.
  rewrite appendCopies_PInf. reflexivity.
Qed.

(** The copy loop with a finite number of copies left appends that many
    copies of the seed and needs one step more than copies. *)
Lemma appendCopies_Fin (sampleImage : Buffer) (c : Z) (n : nat) :
  forall (fuel : nat) (i : Z) (buffer : Buffer),
    (n < fuel)%nat ->
    Z.to_nat (c - i) = n ->
    appendCopies fuel i (Fin c) sampleImage buffer
    = Normal (buffer ++ List.concat (repeat sampleImage n)).
Proof.
  induction n as [|n IH]; intros fuel i buffer Hf Hn;
    (destruct fuel as [|fuel]; [lia|]); cbn [appendCopies XNum.ltb].
  - replace (i <? c)%Z with false by (symmetry; apply Z.ltb_ge; lia).
    cbn. rewrite app_nil_r. reflexivity.
  - replace (i <? c)%Z with true by (symmetry; apply Z.ltb_lt; lia).
    rewrite (IH fuel (i + 1)%Z); [|lia|lia].
    cbn [repeat List.concat]. rewrite app_assoc. reflexivity.
Qed.

Lemma length_concat_repeat (sampleImage : Buffer) (n : nat) :
  List.length (List.concat (repeat sampleImage n))
  = (n * List.length sampleImage)%nat.
Proof.
  induction n as [|n IH]; cbn [repeat List.concat]; [reflexivity|].
  rewrite length_app, IH. reflexivity.
Qed.

Lemma ceil_div_covers (a b : Z) :
  (0 <= a)%Z -> (0 < b)%Z ->
  (0 <= - (- a / b))%Z /\ (a <= - (- a / b) * b)%Z.
Proof.
  intros Ha Hb. pose proof (Z.mul_div_le (- a) b Hb).
  assert (- a / b <= 0)%Z by (apply Z.div_le_upper_bound; lia).
  split; nia.
Qed.

Lemma subarray_prefix (b : Buffer) (n : Z) :
  (0 <= n <= Buffer_length b)%Z -> subarray b 0 n = firstn (Z.to_nat n) b.
Proof.
  intro H. unfold subarray. cbv zeta. cbn [Z.ltb Z.compare].
  replace (n <? 0)%Z with false by (symmetry; apply Z.ltb_ge; lia).
  rewrite (Z.min_l 0 (Buffer_length b)) by lia.
  rewrite (Z.min_l n (Buffer_length b)) by lia.
  rewrite Z.sub_0_r. reflexivity.
Qed.

Lemma exact_size_no_warning (sizeMB : Z) :
  Qle_bool (Qabs (inject_Z (sizeMB * 1024 * 1024) / MB - inject_Z sizeMB))
    (1 # 100) = true.
Proof.
  apply Qle_bool_iff.
  assert (E : inject_Z (sizeMB * 1024 * 1024) / MB - inject_Z sizeMB == 0).
  { unfold MB. rewrite !inject_Z_mult. field. }
  rewrite E. cbn. discriminate.
Qed.

Lemma createTestImageBuffer_exact (sampleImage : Buffer)
    (sizeMB : Z) :
  sampleImage <> [] ->
  (0 <= sizeMB)%Z ->
  exists (copies : nat) (buffer : Buffer),
    (forall fuel, (copies < fuel)%nat ->
       createTestImageBuffer fuel (Some sampleImage) sizeMB
       = ([], Normal buffer)) /\
    buffer = firstn (Z.to_nat (sizeMB * 1024 * 1024))
               (List.concat (repeat sampleImage copies)) /\
    Buffer_length buffer = (sizeMB * 1024 * 1024)%Z.
Proof.
  intros Hne Hs.
  set (target := (sizeMB * 1024 * 1024)%Z).
  set (len := Buffer_length sampleImage).
  assert (Hlen : (0 < len)%Z).
  { unfold len, Buffer_length. destruct sampleImage; [congruence|].
    cbn [List.length]. lia. }
  assert (Ht : (0 <= target)%Z) by (unfold target; lia).
  destruct (ceil_div_covers target len Ht Hlen) as [Hc0 Hc].
  set (c := (- (- target / len))%Z) in *.
  set (all := List.concat (repeat sampleImage (Z.to_nat c))).
  assert (Hall : (target <= Buffer_length all)%Z).
  { unfold all, Buffer_length. rewrite length_concat_repeat.
    rewrite Nat2Z.inj_mul, Z2Nat.id by exact Hc0. exact Hc. }
  assert (Hfirst : Buffer_length (firstn (Z.to_nat target) all) = target).
  { unfold Buffer_length in *. rewrite length_firstn. lia. }
  exists (Z.to_nat c), (firstn (Z.to_nat target) all).
  split; [|split; [reflexivity | exact Hfirst]].
  intros fuel Hfuel. unfold createTestImageBuffer. cbv zeta.
  fold target. fold len. unfold ceil_div.
  replace (len =? 0)%Z with false by (symmetry; apply Z.eqb_neq; lia).
  fold c.
  rewrite (appendCopies_Fin sampleImage c (Z.to_nat c) fuel 0 []);
    [|exact Hfuel|f_equal; lia].
  cbn [app lift bind]. fold all.
  destruct (Z.gtb_spec (Buffer_length all) target) as [Hgt|Hle].
  - rewrite subarray_prefix by lia. rewrite Hfirst.
    rewrite Z.ltb_irrefl, !Hfirst. unfold target.
    rewrite exact_size_no_warning. reflexivity.
  - assert (Heq : Buffer_length all = target) by lia.
    rewrite Heq, Z.ltb_irrefl, !Heq. unfold target.
    rewrite exact_size_no_warning. cbn.
    rewrite firstn_all2; [reflexivity|].
    unfold Buffer_length, target in Heq. lia.
Qed.

(** With a seed of at least one byte and a target of [sizeMB >= 0] megabytes
    the call returns, with enough steps for the copy loop, the first
    [sizeMB * 1024 * 1024] bytes of the repeated seed, and prints no
    warning. *)
Theorem createTestImageBuffer_nonempty_seed (sampleImage : Buffer)
    (sizeMB : Z) :
  sampleImage <> [] ->
  (0 <= sizeMB)%Z ->
  exists (copies : nat) (buffer : Buffer),
    (forall fuel, (copies < fuel)%nat ->
       createTestImageBuffer fuel (Some sampleImage) sizeMB
       = ([], Normal buffer)) /\
    buffer = firstn (Z.to_nat (sizeMB * 1024 * 1024))
               (List.concat (repeat sampleImage copies)) /\
    Buffer_length buffer = (sizeMB * 1024 * 1024)%Z.
Proof.
  exact (createTestImageBuffer_exact sampleImage sizeMB).
Qed.

(** One megabyte out of a seed of three bytes that does not divide it. *)
Lemma createTestImageBuffer_nonempty_seed_witness :
  exists (copies : nat) (buffer : Buffer),
    (forall fuel, (copies < fuel)%nat ->
       createTestImageBuffer fuel (Some [x01; x02; x03]) 1
       = ([], Normal buffer)) /\
    buffer = firstn (Z.to_nat (1 * 1024 * 1024))
               (List.concat (repeat [x01; x02; x03] copies)) /\
    Buffer_length buffer = (1 * 1024 * 1024)%Z.
Proof.
  apply (createTestImageBuffer_nonempty_seed [x01; x02; x03] 1).
  - discriminate.
  - lia.
Defined.

(* ================================================================== *)
(** ** Load driver: one request *)

(** A call dispatches one post and ends normally. *)
Lemma sendImageResizeRequest_normal (w : RequestWorld) (numImages : Z)
    (imageBuffer : Buffer) :
  exists r,
    sendImageResizeRequest w numImages imageBuffer
    = ([HttpPost (Z.to_nat numImages) (List.length imageBuffer)], Normal r).
Proof.
  unfold sendImageResizeRequest. rewrite repeat_length.
  destruct (post w) as [data|message]; eexists; reflexivity.
Qed.

(** C8.  A call of [sendImageResizeRequest] always ends by returning an
    outcome, never by throwing: its duration is the difference of the two
    clock readings; when the post is rejected the outcome has
    [success = false] and the error's message, and when it is answered the
    outcome has [success = true] and the [timings] and [sizes] of the
    response body. *)
Theorem sendImageResizeRequest_outcome (w : RequestWorld) (numImages : Z)
    (imageBuffer : Buffer) :
  exists r,
    outcome (sendImageResizeRequest w numImages imageBuffer) = Normal r /\
    duration r = now_after w - now_before w /\
    match post w with
    | Rejected message =>
        success r = false /\ error r = Some message /\
        timings r = None /\ sizes r = None
    | Resolved data =>
        success r = true /\ error r = None /\
        timings r = data_timings data /\ sizes r = data_sizes data
    end.
Proof.
  unfold sendImageResizeRequest.
  destruct (post w) as [data|message]; eexists; cbn;
    repeat split; reflexivity.
Qed.

(* ================================================================== *)
(** ** Load driver: a burst of concurrent requests *)

Lemma pushEach_requests (w : ScenarioWorld) (numImages : Z)
    (imageBuffer : Buffer) (n : nat) :
  forall i, exists rs,
    pushEach n i (fun i =>
      sendImageResizeRequest (request w i) numImages imageBuffer)
    = (repeat (HttpPost (Z.to_nat numImages) (List.length imageBuffer)) n,
       Normal rs) /\
    List.length rs = n.
Proof.
  induction n as [|n IH]; intro i; cbn [pushEach].
  - exists []. split; reflexivity.
  - destruct (sendImageResizeRequest_normal (request w i) numImages
                imageBuffer) as [r Hr].
    destruct (IH (S i)) as [rs [Hrs Hlen]].
    exists (r :: rs). rewrite Hr, Hrs. cbn. rewrite Hlen, app_nil_r.
    split; reflexivity.
Qed.

(** After [stop], [printResults] prints its header and the summary. *)
Lemma printResults_after_stop (p : Process) (m : ResourceMonitor)
    (label : Label) :
  exists average peak,
    printResults (fst (stop p m)) label
    = ([LogResourceUsageHeader label; LogResourceUsage average peak],
       Normal (snd (stop p m))).
Proof.
  destruct (getResults_nonempty (fst (stop p m))
              (stop_samples p m)) as (average & peak & H).
  exists average, peak. unfold printResults.
  rewrite stop_results, H. reflexivity.
Qed.

Lemma forEach_emit {A : Type} (f : A -> event) (xs : list A) :
  forEach xs (fun x => emit (f x)) = (map f xs, Normal tt).
Proof.
  induction xs as [|x xs IH]; cbn [forEach map]; [reflexivity|].
  rewrite IH. reflexivity.
Qed.

(** The compression block prints and ends normally. *)
Lemma logCompression_normal (s : Sizes) (numImages : Z) :
  exists qualities,
    logCompression s numImages
    = (LogCompressionResults (totalOriginalSize s) numImages :: qualities,
       Normal tt) /\
    Forall (fun e => exists q size ratio, e = LogQuality q size ratio)
      qualities.
Proof.
  unfold logCompression. destruct (totalProcessedSize s) as [entries|].
  - rewrite (forEach_emit (fun entry =>
      LogQuality (fst entry) (snd entry) (totalOriginalSize s / snd entry))).
    eexists. split; [reflexivity|].
    apply Forall_forall. intros e He. apply in_map_iff in He.
    destruct He as [entry [<- _]]. do 3 eexists. reflexivity.
  - exists []. split; [reflexivity | constructor].
Qed.

(** The averages block: nothing without a successful outcome; otherwise the
    two averages, then at most the compression lines. *)
Lemma reportAverages_normal (successfulResults : list RequestOutcome)
    (numImages : Z) :
  exists lines,
    reportAverages successfulResults numImages = (lines, Normal tt) /\
    Forall (fun e => isHttpPost e = false /\ isSafetyLimitApplied e = false)
      lines /\
    (successfulResults = [] -> lines = []) /\
    (successfulResults <> [] ->
     In (LogAverageProcessingTime (avgProcessingTime successfulResults))
        lines) /\
    (forall q, In (LogAverageProcessingTime q) lines ->
       q = avgProcessingTime successfulResults).
Proof.
  unfold reportAverages. destruct successfulResults as [|r rest].
  - exists []. repeat split; try constructor; try congruence.
    intros q [].
  - assert (Hc : exists compression,
              match sizes r with
              | Some s => logCompression s numImages
              | None => ret tt
              end = (compression, Normal tt) /\
              Forall (fun e => isHttpPost e = false /\
                               isSafetyLimitApplied e = false /\
                               forall q, e <> LogAverageProcessingTime q)
                compression).
    { destruct (sizes r) as [s|].
      - destruct (logCompression_normal s numImages) as [qs [Hq Hall]].
        rewrite Hq. eexists. split; [reflexivity|].
        constructor; [repeat split; discriminate|].
        eapply Forall_impl; [|exact Hall].
        intros e (q & size & ratio & ->). repeat split; discriminate.
      - exists []. split; [reflexivity | constructor]. }
    destruct Hc as (compression & Hc & Hall). rewrite Hc.
    eexists. split; [reflexivity|]. cbn [app].
    split; [|split; [discriminate|split]].
    + repeat (constructor; [split; reflexivity|]).
      eapply Forall_impl; [|exact Hall]. intros e (H1 & H2 & _).
      split; assumption.
    + intros _. right. left. reflexivity.
    + intros q [H|[H|H]]; [discriminate H|congruence|].
      rewrite Forall_forall in Hall. destruct (Hall _ H) as (_ & _ & Hq).
      exfalso. exact (Hq q eq_refl).
Qed.

(** The whole run of a burst: the optional clamping notice, the announcement,
    one post per request, and then either the safety alert or the report. *)
Lemma runConcurrentRequests_run (w : ScenarioWorld)
    (numRequests numImagesPerRequest : Z) (imageBuffer : Buffer) :
  let adjusted := Z.min numRequests (maxConcurrentRequests SAFETY_LIMITS) in
  exists rs average peak lines usage,
    List.length rs = Z.to_nat adjusted /\
    reportAverages (filter success rs) numImagesPerRequest
    = (lines, Normal tt) /\
    runConcurrentRequests w numRequests numImagesPerRequest imageBuffer
    = ((if (adjusted <? numRequests)%Z
        then [LogSafetyLimitApplied numRequests adjusted] else [])
       ++ LogRunning adjusted numImagesPerRequest
       :: repeat (HttpPost (Z.to_nat numImagesPerRequest)
                    (List.length imageBuffer)) (Z.to_nat adjusted)
       ++ (if timeout_first w
           then [ErrSafetyMechanismTriggered
                   "Timeout: Scenario took longer than 300 seconds"]
           else [LogResourceUsageHeader (ConcurrentRequestsLabel adjusted);
                 LogResourceUsage average peak;
                 LogResultsFor adjusted;
                 LogTotalTime (race_after w - race_before w);
                 LogSuccessRate (List.length (filter success rs)) adjusted]
                ++ lines),
       Normal (if timeout_first w
               then {| results := []; resourceUsage := None;
                       safetyTriggered := true |}
               else {| results := rs; resourceUsage := Some usage;
                       safetyTriggered := false |})).
Proof.
  intro adjusted. unfold runConcurrentRequests. cbv zeta. fold adjusted.
  destruct (pushEach_requests w numImagesPerRequest imageBuffer
              (Z.to_nat adjusted) 0%nat) as [rs [Hrs Hlen]].
  rewrite Hrs.
  set (monitor := tick _ _).
  destruct (printResults_after_stop (monitor_stopped w) monitor
              (ConcurrentRequestsLabel adjusted)) as (average & peak & Hp).
  destruct (stop (monitor_stopped w) monitor) as [monitor' usage].
  cbn [fst snd] in Hp.
  destruct (reportAverages_normal (filter success rs) numImagesPerRequest)
    as (lines & Hl & _).
  exists rs, average, peak, lines, usage.
  split; [exact Hlen|]. split; [exact Hl|].
  unfold race. destruct (timeout_first w).
  - destruct (adjusted <? numRequests)%Z; reflexivity.
  - cbn [bind ret throw try_catch]. rewrite Hp.
    cbn [bind ret throw try_catch emit]. rewrite Hl.
    cbn [bind ret emit when app]. rewrite app_nil_r.
    destruct (adjusted <? numRequests)%Z; reflexivity.
Qed.

Lemma filter_none {A : Type} (f : A -> bool) (l : list A) :
  Forall (fun x => f x = false) l -> filter f l = [].
Proof.
  induction 1 as [|x l Hx _ IH]; cbn [filter]; [reflexivity|].
  rewrite Hx. exact IH.
Qed.

Lemma existsb_none {A : Type} (f : A -> bool) (l : list A) :
  Forall (fun x => f x = false) l -> existsb f l = false.
Proof.
  induction 1 as [|x l Hx _ IH]; cbn [existsb]; [reflexivity|].
  rewrite Hx. exact IH.
Qed.

Lemma countPosts_repeat (files payloadLength n : nat) :
  countPosts (repeat (HttpPost files payloadLength) n) = n.
Proof.
  unfold countPosts. induction n as [|n IH]; cbn; [reflexivity|].
  f_equal. exact IH.
Qed.

Lemma countPosts_app (a b : list event) :
  countPosts (a ++ b) = (countPosts a + countPosts b)%nat.
Proof. unfold countPosts. rewrite filter_app, length_app. reflexivity. Qed.

(** C2.  Called for a request count [N >= 0], [runConcurrentRequests]
    hands exactly [min(N, maxConcurrentRequests)] posts to the HTTP client,
    never more than [maxConcurrentRequests], and prints the notice
    "SAFETY LIMIT APPLIED" exactly when [N] exceeds
    [maxConcurrentRequests]. *)
Theorem runConcurrentRequests_clamps (w : ScenarioWorld)
    (numRequests numImagesPerRequest : Z) (imageBuffer : Buffer) :
  (0 <= numRequests)%Z ->
  let run :=
    runConcurrentRequests w numRequests numImagesPerRequest imageBuffer in
  Z.of_nat (countPosts (trace run))
  = Z.min numRequests (maxConcurrentRequests SAFETY_LIMITS) /\
  (Z.of_nat (countPosts (trace run))
   <= maxConcurrentRequests SAFETY_LIMITS)%Z /\
  (existsb isSafetyLimitApplied (trace run) = true <->
   (maxConcurrentRequests SAFETY_LIMITS < numRequests)%Z) /\
  (forall e, In e (trace run) -> isSafetyLimitApplied e = true ->
     e = LogSafetyLimitApplied numRequests
           (maxConcurrentRequests SAFETY_LIMITS)).
Proof.
  intros HN run.
  destruct (runConcurrentRequests_run w numRequests numImagesPerRequest
              imageBuffer) as (rs & average & peak & lines & usage &
                               Hlen & Hl & Hrun).
  cbv zeta in Hrun.
  destruct (reportAverages_normal (filter success rs) numImagesPerRequest)
    as (lines' & Hl' & Hnone & _).
  rewrite Hl in Hl'. injection Hl' as <-.
  set (adjusted := Z.min numRequests (maxConcurrentRequests SAFETY_LIMITS))
    in *.
  assert (Hposts : countPosts (trace run) = Z.to_nat adjusted).
  { unfold run, trace. rewrite Hrun. cbn [fst].
    rewrite countPosts_app.
    change (LogRunning adjusted numImagesPerRequest :: ?l)
      with ([LogRunning adjusted numImagesPerRequest] ++ l).
    rewrite !countPosts_app, countPosts_repeat.
    replace (countPosts (if (adjusted <? numRequests)%Z
                         then [LogSafetyLimitApplied numRequests adjusted]
                         else [])) with 0%nat
      by (destruct (adjusted <? numRequests)%Z; reflexivity).
    destruct (timeout_first w).
    - cbn. lia.
    - rewrite countPosts_app. unfold countPosts at 3.
      rewrite (filter_none isHttpPost lines).
      + cbn. lia.
      + eapply Forall_impl; [|exact Hnone]. intros e [He _]. exact He. }
  assert (Hadj : (0 <= adjusted)%Z).
  { unfold adjusted. cbn [maxConcurrentRequests SAFETY_LIMITS]. lia. }
  assert (Hlines : Forall (fun e => isSafetyLimitApplied e = false) lines).
  { eapply Forall_impl; [|exact Hnone]. intros e [_ He]. exact He. }
  split; [rewrite Hposts; lia|].
  split; [rewrite Hposts; unfold adjusted; lia|].
  split.
  - unfold run, trace. rewrite Hrun. cbn [fst].
    rewrite existsb_app. cbn [existsb isSafetyLimitApplied orb].
    rewrite existsb_app.
    rewrite (existsb_none isSafetyLimitApplied (repeat _ _))
      by (apply Forall_forall; intros e He; apply repeat_spec in He;
          subst e; reflexivity).
    replace (existsb isSafetyLimitApplied
               (if timeout_first w then _ else _)) with false.
    + rewrite orb_false_r.
      destruct (Z.ltb_spec adjusted numRequests) as [Hlt|Hge];
        cbn [existsb isSafetyLimitApplied orb].
      * split; [intros _; unfold adjusted in Hlt; lia | reflexivity].
      * split; [discriminate | unfold adjusted in Hge; lia].
    + destruct (timeout_first w); [reflexivity|].
      rewrite existsb_app, (existsb_none _ lines Hlines). reflexivity.
  - intros e Hin He. unfold run, trace in Hin. rewrite Hrun in Hin.
    cbn [fst] in Hin. apply in_app_or in Hin. destruct Hin as [Hin|Hin].
    + destruct (Z.ltb_spec adjusted numRequests) as [Hlt|Hge];
        [|destruct Hin].
      destruct Hin as [<-|[]]. f_equal. unfold adjusted in *. lia.
    + exfalso. destruct Hin as [<-|Hin]; [discriminate He|].
      apply in_app_or in Hin. destruct Hin as [Hin|Hin].
      * apply repeat_spec in Hin. subst e. discriminate He.
      * destruct (timeout_first w).
        -- destruct Hin as [<-|[]]. discriminate He.
        -- apply in_app_or in Hin. destruct Hin as [Hin|Hin].
           ++ cbn in Hin.
              repeat (destruct Hin as [<-|Hin]; [discriminate He|]).
              exact Hin.
           ++ rewrite Forall_forall in Hlines. rewrite (Hlines e Hin) in He.
              discriminate He.
Qed.

(** Sixty requests are asked for, fifty are sent and the notice is
    printed. *)
Lemma runConcurrentRequests_clamps_witness :
  let run := runConcurrentRequests (mixedWorld false) 60 8 [x01] in
  Z.of_nat (countPosts (trace run)) = 50%Z /\
  existsb isSafetyLimitApplied (trace run) = true.
Proof.
  destruct (runConcurrentRequests_clamps (mixedWorld false) 60 8 [x01])
    as (H1 & _ & H3 & _); [lia|].
  split.
  - exact H1.
  - apply H3. reflexivity.
Defined.

(** C3.  A burst always returns.  When all requests settle before the
    scenario timer fires, the returned [results] hold one outcome per
    dispatched request, that is [min(N, maxConcurrentRequests)] outcomes for
    a count [N >= 0], and the result is not marked; when the timer fires
    first, [results] is empty and [safetyTriggered] is set. *)
Theorem runConcurrentRequests_results (w : ScenarioWorld)
    (numRequests numImagesPerRequest : Z) (imageBuffer : Buffer) :
  exists r,
    outcome (runConcurrentRequests w numRequests numImagesPerRequest
               imageBuffer) = Normal r /\
    (timeout_first w = false ->
       List.length (results r)
       = Z.to_nat (Z.min numRequests (maxConcurrentRequests SAFETY_LIMITS)) /\
       ((0 <= numRequests)%Z ->
        Z.of_nat (List.length (results r))
        = Z.min numRequests (maxConcurrentRequests SAFETY_LIMITS)) /\
       List.length (results r)
       = countPosts (trace (runConcurrentRequests w numRequests
                              numImagesPerRequest imageBuffer)) /\
       safetyTriggered r = false) /\
    (timeout_first w = true ->
       results r = [] /\ resourceUsage r = None /\ safetyTriggered r = true).
Proof.
  destruct (runConcurrentRequests_run w numRequests numImagesPerRequest
              imageBuffer) as (rs & average & peak & lines & usage &
                               Hlen & Hl & Hrun).
  cbv zeta in Hrun.
  destruct (reportAverages_normal (filter success rs) numImagesPerRequest)
    as (lines' & Hl' & Hnone & _).
  rewrite Hl in Hl'. injection Hl' as <-.
  unfold outcome, trace. rewrite Hrun. cbn [fst snd].
  eexists. split; [reflexivity|].
  split; intro Ht; rewrite Ht.
  - cbn [results safetyTriggered].
    split; [exact Hlen|]. split; [|split; [|reflexivity]].
    + intro HN. rewrite Hlen.
      cbn [maxConcurrentRequests SAFETY_LIMITS]. lia.
    + rewrite countPosts_app.
      change (LogRunning ?a ?b :: ?l) with ([LogRunning a b] ++ l).
      rewrite !countPosts_app, countPosts_repeat.
      unfold countPosts at 4. rewrite (filter_none isHttpPost lines)
        by (eapply Forall_impl; [|exact Hnone]; intros e [He _]; exact He).
      rewrite Hlen. destruct (_ <? _)%Z; cbn [countPosts filter isHttpPost List.length Nat.add]; lia.
  - repeat split.
Qed.

(** Three requests that settle in time give three outcomes; a burst that
    times out gives none and is marked. *)
Lemma runConcurrentRequests_results_witness :
  (exists r,
     outcome (runConcurrentRequests (mixedWorld false) 3 8 [x01]) = Normal r /\
     List.length (results r) = 3%nat /\ safetyTriggered r = false) /\
  (exists r,
     outcome (runConcurrentRequests (mixedWorld true) 3 8 [x01]) = Normal r /\
     results r = [] /\ safetyTriggered r = true).
Proof.
  split.
  - destruct (runConcurrentRequests_results (mixedWorld false) 3 8 [x01])
      as (r & Hr & Hdone & _).
    exists r. split; [exact Hr|].
    destruct (Hdone eq_refl) as (H1 & _ & _ & H4).
    split; [exact H1 | exact H4].
  - destruct (runConcurrentRequests_results (mixedWorld true) 3 8 [x01])
      as (r & Hr & _ & Htimeout).
    exists r. split; [exact Hr|].
    destruct (Htimeout eq_refl) as (H1 & _ & H3).
    split; [exact H1 | exact H3].
Defined.

Lemma Qsum_cons (x : Q) (l : list Q) : Qsum (x :: l) = x + Qsum l.
Proof. reflexivity. Qed.

Lemma Qsum_app (a b : list Q) : Qsum (a ++ b) == Qsum a + Qsum b.
Proof.
  induction a as [|x a IH]; cbn [app].
  - change (Qsum []) with 0. ring.
  - rewrite !Qsum_cons, IH. ring.
Qed.

Lemma fold_addProcessingTime (l : list RequestOutcome) :
  forall acc,
    fold_left addProcessingTime l acc == acc + Qsum (reportedTimes l).
Proof.
  induction l as [|r l IH]; intro acc; cbn [fold_left reportedTimes flat_map].
  - change (Qsum []) with 0. ring.
  - rewrite IH, Qsum_app. fold (reportedTimes l). unfold addProcessingTime.
    destruct (timings r) as [t|]; [|change (Qsum []) with 0; ring].
    destruct (totalProcessingTime t) as [x|];
      [|change (Qsum []) with 0; ring].
    rewrite Qsum_cons. change (Qsum []) with 0.
    destruct (Qeq_bool x 0) eqn:E; [|ring].
    apply Qeq_bool_iff in E. rewrite E. ring.
Qed.

(** The average the burst prints: the sum of the reported processing times
    over the number of all successful outcomes. *)
Lemma avgProcessingTime_sum (successfulResults : list RequestOutcome) :
  avgProcessingTime successfulResults
  == Qsum (reportedTimes successfulResults) / length_num successfulResults.
Proof.
  unfold avgProcessingTime. rewrite fold_addProcessingTime.
  unfold Qdiv. ring.
Qed.

(** C9 as stated fails.  In a burst of two requests that both succeed, where
    the first response reports 100 ms and the second has no timings, the
    printed average (50 ms) is not the mean over the outcomes that report a
    time (100 ms). *)
Lemma average_not_mean_of_reported :
  let run := runConcurrentRequests (mixedWorld false) 2 8 [x01] in
  exists r,
    outcome run = Normal r /\
    filter success (results r) <> [] /\
    In (LogAverageProcessingTime
          (avgProcessingTime (filter success (results r)))) (trace run) /\
    avgProcessingTime (filter success (results r)) == 50 /\
    meanOfReported (filter success (results r)) == 100 /\
    ~ avgProcessingTime (filter success (results r))
      == meanOfReported (filter success (results r)).
Proof.
  eexists. split; [reflexivity|].
  split; [discriminate|].
  split; [vm_compute; repeat (try (left; reflexivity); right)|].
  split; [reflexivity|]. split; [reflexivity|].
  intro H. vm_compute in H. discriminate H.
Qed.

(** C9 (amended).  In a burst that settles before the timer the scenario is
    not marked failed.  If some outcome succeeded, the one average processing
    time it prints is the sum of the processing times reported by successful
    outcomes divided by the number of all successful outcomes; this is the
    mean of the reported times when every successful outcome reports one.
    If no outcome succeeded, none of the derived lines (averages,
    compression) is printed. *)
Theorem runConcurrentRequests_average_processing_time (w : ScenarioWorld)
    (numRequests numImagesPerRequest : Z) (imageBuffer : Buffer) :
  timeout_first w = false ->
  let run :=
    runConcurrentRequests w numRequests numImagesPerRequest imageBuffer in
  exists r,
    outcome run = Normal r /\
    safetyTriggered r = false /\
    let successfulResults := filter success (results r) in
    (successfulResults <> [] ->
       In (LogAverageProcessingTime (avgProcessingTime successfulResults))
          (trace run) /\
       (forall q, In (LogAverageProcessingTime q) (trace run) ->
          q = avgProcessingTime successfulResults) /\
       avgProcessingTime successfulResults
       == Qsum (reportedTimes successfulResults)
          / length_num successfulResults /\
       (List.length (reportedTimes successfulResults)
        = List.length successfulResults ->
        avgProcessingTime successfulResults
        == meanOfReported successfulResults)) /\
    (successfulResults = [] ->
       Forall (fun e => isDerivedReport e = false) (trace run)).
Proof.
  intros Ht run.
  destruct (runConcurrentRequests_run w numRequests numImagesPerRequest
              imageBuffer) as (rs & average & peak & lines & usage &
                               Hlen & Hl & Hrun).
  cbv zeta in Hrun. rewrite Ht in Hrun.
  destruct (reportAverages_normal (filter success rs) numImagesPerRequest)
    as (lines' & Hl' & _ & Hempty & Hin & Honly).
  rewrite Hl in Hl'. injection Hl' as <-.
  unfold run, outcome, trace. rewrite Hrun. cbn [fst snd].
  eexists. split; [reflexivity|]. split; [reflexivity|].
  cbn [results]. split.
  - intro Hne. split; [|split; [|split]].
    + apply in_or_app. right. right. apply in_or_app. right.
      apply in_or_app. right. exact (Hin Hne).
    + intros q Hq. apply Honly.
      apply in_app_or in Hq. destruct Hq as [Hq|Hq].
      { destruct (_ <? _)%Z; [destruct Hq as [Hq|[]]; discriminate Hq
                             | destruct Hq]. }
      destruct Hq as [Hq|Hq]; [discriminate Hq|].
      apply in_app_or in Hq. destruct Hq as [Hq|Hq].
      { apply repeat_spec in Hq. discriminate Hq. }
      apply in_app_or in Hq. destruct Hq as [Hq|Hq]; [|exact Hq].
      cbn in Hq. repeat (destruct Hq as [Hq|Hq]; [discriminate Hq|]).
      destruct Hq.
    + apply avgProcessingTime_sum.
    + intro Hall. rewrite avgProcessingTime_sum. unfold meanOfReported.
      unfold length_num. rewrite Hall. reflexivity.
  - intro Hnil. rewrite (Hempty Hnil), app_nil_r.
    apply Forall_app. split.
    { destruct (_ <? _)%Z; repeat constructor. }
    constructor; [reflexivity|]. apply Forall_app. split.
    { apply Forall_forall. intros e He. apply repeat_spec in He.
      subst e. reflexivity. }
    repeat constructor.
Qed.

(** Three requests, all successful, of which the first and the third report
    100 ms: the printed average is 200/3 ms.  Three refused requests: no
    derived line, and the scenario is not marked failed. *)
Lemma runConcurrentRequests_average_processing_time_witness :
  (exists r,
     outcome (runConcurrentRequests (mixedWorld false) 3 8 [x01]) = Normal r /\
     In (LogAverageProcessingTime
           (avgProcessingTime (filter success (results r))))
        (trace (runConcurrentRequests (mixedWorld false) 3 8 [x01])) /\
     avgProcessingTime (filter success (results r)) == 200 # 3) /\
  (exists r,
     outcome (runConcurrentRequests downWorld 3 8 [x01]) = Normal r /\
     safetyTriggered r = false /\
     Forall (fun e => isDerivedReport e = false)
       (trace (runConcurrentRequests downWorld 3 8 [x01]))).
Proof.
  split.
  - destruct (runConcurrentRequests_average_processing_time
                (mixedWorld false) 3 8 [x01] eq_refl)
      as (r & Hr & _ & Hsome & _).
    exists r. split; [exact Hr|].
    assert (Hne : filter success (results r) <> []).
    { vm_compute in Hr. injection Hr as <-. discriminate. }
    destruct (Hsome Hne) as (Hin & _ & Hsum & _).
    split; [exact Hin|].
    vm_compute in Hr. injection Hr as <-. reflexivity.
  - destruct (runConcurrentRequests_average_processing_time
                downWorld 3 8 [x01] eq_refl)
      as (r & Hr & Hs & _ & Hnone).
    exists r. split; [exact Hr|]. split; [exact Hs|].
    apply Hnone.
    vm_compute in Hr. injection Hr as <-. reflexivity.
Defined.

(* ================================================================== *)
(** ** Scenario runner *)

Lemma sendImageResizeRequest_rejected (w : RequestWorld) (numImages : Z)
    (imageBuffer : Buffer) (message : string) :
  post w = Rejected message ->
  sendImageResizeRequest w numImages imageBuffer
  = ([HttpPost (Z.to_nat numImages) (List.length imageBuffer)],
     Normal {| success := false; duration := now_after w - now_before w;
               timings := None; sizes := None; error := Some message |}).
Proof.
  intro H. unfold sendImageResizeRequest. rewrite repeat_length, H.
  reflexivity.
Qed.

Lemma sendImageResizeRequest_resolved (w : RequestWorld) (numImages : Z)
    (imageBuffer : Buffer) (data : ResponseData) :
  post w = Resolved data ->
  sendImageResizeRequest w numImages imageBuffer
  = ([HttpPost (Z.to_nat numImages) (List.length imageBuffer)],
     Normal {| success := true; duration := now_after w - now_before w;
               timings := data_timings data; sizes := data_sizes data;
               error := None |}).
Proof.
  intro H. unfold sendImageResizeRequest. rewrite repeat_length, H.
  reflexivity.
Qed.

(** A scenario that is run sets [previousScenarioFailed] exactly when it
    fails in the sense of [scenarioFails]. *)
Lemma runScenario_failed_iff (w : ScenarioWorld) (scenario : Scenario)
    (imageBuffer : Buffer) :
  outcome (runScenario w scenario imageBuffer) = Normal true <->
  scenarioFails w scenario = true.
Proof.
  unfold runScenario, scenarioFails.
  destruct (concurrency scenario =? 1)%Z.
  - unfold singleRequest. cbv zeta.
    set (monitor := tick _ _).
    destruct (printResults_after_stop (monitor_stopped w) monitor
                (SingleRequestLabel (images scenario)))
      as (average & peak & Hp).
    destruct (post (request w 0%nat)) as [data|message] eqn:E.
    + rewrite (sendImageResizeRequest_resolved _ _ _ _ E).
      cbn [bind emit app]. destruct (stop (monitor_stopped w) monitor).
      cbn [fst snd] in Hp. rewrite Hp. cbn [bind success].
      destruct (data_timings data) as [t|]; cbn; [|split; discriminate].
      destruct (totalProcessingTime t) as [x|]; cbn; [|split; discriminate].
      destruct (data_sizes data) as [s|]; cbn.
      * destruct (logCompression_normal s (images scenario)) as [qs [Hq _]].
        unfold logCompression in Hq. cbn in Hq. rewrite Hq. cbn.
        split; discriminate.
      * split; discriminate.
    + rewrite (sendImageResizeRequest_rejected _ _ _ _ E).
      cbn [bind emit app]. destruct (stop (monitor_stopped w) monitor).
      cbn [fst snd] in Hp. rewrite Hp. cbn. split; reflexivity.
  - destruct (runConcurrentRequests_run w (concurrency scenario)
                (images scenario) imageBuffer)
      as (rs & average & peak & lines & usage & _ & _ & Hrun).
    cbv zeta in Hrun. rewrite Hrun. cbn [bind emit app].
    destruct (timeout_first w); cbn; split; congruence.
Qed.

Lemma scenarioLoop_skips (world : nat -> ScenarioWorld)
    (imageBuffer : Buffer) (rest : list Scenario) :
  forall i,
    scenarioLoop world i rest imageBuffer true
    = (skipLines rest, Normal true).
Proof.
  induction rest as [|scenario rest IH]; intro i; cbn [scenarioLoop skipLines map].
  - reflexivity.
  - rewrite IH. reflexivity.
Qed.

(** A prefix of the list that runs to its end without a failure leaves the
    loop as it found it. *)
Lemma scenarioLoop_app (world : nat -> ScenarioWorld) (imageBuffer : Buffer)
    (before : list Scenario) :
  forall i tr0,
    scenarioLoop world i before imageBuffer false = (tr0, Normal false) ->
    forall rest,
      scenarioLoop world i (before ++ rest) imageBuffer false
      = (tr0 ++ trace (scenarioLoop world (i + List.length before) rest
                         imageBuffer false),
         outcome (scenarioLoop world (i + List.length before) rest
                    imageBuffer false)).
Proof.
  induction before as [|scenario before IH]; intros i tr0 H rest.
  - cbn in H. injection H as <-. cbn [app List.length].
    rewrite Nat.add_0_r. unfold trace, outcome.
    destruct (scenarioLoop world i rest imageBuffer false). reflexivity.
  - cbn [app scenarioLoop List.length] in *.
    rewrite Nat.add_succ_r.
    destruct (runScenario (world i) scenario imageBuffer) as [tr1 c1].
    destruct c1 as [failed|message|code|]; cbn [bind] in *;
      try discriminate H.
    destruct failed.
    + cbn [coolDown bind emit app] in H.
      rewrite scenarioLoop_skips in H. discriminate H.
    + cbn [coolDown bind emit app] in *.
      destruct (scenarioLoop world (S i) before imageBuffer false)
        as [tr2 c2] eqn:E2.
      injection H as <- ->.
      rewrite (IH (S i) tr2 E2 rest). cbn [Nat.add].
      rewrite <- !app_assoc. reflexivity.
Qed.

(** C1 (amended).  Take any list of scenarios and any behaviour of the host.
    If the scenarios before some scenario all ran without failing and that
    scenario fails in the runner's sense (its single request is rejected,
    when its concurrency is 1, or else its burst times out), then the run of
    the whole list is: the run of the scenarios before it, the run of the
    failing scenario, one cooldown, and then nothing but one line
    "Skipping scenario <name>" for each later scenario, in order.  No later
    scenario is started and no request is sent for it. *)
Theorem scenario_skip_propagation (world : nat -> ScenarioWorld)
    (imageBuffer : Buffer) (before : list Scenario) (scenario : Scenario)
    (rest : list Scenario) (tr0 : list event) :
  scenarioLoop world 0 before imageBuffer false = (tr0, Normal false) ->
  scenarioFails (world (List.length before)) scenario = true ->
  exists tr,
    runScenario (world (List.length before)) scenario imageBuffer
    = (tr, Normal true) /\
    scenarioLoop world 0 (before ++ scenario :: rest) imageBuffer false
    = (tr0 ++ tr ++ trace coolDown ++ skipLines rest, Normal true) /\
    countPosts (skipLines rest) = 0%nat /\
    Forall (fun e => forall n, e <> LogScenario n) (skipLines rest).
Proof.
  intros Hbefore Hfails.
  apply (runScenario_failed_iff _ _ imageBuffer) in Hfails.
  destruct (runScenario (world (List.length before)) scenario imageBuffer)
    as [tr c] eqn:E.
  cbn [outcome snd] in Hfails. subst c.
  exists tr. split; [reflexivity|].
  split; [|split].
  - rewrite (scenarioLoop_app world imageBuffer before 0 tr0 Hbefore).
    cbn [Nat.add scenarioLoop]. rewrite E. cbn [bind coolDown emit app].
    rewrite scenarioLoop_skips. unfold trace, outcome. cbn [fst snd app].
    rewrite <- ?app_assoc. reflexivity.
  - unfold countPosts, skipLines. rewrite filter_none; [reflexivity|].
    apply Forall_forall. intros e He. apply in_map_iff in He.
    destruct He as [x [<- _]]. reflexivity.
  - apply Forall_forall. intros e He. apply in_map_iff in He.
    destruct He as [x [<- _]]. discriminate.
Qed.

(** The harness's own three scenarios when the single request is answered
    and the burst of ten times out: the burst of fifty is skipped. *)
Lemma scenario_skip_propagation_witness :
  exists tr,
    runScenario (laterTimeOut 1)
      {| name := "10 concurrent requests with 8 images each";
         concurrency := 10; images := 8 |} [x01]
    = (tr, Normal true) /\
    scenarioLoop laterTimeOut 0 scenarios [x01] false
    = (trace (scenarioLoop laterTimeOut 0 (firstn 1 scenarios) [x01] false)
       ++ tr ++ trace coolDown
       ++ [LogSkippingScenario "50 concurrent requests with 8 images each"],
       Normal true).
Proof.
  assert (Hbefore :
    scenarioLoop laterTimeOut 0 (firstn 1 scenarios) [x01] false
    = (trace (scenarioLoop laterTimeOut 0 (firstn 1 scenarios) [x01] false),
       Normal false)) by reflexivity.
  destruct (scenario_skip_propagation laterTimeOut [x01] (firstn 1 scenarios)
              {| name := "10 concurrent requests with 8 images each";
                 concurrency := 10; images := 8 |}
              (skipn 2 scenarios) _ Hbefore eq_refl)
    as (tr & Hs & Hloop & _).
  exists tr. split; [exact Hs | exact Hloop].
Defined.

(** C1 (counterexample).  Request errors inside a burst do not fail the
    scenario.  In the harness's own three scenarios, let the single request
    be answered and let every one of the ten requests of the second scenario
    be refused, the burst settling well before its timer: the ten outcomes
    all have [success = false], and yet the third scenario is started and
    sends its fifty requests; no scenario is skipped and the loop ends
    without a failure. *)
Lemma burst_of_request_errors_does_not_stop_the_run :
  let run := scenarioLoop refusedBurst 0 scenarios threeBytes false in
  (exists r,
     outcome (runConcurrentRequests (refusedBurst 1) 10 8 threeBytes)
     = Normal r /\
     List.length (results r) = 10%nat /\
     forallb (fun o => negb (success o)) (results r) = true /\
     safetyTriggered r = false) /\
  In (LogScenario "50 concurrent requests with 8 images each") (trace run) /\
  filter isSkippingScenario (trace run) = [] /\
  countPosts (trace run) = 61%nat /\
  outcome run = Normal false.
Proof.
  cbv zeta. split; [|split; [|split; [|split]]].
  - eexists. split; [reflexivity|]. vm_compute. repeat split; reflexivity.
  - vm_compute.
    repeat match goal with
           | |- _ \/ _ => (left; reflexivity) || right
           end.
  - vm_compute. reflexivity.
  - vm_compute. reflexivity.
  - vm_compute. reflexivity.
Qed.

(** Without a seed file the run ends with [process.exit(1)] before any
    scenario. *)
Lemma runBenchmarks_without_seed (fuel : nat) :
  exists systemMemoryMB thresholdMB,
    runBenchmarks fuel noSeedHost
    = ([LogSafetyMonitoring systemMemoryMB thresholdMB;
        LogCreatingTestImageBuffer; ErrSampleImageNotFound],
       Exit 1).
Proof. do 2 eexists. reflexivity. Qed.

(* ================================================================== *)
(** * Further properties of the harness *)

(** ** The synthetic payload at its edges *)

Lemma appendCopies_done (fuel : nat) (i : Z) (requiredCopies : xnum)
    (sampleImage buffer : Buffer) :
  XNum.ltb (Fin i) requiredCopies = false ->
  appendCopies (S fuel) i requiredCopies sampleImage buffer = Normal buffer.
Proof. intro H. cbn [appendCopies]. rewrite H. reflexivity. Qed.

Lemma ceil_div_nonpositive (a b : Z) :
  (a <= 0)%Z -> (0 <= b)%Z -> XNum.ltb (Fin 0) (ceil_div a b) = false.
Proof.
  intros Ha Hb. unfold ceil_div.
  destruct (Z.eqb_spec b 0) as [->|Hne].
  - replace (0 <? a)%Z with false by (symmetry; apply Z.ltb_ge; lia).
    destruct (a =? 0)%Z; reflexivity.
  - cbn [XNum.ltb]. apply Z.ltb_ge.
    assert (0 <= - a / b)%Z by (apply Z.div_pos; lia). lia.
Qed.

(** For a target of zero or fewer megabytes the call returns the empty
    buffer after one test of the loop condition, whatever the seed (an empty
    seed included); it prints the size warning exactly when the target is
    negative. *)
Theorem createTestImageBuffer_nonpositive_size (fuel : nat)
    (sampleImage : Buffer) (sizeMB : Z) :
  (sizeMB <= 0)%Z ->
  exists actualSizeMB,
    actualSizeMB == 0 /\
    createTestImageBuffer (S fuel) (Some sampleImage) sizeMB
    = ((if (sizeMB <? 0)%Z
        then [WarnRequestedButGot sizeMB actualSizeMB] else []),
       Normal []).
Proof.
  intro Hs. exists (inject_Z 0 / MB). split; [reflexivity|].
  unfold createTestImageBuffer. cbv zeta.
  rewrite appendCopies_done
    by (apply ceil_div_nonpositive; unfold Buffer_length; lia).
  cbn [lift bind app].
  destruct (Z.ltb_spec sizeMB 0) as [Hneg|Hzero].
  - replace (Buffer_length [] >? sizeMB * 1024 * 1024)%Z with true
      by (symmetry; apply Z.gtb_lt; cbn; lia).
    assert (Hsub : subarray [] 0 (sizeMB * 1024 * 1024) = []).
    { unfold subarray. cbv zeta. destruct (Z.to_nat _); reflexivity. }
    rewrite Hsub.
    replace (Buffer_length [] <? sizeMB * 1024 * 1024)%Z with false
      by (symmetry; apply Z.ltb_ge; cbn; lia).
    change (Buffer_length []) with 0%Z.
    assert (Hw : Qle_bool (Qabs (inject_Z 0 / MB - inject_Z sizeMB))
                   (1 # 100) = false).
    { apply not_true_is_false. intro H. apply Qle_bool_iff in H.
      assert (E : inject_Z 0 / MB - inject_Z sizeMB == - inject_Z sizeMB)
        by (unfold MB; field).
      rewrite E, Qabs_opp in H.
      assert (Hle : inject_Z sizeMB <= inject_Z (-1))
        by (rewrite <- Zle_Qle; lia).
      rewrite Qabs_neg in H by (change (inject_Z (-1)) with (-1 # 1) in Hle;
                                lra).
      change (inject_Z (-1)) with (-1 # 1) in Hle. lra. }
    rewrite Hw. reflexivity.
  - assert (sizeMB = 0%Z) by lia. subst sizeMB. reflexivity.
Qed.

Lemma createTestImageBuffer_nonpositive_size_witness :
  exists actualSizeMB,
    actualSizeMB == 0 /\
    createTestImageBuffer 1 (Some threeBytes) (-2)
    = ([WarnRequestedButGot (-2) actualSizeMB], Normal []).
Proof.
  apply (createTestImageBuffer_nonpositive_size 0 threeBytes (-2)). lia.
Defined.

(** With an empty seed file the call does not return for any positive
    target: the number of required copies is infinite. *)
Theorem createTestImageBuffer_empty_seed_positive_size (fuel : nat)
    (sizeMB : Z) :
  (0 < sizeMB)%Z ->
  createTestImageBuffer fuel (Some []) sizeMB = ([], OutOfFuel).
Proof.
  intro Hs. unfold createTestImageBuffer. cbv zeta.
  assert (E : ceil_div (sizeMB * 1024 * 1024) (Buffer_length []) = PInf).
  { unfold ceil_div. cbn [Buffer_length List.length Z.of_nat Z.eqb].
    replace (0 <? sizeMB * 1024 * 1024)%Z with true
      by (symmetry; apply Z.ltb_lt; lia).
    reflexivity. }
  rewrite E, appendCopies_PInf. reflexivity.
Qed.

Lemma createTestImageBuffer_empty_seed_positive_size_witness :
  createTestImageBuffer 1000 (Some []) 1 = ([], OutOfFuel).
Proof.
  apply (createTestImageBuffer_empty_seed_positive_size 1000 1). lia.
Defined.

(** ** The sampler's series *)

Lemma tick_app (m : ResourceMonitor) (ps qs : list Process) :
  tick m (ps ++ qs) = tick (tick m ps) qs.
Proof. unfold tick. apply fold_left_app. Qed.

(** Timer samples never touch what is already recorded, nor the time
    baseline: they append one sample per firing, stamped with the time since
    [startTime]. *)
Lemma tick_samples (ps : list Process) :
  forall m,
    startTime (tick m ps) = startTime m /\
    interval (tick m ps) = interval m /\
    exists added,
      samples (tick m ps) = samples m ++ added /\
      map timestamp added
      = map (fun p => performance_now p - startTime m) ps.
Proof.
  induction ps as [|p ps IH]; intro m.
  - repeat split. exists []. rewrite app_nil_r. split; reflexivity.
  - change (tick m (p :: ps)) with (tick (sample p m) ps).
    destruct (IH (sample p m)) as (Hs & Hi & added & Ha & Ht).
    split; [rewrite Hs; reflexivity|]. split; [rewrite Hi; reflexivity|].
    eexists (_ :: added). split.
    + rewrite Ha. cbn [sample samples]. rewrite <- app_assoc. reflexivity.
    + cbn [map timestamp]. rewrite Ht. reflexivity.
Qed.

Lemma monitoring_window_series (p0 : Process) (m : ResourceMonitor)
    (ps : list Process) (p : Process) :
  let stopped := stop p (tick (start p0 m) ps) in
  interval (fst stopped) = false /\
  List.length (samples (fst stopped)) = S (List.length ps) /\
  map timestamp (samples (fst stopped))
  = map (fun q => performance_now q - performance_now p0) (ps ++ [p]) /\
  exists average peak,
    snd stopped = Summary average peak (samples (fst stopped)).
Proof.
  cbv zeta.
  destruct (tick_samples ps (start p0 m)) as (Hs & _ & added & Ha & Ht).
  cbn [start startTime samples app] in Hs, Ha, Ht.
  assert (Hsamples :
    map timestamp (samples (fst (stop p (tick (start p0 m) ps))))
    = map (fun q => performance_now q - performance_now p0) (ps ++ [p])).
  { unfold stop. cbn [fst sample samples startTime]. rewrite Ha, Hs.
    rewrite !map_app, Ht. reflexivity. }
  split; [reflexivity|]. split; [|split; [exact Hsamples|]].
  - rewrite <- (length_map timestamp), Hsamples, length_map, length_app.
    cbn. lia.
  - rewrite stop_results. apply getResults_nonempty. apply stop_samples.
Qed.

(** A monitoring window on a sampler whose timer is not running, as is every
    sampler the harness starts (each is started once, right after it is
    created).  [start] forgets whatever samples the object held; after [k]
    firings of the timer and [stop], the timer is off and the summary is
    computed over exactly [k + 1] samples, whose timestamps are the clock
    readings of the firings and of [stop], counted from [start]. *)
Theorem monitoring_window (p0 : Process) (m : ResourceMonitor)
    (ps : list Process) (p : Process) :
  interval m = false ->
  let stopped := stop p (tick (start p0 m) ps) in
  interval (fst stopped) = false /\
  List.length (samples (fst stopped)) = S (List.length ps) /\
  map timestamp (samples (fst stopped))
  = map (fun q => performance_now q - performance_now p0) (ps ++ [p]) /\
  exists average peak,
    snd stopped = Summary average peak (samples (fst stopped)).
Proof.
  intros _. exact (monitoring_window_series p0 m ps p).
Qed.

(** A new sampler, started, sampled once by its timer and stopped. *)
Lemma monitoring_window_witness :
  let stopped :=
    stop (steadyProcess 2000)
      (tick (start (steadyProcess 0) (ResourceMonitor_new (steadyProcess 0)))
         [steadyProcess 1000]) in
  interval (fst stopped) = false /\
  List.length (samples (fst stopped)) = 2%nat /\
  map timestamp (samples (fst stopped))
  = map (fun q => performance_now q - performance_now (steadyProcess 0))
      [steadyProcess 1000; steadyProcess 2000] /\
  exists average peak,
    snd stopped = Summary average peak (samples (fst stopped)).
Proof.
  exact (monitoring_window (steadyProcess 0)
           (ResourceMonitor_new (steadyProcess 0)) [steadyProcess 1000]
           (steadyProcess 2000) eq_refl).
Defined.

Lemma StronglySorted_map_minus (c : Q) (l : list Q) :
  StronglySorted Qle l -> StronglySorted Qle (map (fun x => x - c) l).
Proof.
  induction 1 as [|x l Hl IH Hx]; cbn [map]; constructor; [exact IH|].
  apply Forall_forall. intros y Hy. apply in_map_iff in Hy.
  destruct Hy as [z [<- Hz]]. rewrite Forall_forall in Hx.
  specialize (Hx z Hz). lra.
Qed.

(** With a clock that never runs backwards the series is ordered in time and
    no timestamp is negative. *)
Theorem monitoring_window_time_ordered (p0 : Process) (m : ResourceMonitor)
    (ps : list Process) (p : Process) :
  StronglySorted Qle (map performance_now (p0 :: ps ++ [p])) ->
  let series := samples (fst (stop p (tick (start p0 m) ps))) in
  StronglySorted Qle (map timestamp series) /\
  Forall (fun s => 0 <= timestamp s) series.
Proof.
  intros Hsorted series.
  destruct (monitoring_window_series p0 m ps p) as (_ & _ & Ht & _).
  fold series in Ht. cbn [map] in Hsorted.
  apply StronglySorted_inv in Hsorted. destruct Hsorted as [Hrest Hfirst].
  split.
  - rewrite Ht, <- (map_map performance_now (fun x => x - performance_now p0)).
    apply StronglySorted_map_minus. exact Hrest.
  - apply Forall_forall. intros s Hs.
    apply (in_map timestamp) in Hs. rewrite Ht in Hs.
    apply in_map_iff in Hs. destruct Hs as [q [<- Hq]].
    rewrite Forall_forall in Hfirst.
    specialize (Hfirst _ (in_map performance_now _ _ Hq)). lra.
Qed.

Lemma monitoring_window_time_ordered_witness :
  let series :=
    samples (fst (stop (steadyProcess 2000)
                    (tick (start (steadyProcess 0) twoSamples)
                       [steadyProcess 1000]))) in
  StronglySorted Qle (map timestamp series) /\
  Forall (fun s => 0 <= timestamp s) series.
Proof.
  apply (monitoring_window_time_ordered (steadyProcess 0) twoSamples
           [steadyProcess 1000] (steadyProcess 2000)).
  cbn. repeat constructor; discriminate.
Defined.

(** ** The summary is the maximum and the mean *)

Lemma Qmax_cases (x y : Q) : Qmax x y = x \/ Qmax x y = y.
Proof.
  unfold Qmax, GenericMinMax.gmax. destruct (x ?= y); auto.
Qed.

Section Field.

(** One of the five numbers of a sample and of a metric set. *)
Variable fS : Sample -> Q.
Variable fM : MetricSet -> Q.
Hypothesis peak_field :
  forall acc s, fM (peakStep acc s) = Qmax (fM acc) (fS s).
Hypothesis sum_field :
  forall acc s, fM (sumStep acc s) = fM acc + fS s.

Lemma fold_peak_field (l : list Sample) :
  forall acc,
    fM acc <= fM (fold_left peakStep l acc) /\
    Forall (fun s => fS s <= fM (fold_left peakStep l acc)) l /\
    (fM (fold_left peakStep l acc) = fM acc \/
     exists s, In s l /\ fM (fold_left peakStep l acc) = fS s).
Proof.
  induction l as [|s l IH]; intro acc; cbn [fold_left].
  - split; [lra|]. split; [constructor | left; reflexivity].
  - destruct (IH (peakStep acc s)) as (Hge & Hall & Hatt).
    rewrite peak_field in Hge, Hatt.
    pose proof (Q.le_max_l (fM acc) (fS s)).
    pose proof (Q.le_max_r (fM acc) (fS s)).
    split; [lra|]. split.
    + constructor; [lra | exact Hall].
    + destruct Hatt as [Hatt|(s' & Hin & Hatt)].
      * destruct (Qmax_cases (fM acc) (fS s)) as [E|E].
        -- left. congruence.
        -- right. exists s. split; [left; reflexivity | congruence].
      * right. exists s'. split; [right; exact Hin | exact Hatt].
Qed.

Lemma fold_sum_field (l : list Sample) :
  forall acc,
    fM (fold_left sumStep l acc) == fM acc + Qsum (map fS l).
Proof.
  induction l as [|s l IH]; intro acc; cbn [fold_left map].
  - change (Qsum []) with 0. ring.
  - rewrite IH, sum_field, Qsum_cons. ring.
Qed.

Lemma peak_field_isPeakOf (l : list Sample) :
  fM zeroMetricSet = 0 ->
  isPeakOf fS l (fM (fold_left peakStep l zeroMetricSet)).
Proof.
  intro Hz. destruct (fold_peak_field l zeroMetricSet) as (Hge & Hall & Hatt).
  rewrite Hz in Hge, Hatt. repeat split; assumption.
Qed.

Lemma sum_field_mean (l : list Sample) :
  fM zeroMetricSet = 0 ->
  fM (fold_left sumStep l zeroMetricSet) / length_num l == meanOf fS l.
Proof.
  intro Hz. unfold meanOf. rewrite fold_sum_field, Hz.
  unfold Qdiv. ring.
Qed.

End Field.

(** On a non-empty series each peak of the summary is the largest of zero and
    the recorded values of its field: it bounds every sample, is never
    negative, and is zero or the value of some sample. *)
Theorem getResults_peak_is_maximum (m : ResourceMonitor) :
  samples m <> [] ->
  exists average peak,
    getResults m = Summary average peak (samples m) /\
    isPeakOf cpu (samples m) (ms_cpu peak) /\
    isPeakOf (fun s => rss (memory s)) (samples m) (rss (ms_memory peak)) /\
    isPeakOf (fun s => heapTotal (memory s)) (samples m)
      (heapTotal (ms_memory peak)) /\
    isPeakOf (fun s => heapUsed (memory s)) (samples m)
      (heapUsed (ms_memory peak)) /\
    isPeakOf (fun s => external (memory s)) (samples m)
      (external (ms_memory peak)).
Proof.
  intro Hne. unfold getResults.
  destruct (samples m) as [|s l] eqn:E; [congruence|].
  do 2 eexists. split; [reflexivity|].
  split; [|split; [|split; [|split]]].
  - apply (peak_field_isPeakOf cpu (fun x => ms_cpu x)); reflexivity.
  - apply (peak_field_isPeakOf (fun s => rss (memory s))
             (fun x => rss (ms_memory x))); reflexivity.
  - apply (peak_field_isPeakOf (fun s => heapTotal (memory s))
             (fun x => heapTotal (ms_memory x))); reflexivity.
  - apply (peak_field_isPeakOf (fun s => heapUsed (memory s))
             (fun x => heapUsed (ms_memory x))); reflexivity.
  - apply (peak_field_isPeakOf (fun s => external (memory s))
             (fun x => external (ms_memory x))); reflexivity.
Qed.

Lemma getResults_peak_is_maximum_witness :
  exists average peak,
    getResults twoSamples = Summary average peak (samples twoSamples) /\
    isPeakOf cpu (samples twoSamples) (ms_cpu peak).
Proof.
  destruct (getResults_peak_is_maximum twoSamples)
    as (average & peak & H & Hcpu & _).
  - vm_compute. discriminate.
  - exists average, peak. split; [exact H | exact Hcpu].
Defined.

(** On a non-empty series each average of the summary is the arithmetic mean
    of the recorded values of its field. *)
Theorem getResults_average_is_mean (m : ResourceMonitor) :
  samples m <> [] ->
  exists average peak,
    getResults m = Summary average peak (samples m) /\
    ms_cpu average == meanOf cpu (samples m) /\
    rss (ms_memory average) == meanOf (fun s => rss (memory s)) (samples m) /\
    heapTotal (ms_memory average)
    == meanOf (fun s => heapTotal (memory s)) (samples m) /\
    heapUsed (ms_memory average)
    == meanOf (fun s => heapUsed (memory s)) (samples m) /\
    external (ms_memory average)
    == meanOf (fun s => external (memory s)) (samples m).
Proof.
  intro Hne. unfold getResults.
  destruct (samples m) as [|s l] eqn:E; [congruence|].
  do 2 eexists. split; [reflexivity|].
  cbn [ms_cpu ms_memory rss heapTotal heapUsed external].
  split; [|split; [|split; [|split]]].
  - apply (sum_field_mean cpu (fun x => ms_cpu x)); reflexivity.
  - apply (sum_field_mean (fun s => rss (memory s))
             (fun x => rss (ms_memory x))); reflexivity.
  - apply (sum_field_mean (fun s => heapTotal (memory s))
             (fun x => heapTotal (ms_memory x))); reflexivity.
  - apply (sum_field_mean (fun s => heapUsed (memory s))
             (fun x => heapUsed (ms_memory x))); reflexivity.
  - apply (sum_field_mean (fun s => external (memory s))
             (fun x => external (ms_memory x))); reflexivity.
Qed.

Lemma getResults_average_is_mean_witness :
  exists average peak,
    getResults twoSamples = Summary average peak (samples twoSamples) /\
    ms_cpu average == meanOf cpu (samples twoSamples) /\
    ms_cpu average == 75 # 8.
Proof.
  destruct (getResults_average_is_mean twoSamples)
    as (average & peak & H & Hcpu & _).
  - vm_compute. discriminate.
  - exists average, peak. split; [exact H|]. split; [exact Hcpu|].
    rewrite Hcpu. reflexivity.
Defined.

(** ** The averages of a burst *)

Lemma fold_duration (l : list RequestOutcome) :
  forall acc,
    fold_left (fun sum r => sum + duration r) l acc
    == acc + Qsum (map duration l).
Proof.
  induction l as [|r l IH]; intro acc; cbn [fold_left map].
  - change (Qsum []) with 0. ring.
  - rewrite IH, Qsum_cons. ring.
Qed.

Lemma Qsum_Permutation (a b : list Q) : Permutation a b -> Qsum a == Qsum b.
Proof.
  induction 1 as [|x a b _ IH|x y a|a b c _ IH1 _ IH2].
  - reflexivity.
  - rewrite !Qsum_cons, IH. reflexivity.
  - rewrite !Qsum_cons. ring.
  - rewrite IH1. exact IH2.
Qed.

Lemma length_num_Permutation {A : Type} (a b : list A) :
  Permutation a b -> length_num a = length_num b.
Proof. intro H. unfold length_num. rewrite (Permutation_length H). reflexivity. Qed.

Lemma filter_Permutation {A : Type} (f : A -> bool) (a b : list A) :
  Permutation a b -> Permutation (filter f a) (filter f b).
Proof.
  induction 1 as [|x a b _ IH|x y a|a b c _ IH1 _ IH2]; cbn [filter].
  - constructor.
  - destruct (f x); [constructor|]; exact IH.
  - destruct (f x), (f y); try reflexivity. constructor.
  - etransitivity; eassumption.
Qed.

(** The average request duration is the arithmetic mean of the durations. *)
Lemma avgDuration_mean (l : list RequestOutcome) :
  avgDuration l == meanOf duration l.
Proof.
  unfold avgDuration, meanOf. rewrite fold_duration. unfold Qdiv. ring.
Qed.

(** With numbers as exact rationals, what a burst reports does not depend on
    the order of the outcomes: the success count, the average duration and
    the average processing time of a reordered list are the same. *)
Theorem averages_order_independent (l l' : list RequestOutcome) :
  Permutation l l' ->
  List.length (filter success l) = List.length (filter success l') /\
  avgDuration (filter success l) == avgDuration (filter success l') /\
  avgProcessingTime (filter success l)
  == avgProcessingTime (filter success l').
Proof.
  intro H. apply (filter_Permutation success) in H.
  split; [apply Permutation_length; exact H|]. split.
  - rewrite !avgDuration_mean. unfold meanOf.
    rewrite (length_num_Permutation _ _ H).
    rewrite (Qsum_Permutation _ _ (Permutation_map duration H)).
    reflexivity.
  - rewrite !avgProcessingTime_sum.
    rewrite (length_num_Permutation _ _ H).
    unfold reportedTimes.
    rewrite (Qsum_Permutation _ _ (Permutation_flat_map _ H)).
    reflexivity.
Qed.

Lemma averages_order_independent_witness :
  avgProcessingTime
    (filter success [outcomeOf (answered (fullReport 100));
                     outcomeOf refused;
                     outcomeOf (answered bareReport)])
  == avgProcessingTime
       (filter success [outcomeOf (answered bareReport);
                        outcomeOf (answered (fullReport 100));
                        outcomeOf refused]).
Proof.
  apply (averages_order_independent
           [outcomeOf (answered (fullReport 100)); outcomeOf refused;
            outcomeOf (answered bareReport)]
           [outcomeOf (answered bareReport);
            outcomeOf (answered (fullReport 100)); outcomeOf refused]).
  apply Permutation_sym.
  apply (Permutation_cons_append
           [outcomeOf (answered (fullReport 100)); outcomeOf refused]
           (outcomeOf (answered bareReport))).
Defined.

(** ** The watchdog *)

(** The memory ceiling is at most 4096 MB and at most 80 % of the system
    memory.  A firing of the watchdog ends the process with code 1, after its
    two lines, exactly when the resident memory is above the ceiling;
    otherwise it prints nothing and returns.  A process above 4096 MB is
    ended whatever the size of the system memory. *)
Theorem safetyMonitorTick_threshold (totalmem : Q) (memUsage : MemoryUsage) :
  let ceiling := memoryThresholdMB totalmem in
  ceiling <= 4096 /\
  ceiling <= totalmem / MB * (80 / 100) /\
  (ceiling < rss memUsage / MB ->
   safetyMonitorTick ceiling memUsage
   = ([ErrSafetyAlert (rss memUsage / MB) ceiling; ErrTerminatingBenchmark],
      Exit 1)) /\
  (rss memUsage / MB <= ceiling ->
   safetyMonitorTick ceiling memUsage = ([], Normal tt)) /\
  (4096 * MB < rss memUsage ->
   snd (safetyMonitorTick ceiling memUsage) = Exit 1).
Proof.
  cbv zeta. unfold memoryThresholdMB, getSystemMemoryMB.
  cbn [maxMemoryThresholdPercent maxMemoryThresholdMB SAFETY_LIMITS].
  set (ceiling := Qmin (totalmem / MB * (80 / 100)) 4096).
  assert (H1 : ceiling <= 4096) by apply Q.le_min_r.
  assert (H2 : ceiling <= totalmem / MB * (80 / 100)) by apply Q.le_min_l.
  assert (Hexit : ceiling < rss memUsage / MB ->
                  safetyMonitorTick ceiling memUsage
                  = ([ErrSafetyAlert (rss memUsage / MB) ceiling;
                      ErrTerminatingBenchmark], Exit 1)).
  { intro H. unfold safetyMonitorTick. cbv zeta.
    replace (Qle_bool (rss memUsage / MB) ceiling) with false; [reflexivity|].
    symmetry. apply not_true_is_false. intro Hle.
    apply Qle_bool_iff in Hle. lra. }
  split; [exact H1|]. split; [exact H2|]. split; [exact Hexit|]. split.
  - intro H. unfold safetyMonitorTick. cbv zeta.
    apply Qle_bool_iff in H. rewrite H. reflexivity.
  - intro H. rewrite Hexit; [reflexivity|].
    assert (4096 < rss memUsage / MB).
    { apply Qlt_shift_div_l; [unfold MB; lra | exact H]. }
    lra.
Qed.

(** On a machine of 8 GB the ceiling is 4096 MB: a process of 5000 MB is
    ended, one of 64 MB is not. *)
Lemma safetyMonitorTick_threshold_witness :
  snd (safetyMonitorTick (memoryThresholdMB (8192 * MB))
         {| rss := 5000 * MB; heapTotal := 0; heapUsed := 0; external := 0 |})
  = Exit 1 /\
  safetyMonitorTick (memoryThresholdMB (8192 * MB))
    (memoryUsage_now (steadyProcess 0))
  = ([], Normal tt).
Proof.
  destruct (safetyMonitorTick_threshold (8192 * MB)
              {| rss := 5000 * MB; heapTotal := 0; heapUsed := 0;
                 external := 0 |}) as (_ & _ & _ & _ & Hbig).
  destruct (safetyMonitorTick_threshold (8192 * MB)
              (memoryUsage_now (steadyProcess 0))) as (_ & _ & _ & Hsmall & _).
  split.
  - apply Hbig. reflexivity.
  - apply Hsmall. vm_compute. discriminate.
Defined.

(** ** What a burst returns *)

Lemma sendImageResizeRequest_settles (w : RequestWorld) (numImages : Z)
    (imageBuffer : Buffer) :
  sendImageResizeRequest w numImages imageBuffer
  = ([HttpPost (Z.to_nat numImages) (List.length imageBuffer)],
     Normal (outcomeOf w)).
Proof.
  unfold outcomeOf. destruct (post w) as [data|message] eqn:E.
  - apply sendImageResizeRequest_resolved. exact E.
  - apply sendImageResizeRequest_rejected. exact E.
Qed.

Lemma pushEach_settles (w : ScenarioWorld) (numImages : Z)
    (imageBuffer : Buffer) (n : nat) :
  forall i,
    pushEach n i (fun i =>
      sendImageResizeRequest (request w i) numImages imageBuffer)
    = (repeat (HttpPost (Z.to_nat numImages) (List.length imageBuffer)) n,
       Normal (map (fun j => outcomeOf (request w j)) (seq i n))).
Proof.
  induction n as [|n IH]; intro i; cbn [pushEach seq map repeat].
  - reflexivity.
  - rewrite sendImageResizeRequest_settles, IH. cbn. rewrite app_nil_r.
    reflexivity.
Qed.

Lemma filter_success_outcomeOf (w : ScenarioWorld) (l : list nat) :
  List.length (filter success (map (fun j => outcomeOf (request w j)) l))
  = List.length (filter (fun j => isResolved (request w j)) l).
Proof.
  induction l as [|j l IH]; cbn [map filter]; [reflexivity|].
  unfold outcomeOf at 1, isResolved at 1.
  destruct (post (request w j)); cbn [success List.length]; rewrite IH;
    reflexivity.
Qed.

(** A burst that settles before the timer returns the outcomes in the order
    of dispatch: the outcome at position [i] is the one the request
    dispatched at index [i] settled to, whatever order the requests
    completed in.  The success rate it prints counts exactly the requests
    whose post was answered, out of the clamped number of requests. *)
Theorem runConcurrentRequests_results_in_order (w : ScenarioWorld)
    (numRequests numImagesPerRequest : Z) (imageBuffer : Buffer) :
  timeout_first w = false ->
  let adjusted := Z.min numRequests (maxConcurrentRequests SAFETY_LIMITS) in
  let run :=
    runConcurrentRequests w numRequests numImagesPerRequest imageBuffer in
  exists r,
    outcome run = Normal r /\
    results r
    = map (fun i => outcomeOf (request w i)) (seq 0 (Z.to_nat adjusted)) /\
    (forall i, (i < Z.to_nat adjusted)%nat ->
       nth_error (results r) i = Some (outcomeOf (request w i))) /\
    In (LogSuccessRate
          (List.length (filter (fun i => isResolved (request w i))
                          (seq 0 (Z.to_nat adjusted))))
          adjusted)
       (trace run).
Proof.
  intros Ht adjusted run. unfold run, runConcurrentRequests. cbv zeta.
  fold adjusted. rewrite pushEach_settles.
  set (rs := map (fun i => outcomeOf (request w i)) (seq 0 (Z.to_nat adjusted))).
  set (monitor := tick _ _).
  destruct (printResults_after_stop (monitor_stopped w) monitor
              (ConcurrentRequestsLabel adjusted)) as (average & peak & Hp).
  destruct (stop (monitor_stopped w) monitor) as [monitor' usage].
  cbn [fst snd] in Hp.
  destruct (reportAverages_normal (filter success rs) numImagesPerRequest)
    as (lines & Hl & _).
  unfold race. rewrite Ht.
  cbn [bind ret throw try_catch]. rewrite Hp.
  cbn [bind ret throw try_catch emit]. rewrite Hl.
  cbn [bind ret emit when app]. rewrite app_nil_r.
  unfold outcome, trace.
  exists {| results := rs; resourceUsage := Some usage;
            safetyTriggered := false |}.
  split; [destruct (adjusted <? numRequests)%Z; reflexivity|].
  split; [reflexivity|]. split.
  - intros i Hi. cbn [results]. unfold rs.
    rewrite nth_error_map, nth_error_nth' with (d := 0%nat)
      by (rewrite length_seq; exact Hi).
    rewrite seq_nth by exact Hi. reflexivity.
  - unfold rs. rewrite <- filter_success_outcomeOf. fold rs.
    destruct (adjusted <? numRequests)%Z;
      cbn [fst bind when emit app ret try_catch];
      rewrite ?in_app_iff; cbn [In]; rewrite ?in_app_iff; cbn [In];
      repeat match goal with
             | |- _ \/ _ => (left; reflexivity) || right
             end.
Qed.

(** Three requests of which the second gets a report without timings: the
    second outcome is that of the second request. *)
Lemma runConcurrentRequests_results_in_order_witness :
  exists r,
    outcome (runConcurrentRequests (mixedWorld false) 3 8 threeBytes)
    = Normal r /\
    nth_error (results r) 1 = Some (outcomeOf (answered bareReport)).
Proof.
  destruct (runConcurrentRequests_results_in_order (mixedWorld false) 3 8
              threeBytes eq_refl) as (r & Hr & _ & Hnth & _).
  exists r. split; [exact Hr|].
  apply (Hnth 1%nat). cbn. lia.
Defined.

(** The resource usage a settled burst returns is the summary of a fresh
    series: one sample for each firing of the sampler's timer during the
    burst and one taken by [stop]. *)
Theorem runConcurrentRequests_resourceUsage (w : ScenarioWorld)
    (numRequests numImagesPerRequest : Z) (imageBuffer : Buffer) :
  timeout_first w = false ->
  exists r average peak series,
    outcome (runConcurrentRequests w numRequests numImagesPerRequest
               imageBuffer) = Normal r /\
    resourceUsage r = Some (Summary average peak series) /\
    List.length series = S (List.length (timer_ticks w)) /\
    map timestamp series
    = map (fun q => performance_now q - performance_now (monitor_started w))
        (timer_ticks w ++ [monitor_stopped w]).
Proof.
  intro Ht. unfold runConcurrentRequests. cbv zeta.
  set (adjusted := Z.min numRequests (maxConcurrentRequests SAFETY_LIMITS)).
  rewrite pushEach_settles.
  set (rs := map (fun i => outcomeOf (request w i)) (seq 0 (Z.to_nat adjusted))).
  destruct (monitoring_window_series (monitor_started w)
              (ResourceMonitor_new (monitor_created w)) (timer_ticks w)
              (monitor_stopped w)) as (_ & Hlen & Hts & average & peak & Hsum).
  cbv zeta in Hlen, Hts, Hsum.
  set (monitor := tick _ _) in *.
  destruct (printResults_after_stop (monitor_stopped w) monitor
              (ConcurrentRequestsLabel adjusted)) as (average' & peak' & Hp).
  destruct (stop (monitor_stopped w) monitor) as [monitor' usage].
  cbn [fst snd] in *.
  destruct (reportAverages_normal (filter success rs) numImagesPerRequest)
    as (lines & Hl & _).
  unfold race. rewrite Ht.
  cbn [bind ret throw try_catch]. rewrite Hp.
  cbn [bind ret throw try_catch emit]. rewrite Hl.
  cbn [bind ret emit when app].
  unfold outcome.
  exists {| results := rs; resourceUsage := Some usage;
            safetyTriggered := false |}, average, peak, (samples monitor').
  split; [destruct (adjusted <? numRequests)%Z; reflexivity|].
  split; [cbn [resourceUsage]; rewrite Hsum; reflexivity|].
  split; [exact Hlen | exact Hts].
Qed.

Lemma runConcurrentRequests_resourceUsage_witness :
  exists r average peak series,
    outcome (runConcurrentRequests (mixedWorld false) 3 8 threeBytes)
    = Normal r /\
    resourceUsage r = Some (Summary average peak series) /\
    List.length series = 2%nat.
Proof.
  destruct (runConcurrentRequests_resourceUsage (mixedWorld false) 3 8
              threeBytes eq_refl)
    as (r & average & peak & series & Hr & Hu & Hlen & _).
  exists r, average, peak, series.
  split; [exact Hr|]. split; [exact Hu | exact Hlen].
Defined.

(** A burst that the timer interrupts has sent all its requests; it prints
    the safety alert and no report, and its result carries no outcome and no
    resource usage. *)
Theorem runConcurrentRequests_timed_out (w : ScenarioWorld)
    (numRequests numImagesPerRequest : Z) (imageBuffer : Buffer) :
  timeout_first w = true ->
  let adjusted := Z.min numRequests (maxConcurrentRequests SAFETY_LIMITS) in
  runConcurrentRequests w numRequests numImagesPerRequest imageBuffer
  = ((if (adjusted <? numRequests)%Z
      then [LogSafetyLimitApplied numRequests adjusted] else [])
     ++ LogRunning adjusted numImagesPerRequest
     :: repeat (HttpPost (Z.to_nat numImagesPerRequest)
                  (List.length imageBuffer)) (Z.to_nat adjusted)
     ++ [ErrSafetyMechanismTriggered
           "Timeout: Scenario took longer than 300 seconds"],
     Normal {| results := []; resourceUsage := None;
               safetyTriggered := true |}).
Proof.
  intros Ht adjusted.
  destruct (runConcurrentRequests_run w numRequests numImagesPerRequest
              imageBuffer) as (rs & average & peak & lines & usage &
                               _ & _ & Hrun).
  cbv zeta in Hrun. rewrite Ht in Hrun. exact Hrun.
Qed.

Lemma runConcurrentRequests_timed_out_witness :
  runConcurrentRequests (mixedWorld true) 2 8 threeBytes
  = ([LogRunning 2 8; HttpPost 8 3; HttpPost 8 3;
      ErrSafetyMechanismTriggered
        "Timeout: Scenario took longer than 300 seconds"],
     Normal {| results := []; resourceUsage := None;
               safetyTriggered := true |}).
Proof.
  exact (runConcurrentRequests_timed_out (mixedWorld true) 2 8 threeBytes
           eq_refl).
Defined.

(** ** The scenario loop *)

Lemma trace_bind {A B : Type} (m : M A) (k : A -> M B) :
  trace (bind m k)
  = trace m ++ match outcome m with
               | Normal a => trace (k a)
               | _ => []
               end.
Proof.
  destruct m as [tr [a|message|code|]]; cbn [bind trace outcome fst snd];
    try (rewrite app_nil_r; reflexivity).
  destruct (k a). reflexivity.
Qed.

Lemma outcome_bind {A B : Type} (m : M A) (k : A -> M B) :
  outcome (bind m k)
  = match outcome m with
    | Normal a => outcome (k a)
    | Throw message => Throw message
    | Exit code => Exit code
    | OutOfFuel => OutOfFuel
    end.
Proof.
  destruct m as [tr [a|message|code|]]; cbn [bind trace outcome fst snd];
    try reflexivity.
  destruct (k a). reflexivity.
Qed.

Lemma countPosts_logCompression (s : Sizes) (numImages : Z) :
  countPosts (trace (logCompression s numImages)) = 0%nat /\
  outcome (logCompression s numImages) = Normal tt.
Proof.
  destruct (logCompression_normal s numImages) as [qs [Hq Hall]].
  rewrite Hq. split; [|reflexivity].
  unfold countPosts, trace. cbn [fst filter isHttpPost].
  rewrite filter_none; [reflexivity|].
  eapply Forall_impl; [|exact Hall].
  intros e (q & size & ratio & ->). reflexivity.
Qed.

(** The single-request branch sends one post, whatever the answer, and ends
    as [scenarioOutcome] says. *)
Lemma singleRequest_run (w : ScenarioWorld) (scenario : Scenario)
    (imageBuffer : Buffer) :
  (concurrency scenario =? 1)%Z = true ->
  countPosts (trace (singleRequest w scenario imageBuffer)) = 1%nat /\
  outcome (singleRequest w scenario imageBuffer)
  = scenarioOutcome w scenario.
Proof.
  intro Hc. unfold scenarioOutcome. rewrite Hc.
  unfold singleRequest. cbv zeta.
  set (monitor := tick _ _).
  destruct (printResults_after_stop (monitor_stopped w) monitor
              (SingleRequestLabel (images scenario)))
    as (average & peak & Hp).
  rewrite sendImageResizeRequest_settles. cbn [bind emit app].
  destruct (stop (monitor_stopped w) monitor) as [monitor' usage].
  cbn [fst snd] in Hp. rewrite Hp. cbn [bind app].
  unfold outcomeOf.
  destruct (post (request w 0%nat)) as [data|message]; cbn [success].
  - cbn [timings sizes duration].
    destruct (data_timings data) as [t|]; [|split; reflexivity].
    cbn [bind ret app].
    destruct (totalProcessingTime t) as [x|]; [|split; reflexivity].
    cbn [bind ret emit app].
    destruct (data_sizes data) as [s|]; [|split; reflexivity].
    destruct (countPosts_logCompression s (images scenario)) as [Hn Ho].
    destruct (logCompression s (images scenario)) as [tr c].
    cbn [outcome trace fst snd] in Hn, Ho. subst c.
    cbn [bind ret app outcome trace fst snd]. split; [|reflexivity].
    rewrite app_nil_r. unfold countPosts in *. cbn [filter isHttpPost].
    cbn [List.length]. rewrite Hn. reflexivity.
  - split; reflexivity.
Qed.

Lemma countPosts_runConcurrentRequests (w : ScenarioWorld)
    (numRequests numImagesPerRequest : Z) (imageBuffer : Buffer) :
  countPosts (trace (runConcurrentRequests w numRequests numImagesPerRequest
                       imageBuffer))
  = Z.to_nat (Z.min numRequests (maxConcurrentRequests SAFETY_LIMITS)) /\
  exists r,
    outcome (runConcurrentRequests w numRequests numImagesPerRequest
               imageBuffer) = Normal r /\
    safetyTriggered r = timeout_first w.
Proof.
  destruct (runConcurrentRequests_run w numRequests numImagesPerRequest
              imageBuffer) as (rs & average & peak & lines & usage &
                               Hlen & Hl & Hrun).
  cbv zeta in Hrun.
  destruct (reportAverages_normal (filter success rs) numImagesPerRequest)
    as (lines' & Hl' & Hnone & _).
  rewrite Hl in Hl'. injection Hl' as <-.
  split.
  - unfold trace. rewrite Hrun. cbn [fst].
    rewrite countPosts_app.
    change (LogRunning ?a ?b :: ?l) with ([LogRunning a b] ++ l).
    rewrite !countPosts_app, countPosts_repeat.
    replace (countPosts (if timeout_first w then _ else _)) with 0%nat.
    + destruct (_ <? _)%Z; cbn [countPosts filter isHttpPost List.length];
        lia.
    + destruct (timeout_first w); [reflexivity|].
      rewrite countPosts_app. unfold countPosts at 2.
      rewrite (filter_none isHttpPost lines)
        by (eapply Forall_impl; [|exact Hnone]; intros e [He _]; exact He).
      reflexivity.
  - unfold outcome. rewrite Hrun. cbn [snd]. eexists. split; [reflexivity|].
    destruct (timeout_first w); reflexivity.
Qed.

Lemma runScenario_posts_outcome (w : ScenarioWorld) (scenario : Scenario)
    (imageBuffer : Buffer) :
  countPosts (trace (runScenario w scenario imageBuffer)) = postsOf scenario /\
  outcome (runScenario w scenario imageBuffer) = scenarioOutcome w scenario.
Proof.
  unfold runScenario, postsOf.
  rewrite trace_bind, outcome_bind, countPosts_app.
  replace (countPosts (trace (emit (LogScenario (name scenario)))))
    with 0%nat by reflexivity.
  cbn [emit outcome snd Nat.add].
  destruct (concurrency scenario =? 1)%Z eqn:Hc.
  - apply singleRequest_run. exact Hc.
  - rewrite trace_bind, outcome_bind.
    destruct (countPosts_runConcurrentRequests w (concurrency scenario)
                (images scenario) imageBuffer) as (Hn & r & Hr & Hs).
    rewrite Hr. cbn [ret trace outcome fst snd]. rewrite app_nil_r, Hn, Hs.
    unfold scenarioOutcome. rewrite Hc. split; reflexivity.
Qed.

(** A scenario that is run sends [postsOf] requests, neither more nor fewer,
    whether it succeeds, fails or throws; how it ends depends on the host
    only through [scenarioOutcome], not on the payload. *)
Theorem runScenario_run (w : ScenarioWorld) (scenario : Scenario)
    (imageBuffer : Buffer) :
  countPosts (trace (runScenario w scenario imageBuffer)) = postsOf scenario /\
  outcome (runScenario w scenario imageBuffer) = scenarioOutcome w scenario.
Proof.
  exact (runScenario_posts_outcome w scenario imageBuffer).
Qed.

Lemma countPosts_skipLines (rest : list Scenario) :
  countPosts (skipLines rest) = 0%nat.
Proof.
  unfold countPosts, skipLines. rewrite filter_none; [reflexivity|].
  apply Forall_forall. intros e He. apply in_map_iff in He.
  destruct He as [x [<- _]]. reflexivity.
Qed.

Lemma scenarioLoop_cons (world : nat -> ScenarioWorld) (i : nat)
    (scenario : Scenario) (rest : list Scenario) (imageBuffer : Buffer) :
  scenarioLoop world i (scenario :: rest) imageBuffer false
  = bind (runScenario (world i) scenario imageBuffer) (fun failed =>
      bind coolDown (fun _ =>
        scenarioLoop world (S i) rest imageBuffer failed)).
Proof. reflexivity. Qed.

Lemma postsOf_le (scenario : Scenario) : (postsOf scenario <= 50)%nat.
Proof.
  unfold postsOf. destruct (_ =? 1)%Z; [lia|].
  cbn [maxConcurrentRequests SAFETY_LIMITS]. lia.
Qed.

(** The loop ends normally or by the exception of a scenario; it never ends
    the process. *)
Lemma scenarioLoop_outcome (world : nat -> ScenarioWorld)
    (imageBuffer : Buffer) (l : list Scenario) :
  forall i flag,
    (exists failed,
       outcome (scenarioLoop world i l imageBuffer flag) = Normal failed) \/
    (exists message,
       outcome (scenarioLoop world i l imageBuffer flag) = Throw message).
Proof.
  induction l as [|scenario rest IH]; intros i flag.
  - left. exists flag. reflexivity.
  - destruct flag.
    + rewrite scenarioLoop_skips. left. exists true. reflexivity.
    + rewrite scenarioLoop_cons, outcome_bind.
      destruct (runScenario_posts_outcome (world i) scenario imageBuffer) as [_ Ho].
      rewrite Ho. unfold scenarioOutcome.
      destruct (concurrency scenario =? 1)%Z.
      * destruct (post (request (world i) 0%nat)) as [data|message].
        -- destruct (data_timings data) as [t|]; [|right; eexists; reflexivity].
           destruct (totalProcessingTime t);
             [|right; eexists; reflexivity].
           rewrite outcome_bind. cbn [coolDown bind emit outcome snd].
           apply IH.
        -- rewrite outcome_bind. cbn [coolDown bind emit outcome snd].
           apply IH.
      * rewrite outcome_bind. cbn [coolDown bind emit outcome snd]. apply IH.
Qed.

(** The requests of a whole run.  The loop never sends more than the sum of
    what its scenarios send when run, which is at most 50 per scenario, and
    it sends exactly that sum when it reaches its end without a failure. *)
Theorem scenarioLoop_posts (world : nat -> ScenarioWorld)
    (imageBuffer : Buffer) (l : list Scenario) :
  forall i,
    (countPosts (trace (scenarioLoop world i l imageBuffer false))
     <= totalPosts l)%nat /\
    (totalPosts l <= 50 * List.length l)%nat /\
    (outcome (scenarioLoop world i l imageBuffer false) = Normal false ->
     countPosts (trace (scenarioLoop world i l imageBuffer false))
     = totalPosts l).
Proof.
  induction l as [|scenario rest IH]; intro i.
  - cbn. repeat split; lia.
  - destruct (IH (S i)) as (Hle & Hbound & Heq).
    pose proof (postsOf_le scenario) as Hp.
    rewrite scenarioLoop_cons, trace_bind, outcome_bind, countPosts_app.
    destruct (runScenario_posts_outcome (world i) scenario imageBuffer) as [Hn Ho].
    rewrite Hn, Ho. cbn [totalPosts fold_right List.length].
    fold (totalPosts rest).
    destruct (scenarioOutcome (world i) scenario) as [failed| | |].
    + rewrite trace_bind, outcome_bind, countPosts_app.
      cbn [coolDown bind emit outcome trace fst snd app].
      replace (countPosts [LogCoolingDown _; Sleep _]) with 0%nat
        by reflexivity.
      destruct failed.
      * rewrite scenarioLoop_skips. cbn [trace outcome fst snd].
        rewrite countPosts_skipLines.
        split; [lia|]. split; [lia|]. discriminate.
      * split; [lia|]. split; [lia|]. intro H. rewrite (Heq H). lia.
    + cbn [countPosts filter List.length]. split; [lia|]. split; [lia|].
      discriminate.
    + cbn [countPosts filter List.length]. split; [lia|]. split; [lia|].
      discriminate.
    + cbn [countPosts filter List.length]. split; [lia|]. split; [lia|].
      discriminate.
Qed.

(** The harness's three scenarios, all answered in time, send 1 + 10 + 50
    requests. *)
Lemma scenarioLoop_posts_witness :
  countPosts (trace (scenarioLoop (fun _ => mixedWorld false) 0 scenarios
                       threeBytes false)) = 61%nat.
Proof.
  apply (scenarioLoop_posts (fun _ => mixedWorld false) threeBytes scenarios
           0%nat).
  reflexivity.
Defined.

(** A single-request scenario whose response lacks the processing time ends
    the loop with its exception: the scenarios after it are neither run nor
    reported as skipped, and there is no cooldown. *)
Theorem scenarioLoop_aborts (world : nat -> ScenarioWorld)
    (imageBuffer : Buffer) (before : list Scenario) (scenario : Scenario)
    (rest : list Scenario) (tr0 : list event) (message : string) :
  scenarioLoop world 0 before imageBuffer false = (tr0, Normal false) ->
  scenarioOutcome (world (List.length before)) scenario = Throw message ->
  exists tr,
    runScenario (world (List.length before)) scenario imageBuffer
    = (tr, Throw message) /\
    scenarioLoop world 0 (before ++ scenario :: rest) imageBuffer false
    = (tr0 ++ tr, Throw message).
Proof.
  intros Hbefore Hthrow.
  destruct (runScenario_posts_outcome (world (List.length before)) scenario
              imageBuffer) as [_ Ho].
  rewrite Hthrow in Ho.
  destruct (runScenario (world (List.length before)) scenario imageBuffer)
    as [tr c] eqn:E.
  cbn [outcome snd] in Ho. subst c.
  exists tr. split; [reflexivity|].
  rewrite (scenarioLoop_app world imageBuffer before 0 tr0 Hbefore).
  cbn [Nat.add]. rewrite scenarioLoop_cons, E. reflexivity.
Qed.

Lemma scenarioLoop_aborts_witness :
  exists tr,
    scenarioLoop bareWorld 0 scenarios threeBytes false
    = (tr, Throw
             "Cannot read properties of undefined (reading 'totalProcessingTime')").
Proof.
  destruct (scenarioLoop_aborts bareWorld threeBytes [] {| name := "Single request with 8 images"; concurrency := 1;
                 images := 8 |}
              (tl scenarios) [] _ eq_refl eq_refl) as (tr & _ & H).
  exists tr. exact H.
Defined.

(** ** The whole run *)













(** Without a seed file the run ends the process with code 1 right after
    its first two lines: no request is sent, and the handler of
    [runBenchmarks] does not run. *)
Theorem runBenchmarks_missing_seed (fuel : nat) (h : Host) :
  sampleFile h = None ->
  runBenchmarks fuel h
  = ([LogSafetyMonitoring (getSystemMemoryMB (totalmem h))
        (memoryThresholdMB (totalmem h));
      LogCreatingTestImageBuffer; ErrSampleImageNotFound],
     Exit 1).
Proof.
  intro H. unfold runBenchmarks. rewrite H. reflexivity.
Qed.

Lemma runBenchmarks_missing_seed_witness :
  snd (runBenchmarks 0 noSeedHost) = Exit 1.
Proof.
  rewrite (runBenchmarks_missing_seed 0 noSeedHost eq_refl). reflexivity.
Defined.

(* ================================================================== *)
(** * Further properties of the upload endpoint *)

(** ** Quality targets *)

(** [Math.floor(a / originalSizeKB * c)] in whole numbers: the quotient of
    [a * 1024 * c] by the length in bytes, and infinite for an empty
    buffer. *)
Lemma floor_div_mul_bytes (a c : Z) (fileBuffer : Buffer) :
  floor_div_mul (inject_Z a) (originalSizeKB fileBuffer) (inject_Z c)
  = if (Buffer_length fileBuffer =? 0)%Z then PInf
    else Fin (a * 1024 * c / Buffer_length fileBuffer).
Proof.
  unfold floor_div_mul, originalSizeKB.
  assert (Hlen : (0 <= Buffer_length fileBuffer)%Z)
    by (unfold Buffer_length; lia).
  destruct (Buffer_length fileBuffer) as [|p|p] eqn:E; [reflexivity| |lia].
  cbn [Z.eqb].
  assert (Hp : ~ inject_Z (Z.pos p) == 0).
  { intro H. change 0 with (inject_Z 0) in H. apply inject_Z_injective in H.
    discriminate H. }
  assert (Hkb : ~ inject_Z (Z.pos p) / 1024 == 0).
  { intro H. apply Hp.
    assert (E1 : inject_Z (Z.pos p) == inject_Z (Z.pos p) / 1024 * 1024)
      by field.
    rewrite E1, H. reflexivity. }
  destruct (Qeq_bool (inject_Z (Z.pos p) / 1024) 0) eqn:Eb.
  { apply Qeq_bool_iff in Eb. contradiction. }
  f_equal.
  rewrite (Qfloor_comp _ (a * 1024 * c # p)).
  - reflexivity.
  - transitivity (inject_Z (a * 1024 * c) / inject_Z (Z.pos p));
      [|symmetry; apply Qmake_Qdiv].
    rewrite !inject_Z_mult. change (inject_Z 1024) with 1024.
    field. exact Hp.
Qed.

Lemma targetQuality_low_closed_form (fileBuffer : Buffer) :
  targetQuality_low fileBuffer
  = Fin (if (Buffer_length fileBuffer =? 0)%Z then 30
         else Z.max 10 (Z.min 30 (5120000 / Buffer_length fileBuffer))).
Proof.
  unfold targetQuality_low.
  rewrite (floor_div_mul_bytes 50 100).
  destruct (Buffer_length fileBuffer =? 0)%Z; reflexivity.
Qed.

(** The low quality target in whole numbers: 30 for an empty buffer, and
    otherwise [5120000 / length] (integer division) held between 10 and
    30. *)
Theorem targetQuality_low_value (fileBuffer : Buffer) :
  targetQuality_low fileBuffer
  = Fin (if (Buffer_length fileBuffer =? 0)%Z then 30
         else Z.max 10 (Z.min 30 (5120000 / Buffer_length fileBuffer))).
Proof.
  exact (targetQuality_low_closed_form fileBuffer).
Qed.

(** The low quality target lies between 10 and 30 and never grows with the
    size of the file: 30 up to 170666 bytes, 10 from 465455 bytes on. *)
Theorem targetQuality_low_antitone (small large : Buffer) :
  (List.length small <= List.length large)%nat ->
  exists q1 q2,
    targetQuality_low small = Fin q1 /\
    targetQuality_low large = Fin q2 /\
    (10 <= q2 <= q1)%Z /\ (q1 <= 30)%Z /\
    ((Buffer_length small <= 170666)%Z -> q1 = 30%Z) /\
    ((465455 <= Buffer_length large)%Z -> q2 = 10%Z).
Proof.
  intro Hle. rewrite !targetQuality_low_closed_form.
  do 2 eexists. split; [reflexivity|]. split; [reflexivity|].
  assert (H1 : (0 <= Buffer_length small <= Buffer_length large)%Z)
    by (unfold Buffer_length; lia).
  destruct (Z.eqb_spec (Buffer_length small) 0) as [E1|E1];
    destruct (Z.eqb_spec (Buffer_length large) 0) as [E2|E2]; try lia.
  - repeat split; try lia. intro H.
    assert (5120000 / Buffer_length large < 11)%Z
      by (apply Z.div_lt_upper_bound; lia).
    lia.
  - assert (Hmono : (5120000 / Buffer_length large
                     <= 5120000 / Buffer_length small)%Z)
      by (apply Z.div_le_compat_l; lia).
    repeat split; try lia.
    + intro H.
      assert (30 <= 5120000 / Buffer_length small)%Z
        by (apply Z.div_le_lower_bound; lia).
      lia.
    + intro H.
      assert (5120000 / Buffer_length large < 11)%Z
        by (apply Z.div_lt_upper_bound; lia).
      lia.
Qed.

Lemma targetQuality_low_antitone_witness :
  exists q1 q2,
    targetQuality_low threeBytes = Fin q1 /\
    targetQuality_low (Buffer_alloc 500000) = Fin q2 /\
    (10 <= q2 <= q1)%Z /\ q1 = 30%Z /\ q2 = 10%Z.
Proof.
  destruct (targetQuality_low_antitone threeBytes (Buffer_alloc 500000))
    as (q1 & q2 & H1 & H2 & Hq & _ & Hsmall & Hlarge).
  - unfold Buffer_alloc. rewrite repeat_length. cbn. lia.
  - exists q1, q2. split; [exact H1|]. split; [exact H2|].
    split; [exact Hq|]. split.
    + apply Hsmall. cbn. lia.
    + apply Hlarge. unfold Buffer_length, Buffer_alloc.
      rewrite repeat_length. lia.
Defined.

(** In the other version of the endpoint the bounds of the medium target are
    in the usual order: it lies between 30 and 90 and does depend on the
    size, 90 up to 68266 bytes and 30 from 198194 bytes on; the low target
    lies between 5 and 30. *)
Theorem Earlier_targetQuality_ranges (fileBuffer : Buffer) :
  exists low medium,
    Earlier.low_targetQuality fileBuffer = Fin low /\
    Earlier.medium_targetQuality fileBuffer = Fin medium /\
    (5 <= low <= 30)%Z /\ (30 <= medium <= 90)%Z /\
    ((Buffer_length fileBuffer <= 68266)%Z -> medium = 90%Z) /\
    ((198194 <= Buffer_length fileBuffer)%Z -> medium = 30%Z).
Proof.
  unfold Earlier.low_targetQuality, Earlier.medium_targetQuality.
  rewrite (floor_div_mul_bytes 50 100), (floor_div_mul_bytes 60 100).
  assert (H0 : (0 <= Buffer_length fileBuffer)%Z)
    by (unfold Buffer_length; lia).
  destruct (Z.eqb_spec (Buffer_length fileBuffer) 0) as [E|E].
  - exists 30%Z, 90%Z. cbn. repeat split; lia.
  - cbn [XNum.max XNum.min]. do 2 eexists.
    split; [reflexivity|]. split; [reflexivity|].
    split; [lia|]. split; [lia|]. split; intro H.
    + assert (90 <= 60 * 1024 * 100 / Buffer_length fileBuffer)%Z
        by (apply Z.div_le_lower_bound; lia).
      lia.
    + assert (60 * 1024 * 100 / Buffer_length fileBuffer < 31)%Z
        by (apply Z.div_lt_upper_bound; lia).
      lia.
Qed.

Lemma Earlier_targetQuality_ranges_witness :
  exists low medium,
    Earlier.low_targetQuality threeBytes = Fin low /\
    Earlier.medium_targetQuality threeBytes = Fin medium /\
    (5 <= low <= 30)%Z /\ medium = 90%Z.
Proof.
  destruct (Earlier_targetQuality_ranges threeBytes)
    as (low & medium & H1 & H2 & Hl & _ & Hm & _).
  exists low, medium. split; [exact H1|]. split; [exact H2|].
  split; [exact Hl|]. apply Hm. cbn. lia.
Defined.

(** ** The route and saving *)

Module UploadFacts.
Import Upload.

Lemma processImage_resolved (w : World) (clock : Q * Q) (fileBuffer : Buffer)
    (q : Quality) (result : Buffer) :
  sharp w (pipelineFor fileBuffer q) = ToBufferResolved result ->
  processImage w clock fileBuffer q
  = ([ToBuffer (pipelineFor fileBuffer q);
      LogProcessing q (snd clock - fst clock) (originalSizeKB fileBuffer)
        (sizeKB result) (originalSizeKB fileBuffer / sizeKB result)],
     Normal {| buffer := result;
               processTime := snd clock - fst clock;
               originalSize := originalSizeKB fileBuffer;
               resultSize := sizeKB result;
               compressionRatio :=
                 originalSizeKB fileBuffer / sizeKB result |}).
Proof.
  intro H. unfold processImage, toBuffer. rewrite H. reflexivity.
Qed.

Lemma processImage_rejected (w : World) (clock : Q * Q) (fileBuffer : Buffer)
    (q : Quality) (message : string) :
  sharp w (pipelineFor fileBuffer q) = ToBufferRejected message ->
  processImage w clock fileBuffer q
  = ([ToBuffer (pipelineFor fileBuffer q)], Throw message).
Proof.
  intro H. unfold processImage, toBuffer. rewrite H. reflexivity.
Qed.

Lemma toBufferCount_app (a b : list action) :
  toBufferCount (a ++ b) = (toBufferCount a + toBufferCount b)%nat.
Proof. unfold toBufferCount. rewrite filter_app, length_app. reflexivity. Qed.

Lemma effects_andThen {A B : Type} (m : Run A) (k : A -> Run B) :
  effects (andThen m k)
  = effects m ++ match ending m with
               | Normal a => effects (k a)
               | _ => []
               end.
Proof.
  destruct m as [tr [a|message|code|]]; cbn [andThen effects ending fst snd];
    try (rewrite app_nil_r; reflexivity).
  destruct (k a). reflexivity.
Qed.

Lemma ending_andThen {A B : Type} (m : Run A) (k : A -> Run B) :
  ending (andThen m k)
  = match ending m with
    | Normal a => ending (k a)
    | Throw message => Throw message
    | Exit code => Exit code
    | OutOfFuel => OutOfFuel
    end.
Proof.
  destruct m as [tr [a|message|code|]]; cbn [andThen effects ending fst snd];
    try reflexivity.
  destruct (k a). reflexivity.
Qed.

(** A file the library encodes at the three qualities: three pipelines are
    run, nothing is written, and the accumulators grow by the entries of the
    file. *)
Lemma processFile_succeeds (w : World) (i : nat) (file : UploadedFile)
    (acc : Acc) :
  succeeds w file = true ->
  exists tr acc' entry sized,
    processFile w i file acc = (tr, Normal acc') /\
    toBufferCount tr = 3%nat /\
    filter touchesDisk tr = [] /\
    totalOriginalSize (sizes acc')
    = totalOriginalSize (sizes acc) + sizeKB (data file) /\
    low (totalProcessedSize (sizes acc'))
    = low (totalProcessedSize (sizes acc)) + sizeKB (encoded w Low file) /\
    medium (totalProcessedSize (sizes acc'))
    = medium (totalProcessedSize (sizes acc))
      + sizeKB (encoded w Medium file) /\
    original (totalProcessedSize (sizes acc'))
    = original (totalProcessedSize (sizes acc))
      + sizeKB (encoded w Original file) /\
    low (processedImages acc')
    = low (processedImages acc) ++ [imageOf w "low_" Low file] /\
    medium (processedImages acc')
    = medium (processedImages acc) ++ [imageOf w "medium_" Medium file] /\
    original (processedImages acc')
    = original (processedImages acc)
      ++ [imageOf w "original_" Original file] /\
    timings_files (timings acc') = timings_files (timings acc) ++ [entry] /\
    timed_fileName entry = name file /\
    totalTime entry = fileEndTime w i - fileStartTime w i /\
    sizes_files (sizes acc')
    = Some (match sizes_files (sizes acc) with
            | Some files => files
            | None => []
            end ++ [sized]) /\
    sized_fileName sized = name file.
Proof.
  unfold succeeds, resolves, imageOf, encoded. intro H.
  destruct (sharp w (pipelineFor (data file) Low)) as [rl|] eqn:El;
    [|discriminate H].
  destruct (sharp w (pipelineFor (data file) Medium)) as [rm|] eqn:Em;
    [|discriminate H].
  destruct (sharp w (pipelineFor (data file) Original)) as [ro|] eqn:Eo;
    [|discriminate H].
  unfold processFile. cbv zeta.
  rewrite (processImage_resolved _ _ _ _ _ El). cbn [andThen].
  rewrite (processImage_resolved _ _ _ _ _ Em). cbn [andThen].
  rewrite (processImage_resolved _ _ _ _ _ Eo). cbn [andThen pure app].
  do 4 eexists. split; [reflexivity|].
  cbn. repeat split; reflexivity.
Qed.


(** A file the library rejects at some quality: the body of the [try]
    throws after one to three pipelines, and nothing is written. *)
Lemma processFile_fails (w : World) (i : nat) (file : UploadedFile)
    (acc : Acc) :
  succeeds w file = false ->
  exists tr message,
    processFile w i file acc = (tr, Throw message) /\
    (1 <= toBufferCount tr <= 3)%nat /\
    filter touchesDisk tr = [].
Proof.
  unfold succeeds, resolves. intro H. unfold processFile. cbv zeta.
  destruct (sharp w (pipelineFor (data file) Low)) as [rl|ml] eqn:El.
  - rewrite (processImage_resolved _ _ _ _ _ El). cbn [andThen].
    destruct (sharp w (pipelineFor (data file) Medium)) as [rm|mm] eqn:Em.
    + rewrite (processImage_resolved _ _ _ _ _ Em). cbn [andThen].
      destruct (sharp w (pipelineFor (data file) Original)) as [ro|mo] eqn:Eo;
        [discriminate H|].
      rewrite (processImage_rejected _ _ _ _ _ Eo).
      do 2 eexists. split; [reflexivity|]. cbn. split; [lia | reflexivity].
    + rewrite (processImage_rejected _ _ _ _ _ Em).
      do 2 eexists. split; [reflexivity|]. cbn. split; [lia | reflexivity].
  - rewrite (processImage_rejected _ _ _ _ _ El).
    do 2 eexists. split; [reflexivity|]. cbn. split; [lia | reflexivity].
Qed.

Lemma summarises_initial (w : World) : summarises w [] initialAcc.
Proof. unfold summarises. cbn. repeat split; reflexivity. Qed.

Lemma Qsum_snoc (l : list Q) (x : Q) : Qsum (l ++ [x]) == Qsum l + x.
Proof.
  rewrite Qsum_app, Qsum_cons. change (Qsum []) with 0. ring.
Qed.

(** The loop over files that the library encodes: every file is processed,
    in order, and the accumulators stay a summary of the files done. *)
Lemma processFiles_succeed (w : World) (mediaFiles : list UploadedFile) :
  forall i done acc,
    forallb (succeeds w) mediaFiles = true ->
    summarises w done acc ->
    exists tr acc',
      processFiles w i mediaFiles acc = (tr, Normal (inl acc')) /\
      toBufferCount tr = (3 * List.length mediaFiles)%nat /\
      filter touchesDisk tr = [] /\
      summarises w (done ++ mediaFiles) acc'.
Proof.
  induction mediaFiles as [|file rest IH]; intros i done acc Hall Hsum.
  - exists [], acc. rewrite app_nil_r.
    split; [reflexivity|]. split; [reflexivity|].
    split; [reflexivity | exact Hsum].
  - cbn [forallb] in Hall. apply andb_true_iff in Hall.
    destruct Hall as [Hfile Hrest].
    destruct (processFile_succeeds w i file acc Hfile)
      as (tr1 & acc1 & entry & sized & Hrun & Hn & Hd & H1 & H2 & H3 & H4
          & H5 & H6 & H7 & H8 & H9 & _ & H10 & H11).
    assert (Hsum1 : summarises w (done ++ [file]) acc1).
    { destruct Hsum as (S1 & S2 & S3 & S4 & S5 & S6 & S7 & S8 & S9).
      unfold summarises. rewrite !map_app. cbn [map].
      rewrite !Qsum_snoc, H1, H2, H3, H4, H5, H6, H7, H8, H10.
      rewrite S1, S2, S3, S4, S5, S6, S7. rewrite !map_app. cbn [map].
      rewrite S8, S9, H9, H11. repeat split; reflexivity. }
    destruct (IH (S i) (done ++ [file]) acc1 Hrest Hsum1)
      as (tr2 & acc2 & Hrun2 & Hn2 & Hd2 & Hsum2).
    exists (tr1 ++ tr2), acc2.
    cbn [processFiles]. rewrite Hrun. cbn [andThen pure tryCatch].
    rewrite app_nil_r. rewrite Hrun2.
    split; [reflexivity|].
    rewrite toBufferCount_app, filter_app, Hn, Hn2, Hd, Hd2.
    rewrite <- app_assoc in Hsum2.
    split; [cbn [List.length]; lia|]. split; [reflexivity | exact Hsum2].
Qed.

(** The loop with a first file that the library rejects: the files before
    it are processed, the loop ends with status 500 and the name of that
    file, and no file after it reaches the library. *)
Lemma processFiles_fail (w : World) (before : list UploadedFile)
    (file : UploadedFile) (after : list UploadedFile) :
  forall i acc,
    forallb (succeeds w) before = true ->
    succeeds w file = false ->
    exists tr,
      processFiles w i (before ++ file :: after) acc
      = (tr, Normal (inr (Status 500
                            ("Error processing file: " ++ name file)))) /\
      (3 * List.length before < toBufferCount tr
       <= 3 * List.length before + 3)%nat /\
      filter touchesDisk tr = [].
Proof.
  induction before as [|first before IH]; intros i acc Hall Hfail.
  - destruct (processFile_fails w i file acc Hfail)
      as (tr & message & Hrun & Hn & Hd).
    exists tr. cbn [app processFiles]. rewrite Hrun.
    cbn [andThen pure tryCatch]. rewrite !app_nil_r.
    split; [reflexivity|]. split; [cbn [List.length]; lia | exact Hd].
  - cbn [forallb] in Hall. apply andb_true_iff in Hall.
    destruct Hall as [Hfirst Hrest].
    destruct (processFile_succeeds w i first acc Hfirst)
      as (tr1 & acc1 & entry & sized & Hrun & Hn & Hd & _).
    destruct (IH (S i) acc1 Hrest Hfail) as (tr2 & Hrun2 & Hn2 & Hd2).
    exists (tr1 ++ tr2). cbn [app processFiles]. rewrite Hrun.
    cbn [andThen pure tryCatch]. rewrite app_nil_r, Hrun2.
    split; [reflexivity|].
    rewrite toBufferCount_app, filter_app, Hn, Hd, Hd2.
    split; [cbn [List.length]; lia | reflexivity].
Qed.


Lemma first_failure {A : Type} (f : A -> bool) (l : list A) :
  forallb f l = false ->
  exists before x after,
    l = before ++ x :: after /\ forallb f before = true /\ f x = false.
Proof.
  induction l as [|a l IH]; cbn [forallb]; [discriminate|].
  intro H. destruct (f a) eqn:E.
  - destruct (IH H) as (before & x & after & -> & Hb & Hx).
    exists (a :: before), x, after. cbn [forallb app]. rewrite E.
    repeat split; assumption.
  - exists [], a, l. repeat split; assumption.
Qed.


(** *** Saving *)

Lemma saveImageToDisk_saved (w : World) (image : Buffer) (filePath : string) :
  mkdir w (dirOf filePath) = None ->
  writeFile w filePath = None ->
  saveImageToDisk w image filePath
  = ([Mkdir (dirOf filePath); WriteFile filePath image],
     Normal (snd (saveClock w filePath) - fst (saveClock w filePath))).
Proof.
  intros Hm Hw. unfold saveImageToDisk. cbv zeta. fold (dirOf filePath).
  rewrite Hm, Hw. reflexivity.
Qed.


Lemma saveImageToDisk_outcome (w : World) (image : Buffer)
    (filePath : string) :
  (exists t, ending (saveImageToDisk w image filePath) = Normal t) \/
  (exists message,
     ending (saveImageToDisk w image filePath) = Throw message).
Proof.
  unfold saveImageToDisk. cbv zeta.
  destruct (mkdir w _); [right; eexists; reflexivity|].
  destruct (writeFile w _); [right | left]; eexists; reflexivity.
Qed.

Lemma saveEach_outcome (w : World) (prefix : string)
    (files : list ProcessedImage) :
  forall total,
    (exists t, ending (saveEach w prefix files total) = Normal t) \/
    (exists message,
       ending (saveEach w prefix files total) = Throw message).
Proof.
  induction files as [|file rest IH]; intro total; cbn [saveEach].
  - left. eexists. reflexivity.
  - rewrite ending_andThen.
    destruct (saveImageToDisk_outcome w (image_buffer file)
                (prefix ++ image_name file)) as [[t H]|[message H]];
      rewrite H.
    + apply IH.
    + right. eexists. reflexivity.
Qed.

Lemma saveEach_saved (w : World) (prefix : string)
    (files : list ProcessedImage) :
  (forall path, mkdir w path = None) ->
  (forall path, writeFile w path = None) ->
  forall total, exists t,
    saveEach w prefix files total = (saveEvents prefix files, Normal t).
Proof.
  intros Hm Hw. induction files as [|file rest IH]; intro total;
    cbn [saveEach saveEvents flat_map].
  - eexists. reflexivity.
  - rewrite saveImageToDisk_saved by (apply Hm || apply Hw).
    cbn [andThen]. destruct (IH (total + (snd (saveClock w (prefix ++ image_name file)) - fst (saveClock w (prefix ++ image_name file))))) as [t Ht].
    rewrite Ht. exists t. reflexivity.
Qed.

(** Saving never throws: an error of the disk is printed and swallowed. *)
Lemma saveProcessedImages_returns (w : World)
    (images : PerQuality (list ProcessedImage)) :
  ending (saveProcessedImages w images) = Normal tt.
Proof.
  unfold saveProcessedImages.
  set (body := andThen _ _).
  assert (Hbody : ending body = Normal tt \/
                  exists message, ending body = Throw message).
  { unfold body. rewrite ending_andThen.
    destruct (saveEach_outcome w "output/low/" (low images) 0)
      as [[t1 H1]|[m1 H1]]; rewrite H1; [|right; eexists; reflexivity].
    rewrite ending_andThen.
    destruct (saveEach_outcome w "output/medium/" (medium images) 0)
      as [[t2 H2]|[m2 H2]]; rewrite H2; [|right; eexists; reflexivity].
    rewrite ending_andThen.
    destruct (saveEach_outcome w "output/original/" (original images) 0)
      as [[t3 H3]|[m3 H3]]; rewrite H3; [|right; eexists; reflexivity].
    left. reflexivity. }
  destruct body as [tr c]. cbn [ending snd] in Hbody.
  destruct Hbody as [->|[message ->]]; reflexivity.
Qed.


Lemma effects_tryCatch {A : Type} (body : Run A) (handler : string -> Run A) :
  effects (tryCatch body handler)
  = effects body ++ match ending body with
                  | Throw message => effects (handler message)
                  | _ => []
                  end.
Proof.
  destruct body as [tr [a|message|code|]];
    cbn [tryCatch effects ending fst snd];
    try (rewrite app_nil_r; reflexivity).
  destruct (handler message). reflexivity.
Qed.

Lemma toBufferCount_saveEach (w : World) (prefix : string)
    (files : list ProcessedImage) :
  forall total, toBufferCount (effects (saveEach w prefix files total)) = 0%nat.
Proof.
  induction files as [|file rest IH]; intro total; cbn [saveEach].
  - reflexivity.
  - rewrite effects_andThen, toBufferCount_app.
    assert (H : toBufferCount
                  (effects (saveImageToDisk w (image_buffer file)
                            (prefix ++ image_name file))) = 0%nat).
    { unfold saveImageToDisk. cbv zeta.
      destruct (mkdir w _); [reflexivity|].
      destruct (writeFile w _); reflexivity. }
    rewrite H. destruct (ending _); [apply IH | | |]; reflexivity.
Qed.

Lemma toBufferCount_save (w : World)
    (images : PerQuality (list ProcessedImage)) :
  toBufferCount (effects (saveProcessedImages w images)) = 0%nat.
Proof.
  unfold saveProcessedImages.
  rewrite effects_tryCatch, toBufferCount_app.
  replace (toBufferCount
             (match ending _ with
              | Throw message => effects (perform (ErrSavingProcessedImages message))
              | _ => []
              end)) with 0%nat by (destruct (ending _); reflexivity).
  rewrite Nat.add_0_r.
  rewrite effects_andThen, toBufferCount_app, toBufferCount_saveEach.
  destruct (ending (saveEach w "output/low/" (low images) 0));
    try reflexivity.
  rewrite effects_andThen, toBufferCount_app, toBufferCount_saveEach.
  destruct (ending (saveEach w "output/medium/" (medium images) 0));
    try reflexivity.
  rewrite effects_andThen, toBufferCount_app, toBufferCount_saveEach.
  destruct (ending (saveEach w "output/original/" (original images) 0));
    reflexivity.
Qed.

Lemma mediaFilesOf_Some (files : option (option Media))
    (mediaFiles : list UploadedFile) :
  mediaFilesOf files = Some mediaFiles ->
  exists media,
    files = Some (Some media) /\
    mediaFiles = match media with
                 | OneFile file => [file]
                 | ManyFiles files => files
                 end.
Proof.
  destruct files as [[[file|fs]|]|]; cbn; intro H; try discriminate H;
    injection H as <-; eexists; split; reflexivity.
Qed.

Lemma upload_reports (w : World) (files : option (option Media))
    (mediaFiles : list UploadedFile) :
  mediaFilesOf files = Some mediaFiles ->
  forallb (succeeds w) mediaFiles = true ->
  exists timings sizes,
    ending (upload w files)
    = Normal (Json "Files uploaded and processed successfully" timings
                sizes) /\
    totalProcessingTime timings = totalEndTime w - totalStartTime w /\
    map timed_fileName (timings_files timings) = map name mediaFiles /\
    totalOriginalSize sizes
    == Qsum (map (fun file => sizeKB (data file)) mediaFiles) /\
    low (totalProcessedSize sizes)
    == Qsum (map (fun file => sizeKB (encoded w Low file)) mediaFiles) /\
    medium (totalProcessedSize sizes)
    == Qsum (map (fun file => sizeKB (encoded w Medium file)) mediaFiles) /\
    original (totalProcessedSize sizes)
    == Qsum (map (fun file => sizeKB (encoded w Original file)) mediaFiles) /\
    toBufferCount (effects (upload w files))
    = (3 * List.length mediaFiles)%nat.
Proof.
  intros Hfiles Hall.
  destruct (mediaFilesOf_Some files mediaFiles Hfiles) as (media & -> & Hm).
  unfold upload. rewrite <- Hm.
  destruct (processFiles_succeed w mediaFiles 0 [] initialAcc Hall
              (summarises_initial w))
    as (tr & acc & Hrun & Hn & _ & Hsum).
  cbn [app] in Hsum.
  destruct Hsum as (S1 & S2 & S3 & S4 & _ & _ & _ & S8 & _).
  rewrite Hrun. cbn [andThen].
  pose proof (saveProcessedImages_returns w (processedImages acc)) as Hs.
  pose proof (toBufferCount_save w (processedImages acc)) as Hc.
  destruct (saveProcessedImages w (processedImages acc)) as [trs cs].
  cbn [ending effects fst snd] in Hs, Hc. subst cs.
  cbn [andThen perform pure app ending effects fst snd].
  do 2 eexists. split; [reflexivity|].
  cbn [totalProcessingTime timings_files].
  repeat (split; [first [reflexivity | assumption]|]).
  rewrite !toBufferCount_app, Hn, Hc. cbn. lia.
Qed.

(** When the library encodes every uploaded file at the three qualities, the
    route answers with the JSON report, whatever the disk does afterwards.
    The report has one timing entry per file, in the order of the upload;
    its total processing time is the time from the start to the end of the
    handler; its total original size is the sum of the sizes of the uploads
    in KB, and each total processed size is the sum of the sizes of the
    encodings of that quality.  The library is run three times per file. *)
Theorem upload_success (w : World) (files : option (option Media))
    (mediaFiles : list UploadedFile) :
  mediaFilesOf files = Some mediaFiles ->
  forallb (succeeds w) mediaFiles = true ->
  exists timings sizes,
    ending (upload w files)
    = Normal (Json "Files uploaded and processed successfully" timings
                sizes) /\
    totalProcessingTime timings = totalEndTime w - totalStartTime w /\
    map timed_fileName (timings_files timings) = map name mediaFiles /\
    totalOriginalSize sizes
    == Qsum (map (fun file => sizeKB (data file)) mediaFiles) /\
    low (totalProcessedSize sizes)
    == Qsum (map (fun file => sizeKB (encoded w Low file)) mediaFiles) /\
    medium (totalProcessedSize sizes)
    == Qsum (map (fun file => sizeKB (encoded w Medium file)) mediaFiles) /\
    original (totalProcessedSize sizes)
    == Qsum (map (fun file => sizeKB (encoded w Original file)) mediaFiles) /\
    toBufferCount (effects (upload w files))
    = (3 * List.length mediaFiles)%nat.
Proof.
  exact (upload_reports w files mediaFiles).
Qed.

Lemma upload_success_witness :
  exists timings sizes,
    ending (upload (fullDisk oneByteCodec)
               (Some (Some (ManyFiles [photo; emptyFile]))))
    = Normal (Json "Files uploaded and processed successfully" timings
                sizes) /\
    map timed_fileName (timings_files timings) = ["a.png"; "b.png"]%string /\
    totalOriginalSize sizes == 3 # 1024 /\
    low (totalProcessedSize sizes) == 2 # 1024.
Proof.
  destruct (upload_success (fullDisk oneByteCodec)
              (Some (Some (ManyFiles [photo; emptyFile])))
              [photo; emptyFile] eq_refl eq_refl)
    as (timings & sizes & H & _ & Hn & Ho & Hl & _).
  exists timings, sizes. split; [exact H|]. split; [exact Hn|].
  split; [rewrite Ho | rewrite Hl]; reflexivity.
Defined.

Lemma upload_rejects (w : World) (files : option (option Media))
    (before : list UploadedFile) (file : UploadedFile)
    (after : list UploadedFile) :
  mediaFilesOf files = Some (before ++ file :: after) ->
  forallb (succeeds w) before = true ->
  succeeds w file = false ->
  ending (upload w files)
  = Normal (Status 500 ("Error processing file: " ++ name file)) /\
  filter touchesDisk (effects (upload w files)) = [] /\
  (3 * List.length before < toBufferCount (effects (upload w files))
   <= 3 * List.length before + 3)%nat.
Proof.
  intros Hfiles Hall Hfail.
  destruct (mediaFilesOf_Some files _ Hfiles) as (media & -> & Hm).
  unfold upload. rewrite <- Hm.
  destruct (processFiles_fail w before file after 0 initialAcc Hall Hfail)
    as (tr & Hrun & Hn & Hd).
  rewrite Hrun. cbn [andThen pure app ending effects fst snd].
  rewrite app_nil_r. split; [reflexivity|]. split; [exact Hd | exact Hn].
Qed.

(** When the library rejects a file, the route answers with status 500 and
    the name of the first such file.  The files before it have been
    processed, no file after it reaches the library, and nothing is written
    to disk, not even the encodings of the files before. *)
Theorem upload_first_failure (w : World) (files : option (option Media))
    (before : list UploadedFile) (file : UploadedFile)
    (after : list UploadedFile) :
  mediaFilesOf files = Some (before ++ file :: after) ->
  forallb (succeeds w) before = true ->
  succeeds w file = false ->
  ending (upload w files)
  = Normal (Status 500 ("Error processing file: " ++ name file)) /\
  filter touchesDisk (effects (upload w files)) = [] /\
  (3 * List.length before < toBufferCount (effects (upload w files))
   <= 3 * List.length before + 3)%nat.
Proof.
  exact (upload_rejects w files before file after).
Qed.

Lemma upload_first_failure_witness :
  ending (upload (quietWorld rejectsEmpty)
             (Some (Some (ManyFiles [photo; emptyFile; photo]))))
  = Normal (Status 500 "Error processing file: b.png") /\
  filter touchesDisk
    (effects (upload (quietWorld rejectsEmpty)
              (Some (Some (ManyFiles [photo; emptyFile; photo]))))) = [].
Proof.
  destruct (upload_first_failure (quietWorld rejectsEmpty)
              (Some (Some (ManyFiles [photo; emptyFile; photo])))
              [photo] emptyFile [photo] eq_refl eq_refl eq_refl)
    as (H1 & H2 & _).
  split; [exact H1 | exact H2].
Defined.

(** The route always answers, and never throws: status 400 exactly when the
    request has no [media], status 500 with the name of a rejected file when
    the library rejects one, and the JSON report otherwise. *)
Theorem upload_answers (w : World) (files : option (option Media)) :
  match mediaFilesOf files with
  | None =>
      upload w files = ([], Normal (Status 400 "No files were uploaded."))
  | Some mediaFiles =>
      if forallb (succeeds w) mediaFiles
      then exists timings sizes,
             ending (upload w files)
             = Normal (Json "Files uploaded and processed successfully"
                         timings sizes)
      else exists file,
             In file mediaFiles /\ succeeds w file = false /\
             ending (upload w files)
             = Normal (Status 500 ("Error processing file: " ++ name file))
  end.
Proof.
  destruct (mediaFilesOf files) as [mediaFiles|] eqn:Hfiles.
  - destruct (forallb (succeeds w) mediaFiles) eqn:Hall.
    + destruct (upload_reports w files mediaFiles Hfiles Hall)
        as (timings & sizes & H & _).
      exists timings, sizes. exact H.
    + destruct (first_failure _ _ Hall)
        as (before & file & after & -> & Hb & Hf).
      destruct (upload_rejects w files before file after Hfiles Hb Hf)
        as (H & _).
      exists file. split; [apply in_or_app; right; left; reflexivity|].
      split; [exact Hf | exact H].
  - destruct files as [[[file|fs]|]|]; try discriminate Hfiles; reflexivity.
Qed.


Lemma written_app (a b : list action) : written (a ++ b) = written a ++ written b.
Proof. unfold written. apply flat_map_app. Qed.

Lemma written_none (tr : list action) :
  filter touchesDisk tr = [] -> written tr = [].
Proof.
  induction tr as [|e tr IH]; [reflexivity|].
  cbn [filter]. destruct e; cbn [touchesDisk]; try discriminate;
    intro H; cbn [written flat_map app]; apply IH; exact H.
Qed.

Lemma written_saveEvents (prefix : string) (files : list ProcessedImage) :
  written (saveEvents prefix files)
  = map (fun file => ((prefix ++ image_name file)%string, image_buffer file))
      files.
Proof.
  induction files as [|file rest IH]; [reflexivity|].
  cbn [saveEvents flat_map map app written]. f_equal. exact IH.
Qed.

Lemma saveProcessedImages_saved (w : World)
    (images : PerQuality (list ProcessedImage)) :
  (forall path, mkdir w path = None) ->
  (forall path, writeFile w path = None) ->
  exists lowTime mediumTime originalTime,
    saveProcessedImages w images
    = (saveEvents "output/low/" (low images)
       ++ saveEvents "output/medium/" (medium images)
       ++ saveEvents "output/original/" (original images)
       ++ [LogSavingTimes lowTime mediumTime originalTime],
       Normal tt).
Proof.
  intros Hm Hw. unfold saveProcessedImages.
  destruct (saveEach_saved w "output/low/" (low images) Hm Hw 0) as [t1 H1].
  destruct (saveEach_saved w "output/medium/" (medium images) Hm Hw 0)
    as [t2 H2].
  destruct (saveEach_saved w "output/original/" (original images) Hm Hw 0)
    as [t3 H3].
  rewrite H1. cbn [andThen]. rewrite H2. cbn [andThen]. rewrite H3.
  cbn [andThen perform tryCatch]. exists t1, t2, t3. reflexivity.
Qed.

(** When the library encodes every file and the disk takes every write, the
    route writes three files per upload, all low encodings first, then all
    medium ones, then all original ones, each group in the order of the
    upload, under [output/<quality>/<quality>_<name>]. *)
Theorem upload_saves (w : World) (files : option (option Media))
    (mediaFiles : list UploadedFile) :
  mediaFilesOf files = Some mediaFiles ->
  forallb (succeeds w) mediaFiles = true ->
  (forall path, mkdir w path = None) ->
  (forall path, writeFile w path = None) ->
  written (effects (upload w files))
  = outputFiles w "output/low/" "low_" Low mediaFiles
    ++ outputFiles w "output/medium/" "medium_" Medium mediaFiles
    ++ outputFiles w "output/original/" "original_" Original mediaFiles.
Proof.
  intros Hfiles Hall Hm Hw.
  destruct (mediaFilesOf_Some files mediaFiles Hfiles) as (media & -> & Hmf).
  unfold upload. rewrite <- Hmf.
  destruct (processFiles_succeed w mediaFiles 0 [] initialAcc Hall
              (summarises_initial w))
    as (tr & acc & Hrun & _ & Hd & Hsum).
  cbn [app] in Hsum.
  destruct Hsum as (_ & _ & _ & _ & S5 & S6 & S7 & _).
  rewrite Hrun. cbn [andThen].
  destruct (saveProcessedImages_saved w (processedImages acc) Hm Hw)
    as (t1 & t2 & t3 & Hs).
  rewrite Hs. cbn [andThen perform pure app effects fst].
  rewrite !written_app, (written_none tr Hd), !written_saveEvents.
  rewrite S5, S6, S7, !map_map. cbn [app written flat_map].
  rewrite !app_nil_r. reflexivity.
Qed.

Lemma upload_saves_witness :
  written (effects (upload (quietWorld oneByteCodec)
                    (Some (Some (OneFile photo)))))
  = [("output/low/low_a.png"%string, [x2a]);
     ("output/medium/medium_a.png"%string, [x2a]);
     ("output/original/original_a.png"%string, [x2a])].
Proof.
  rewrite (upload_saves (quietWorld oneByteCodec)
             (Some (Some (OneFile photo))) [photo] eq_refl eq_refl);
    reflexivity.
Defined.




(** *** Paths *)

Lemma lastIndexOf_from_app (c : ascii) (s t : string) :
  forall i found,
    lastIndexOf_from c (s ++ t) i found
    = lastIndexOf_from c t (i + Z.of_nat (String.length s))
        (lastIndexOf_from c s i found).
Proof.
  induction s as [|a s IH]; intros i found.
  - cbn. rewrite Z.add_0_r. reflexivity.
  - cbn [String.append lastIndexOf_from String.length]. rewrite IH.
    f_equal. lia.
Qed.

Lemma lastIndexOf_from_noSlash (b : string) :
  noSlash b = true ->
  forall i found, lastIndexOf_from "/" b i found = found.
Proof.
  unfold noSlash. induction b as [|a b IH]; intros H i found.
  - reflexivity.
  - cbn [list_ascii_of_string existsb] in H.
    apply negb_true_iff, orb_false_iff in H. destruct H as [Ha Hb].
    cbn [lastIndexOf_from]. rewrite Ascii.eqb_sym, Ha.
    apply IH. rewrite Hb. reflexivity.
Qed.

Lemma substring_prefix (s t : string) :
  String.substring 0 (String.length s) (s ++ t) = s.
Proof.
  induction s as [|a s IH]; cbn [String.append String.length String.substring].
  - destruct t; reflexivity.
  - rewrite IH. reflexivity.
Qed.

(** The directory that is created for a path is the path up to its last
    slash.  For an uploaded name without a slash this is [output/<quality>];
    a slash in the name of the upload moves the directory below it. *)
Theorem dirOf_last_slash (s b : string) :
  noSlash b = true ->
  dirOf (s ++ "/" ++ b) = s.
Proof.
  intro H. unfold dirOf, lastIndexOf, substring_to.
  rewrite lastIndexOf_from_app.
  cbn [String.append lastIndexOf_from Ascii.eqb Bool.eqb].
  rewrite (lastIndexOf_from_noSlash b H).
  cbn [Z.add]. rewrite Nat2Z.id.
  apply (substring_prefix s (String "/" b)).
Qed.

Lemma dirOf_last_slash_witness :
  dirOf ("output/low" ++ "/" ++ "low_a.png") = "output/low"%string /\
  dirOf ("output/low/low_x" ++ "/" ++ "y.png") = "output/low/low_x"%string.
Proof.
  split.
  - apply (dirOf_last_slash "output/low" "low_a.png"). reflexivity.
  - apply (dirOf_last_slash "output/low/low_x" "y.png"). reflexivity.
Defined.

(** *** What is asked of the image library *)

Lemma KB_le_1024 (z : Z) :
  Qle_bool (inject_Z z / 1024) 1024 = true <-> (z <= 1048576)%Z.
Proof.
  rewrite Qle_bool_iff, Zle_Qle.
  change (inject_Z 1048576) with (1048576 # 1).
  assert (H : inject_Z z == inject_Z z / 1024 * 1024) by field.
  set (y := inject_Z z / 1024) in *. split; intro; lra.
Qed.

(** Every pipeline starts from the uploaded bytes as they are.  The low
    pipeline resizes exactly when the upload is larger than 1 MiB, and asks
    for a JPEG quality between 10 and 30; the medium pipeline never resizes
    and always asks for quality 10; the original pipeline neither resizes
    nor re-encodes. *)
Theorem pipelineFor_requests (fileBuffer : Buffer) :
  (forall q, input (pipelineFor fileBuffer q) = fileBuffer) /\
  (resize (pipelineFor fileBuffer Low) <> None <->
   (1048576 < Buffer_length fileBuffer)%Z) /\
  (exists options q,
     jpeg (pipelineFor fileBuffer Low) = Some options /\
     quality options = Fin q /\ (10 <= q <= 30)%Z) /\
  resize (pipelineFor fileBuffer Medium) = None /\
  (exists options,
     jpeg (pipelineFor fileBuffer Medium) = Some options /\
     quality options = Fin 10) /\
  pipelineFor fileBuffer Original
  = {| input := fileBuffer; resize := None; jpeg := None |}.
Proof.
  split; [intros []; reflexivity|]. split; [|split; [|split; [|split]]].
  - cbn [pipelineFor resize]. unfold originalSizeKB.
    pose proof (KB_le_1024 (Buffer_length fileBuffer)) as H.
    destruct (Qle_bool (inject_Z (Buffer_length fileBuffer) / 1024) 1024);
      cbn [negb].
    + split; [congruence|]. intro Hlt.
      assert (Buffer_length fileBuffer <= 1048576)%Z by (apply H; reflexivity).
      lia.
    + split; [|discriminate]. intros _. apply Z.lt_nge. intro Hle.
      apply H in Hle. discriminate Hle.
  - cbn [pipelineFor jpeg]. rewrite targetQuality_low_closed_form.
    do 2 eexists. split; [reflexivity|]. split; [reflexivity|].
    destruct (_ =? 0)%Z; lia.
  - reflexivity.
  - cbn [pipelineFor jpeg]. eexists. split; [reflexivity|].
    cbn [quality]. unfold targetQuality_medium. apply min10_max30.
    apply floor_div_mul_not_NaN.
  - reflexivity.
Qed.


Lemma pipelineFor_requests_witness :
  resize (pipelineFor (Buffer_alloc 2000000) Low) <> None /\
  resize (pipelineFor photo.(data) Low) = None.
Proof.
  destruct (pipelineFor_requests (Buffer_alloc 2000000)) as (_ & Hbig & _).
  destruct (pipelineFor_requests (data photo)) as (_ & Hsmall & _).
  split.
  - apply Hbig. unfold Buffer_length, Buffer_alloc. rewrite repeat_length. lia.
  - destruct (resize (pipelineFor (data photo) Low)) eqn:E; [|reflexivity].
    exfalso. assert (H : (1048576 < Buffer_length (data photo))%Z)
      by (apply Hsmall; discriminate).
    cbn in H. lia.
Defined.

End UploadFacts.

(* ================================================================== *)
(** * Properties of the sample image *)

Module SampleImageFacts.
Import SampleImage.

Lemma store_here (p z : Buffer) (b : byte) (i v : Z) :
  Buffer_length p = i ->
  store (p ++ b :: z) i v = p ++ toUint8 v :: z.
Proof.
  intro H. unfold store, Buffer_length in *. rewrite length_app.
  cbn [List.length].
  replace ((0 <=? i) && (i <? Z.of_nat (List.length p + S (List.length z))))%Z
    with true by (symmetry; apply andb_true_iff; split;
                  [apply Z.leb_le | apply Z.ltb_lt]; lia).
  assert (Hn : Z.to_nat i = List.length p) by lia.
  rewrite Hn, firstn_app, Nat.sub_diag, firstn_all. cbn [firstn].
  rewrite app_nil_r. f_equal. f_equal.
  clear. induction p as [|a p IH]; [reflexivity | exact IH].
Qed.


Lemma Buffer_length_app (a b : Buffer) :
  Buffer_length (a ++ b) = (Buffer_length a + Buffer_length b)%Z.
Proof. unfold Buffer_length. rewrite length_app. lia. Qed.

(** One pixel: three stores at consecutive places turn three bytes after
    [p] into the channel values. *)
Lemma store_pixel (width height x y : Z) (p z : Buffer) (b1 b2 b3 : byte) :
  Buffer_length p = ((y * width + x) * 3)%Z ->
  store
    (store
       (store (p ++ b1 :: b2 :: b3 :: z) ((y * width + x) * 3)
          (255 * x / width))
       ((y * width + x) * 3 + 1) (255 * y / height))
    ((y * width + x) * 3 + 2) (255 * (x + y) / (width + height))
  = p ++ map toUint8 (pixel width height x y) ++ z.
Proof.
  intro H. rewrite (store_here p _ b1 _ _ H).
  change (p ++ ?a :: b2 :: ?r) with (p ++ [a] ++ b2 :: r).
  rewrite app_assoc, store_here
    by (rewrite Buffer_length_app, H; reflexivity).
  rewrite <- app_assoc. cbn [app].
  change (p ++ ?a :: ?c :: b3 :: ?r) with (p ++ [a; c] ++ b3 :: r).
  rewrite app_assoc, store_here
    by (rewrite Buffer_length_app, H; reflexivity).
  rewrite <- app_assoc. reflexivity.
Qed.

Lemma repeat_three (n : nat) :
  repeat x00 (3 * S n) = x00 :: x00 :: x00 :: repeat x00 (3 * n).
Proof.
  replace (3 * S n)%nat with (S (S (S (3 * n)))) by lia. reflexivity.
Qed.

Lemma row_cons (width height y from : Z) (n : nat) :
  row width height y from (S n)
  = map toUint8 (pixel width height from y)
    ++ row width height y (from + 1) n.
Proof.
  unfold row. cbn [seq flat_map]. rewrite Z.add_0_r. f_equal.
  rewrite <- seq_shift, flat_map_concat_map, map_map,
    <- flat_map_concat_map.
  apply flat_map_ext. intro k. do 2 f_equal. lia.
Qed.

Lemma length_row (width height y from : Z) (n : nat) :
  Buffer_length (row width height y from n) = (3 * Z.of_nat n)%Z.
Proof.
  revert from. induction n as [|n IH]; intro from.
  - reflexivity.
  - rewrite row_cons, Buffer_length_app, IH. unfold Buffer_length.
    cbn [pixel map List.length]. lia.
Qed.

(** The inner loop: [n] pixels of row [y] from column [x] on. *)
Lemma inner_loop (width height y : Z) (n : nat) :
  forall (x : Z) (p z : Buffer),
    Buffer_length p = ((y * width + x) * 3)%Z ->
    forLoop n x (fun x buffer =>
      store
        (store
           (store buffer ((y * width + x) * 3) (255 * x / width))
           ((y * width + x) * 3 + 1) (255 * y / height))
        ((y * width + x) * 3 + 2) (255 * (x + y) / (width + height)))
      (p ++ repeat x00 (3 * n) ++ z)
    = p ++ row width height y x n ++ z.
Proof.
  induction n as [|n IH]; intros x p z H.
  - reflexivity.
  - cbn [forLoop]. rewrite repeat_three. cbn [app].
    rewrite (store_pixel width height x y p _ x00 x00 x00 H).
    rewrite app_assoc, IH.
    + rewrite row_cons, <- !app_assoc. reflexivity.
    + rewrite Buffer_length_app, H. unfold Buffer_length.
      cbn [pixel map List.length]. lia.
Qed.


Lemma rows_cons (width height from : Z) (m : nat) :
  rows width height from (S m)
  = row width height from 0 (Z.to_nat width)
    ++ rows width height (from + 1) m.
Proof.
  unfold rows. cbn [seq flat_map]. rewrite Z.add_0_r. f_equal.
  rewrite <- seq_shift, flat_map_concat_map, map_map,
    <- flat_map_concat_map.
  apply flat_map_ext. intro k. f_equal. lia.
Qed.

(** The outer loop: [m] rows from row [y] on. *)
Lemma outer_loop (width height : Z) (m : nat) :
  (0 <= width)%Z ->
  forall (y : Z) (p : Buffer),
    Buffer_length p = (y * width * 3)%Z ->
    forLoop m y (fun y buffer =>
      forLoop (Z.to_nat width) 0 (fun x buffer =>
        store
          (store
             (store buffer ((y * width + x) * 3) (255 * x / width))
             ((y * width + x) * 3 + 1) (255 * y / height))
          ((y * width + x) * 3 + 2) (255 * (x + y) / (width + height)))
        buffer)
      (p ++ repeat x00 (3 * (Z.to_nat width * m)))
    = p ++ rows width height y m.
Proof.
  intro Hw. induction m as [|m IH]; intros y p H.
  - rewrite Nat.mul_0_r. reflexivity.
  - cbn [forLoop].
    replace (3 * (Z.to_nat width * S m))%nat
      with (3 * Z.to_nat width + 3 * (Z.to_nat width * m))%nat by lia.
    rewrite repeat_app, inner_loop by (rewrite H; lia).
    rewrite app_assoc, IH.
    + rewrite rows_cons, <- app_assoc. reflexivity.
    + rewrite Buffer_length_app, length_row, H. lia.
Qed.

Lemma pixel_range (width height x y : Z) :
  (0 <= x < width)%Z -> (0 <= y < height)%Z ->
  Forall (fun v => (0 <= v <= 254)%Z) (pixel width height x y).
Proof.
  intros Hx Hy. unfold pixel.
  repeat constructor;
    try (apply Z.div_pos; lia);
    apply Z.lt_succ_r; apply Z.div_lt_upper_bound; lia.
Qed.

Lemma toUint8_value (v : Z) :
  (0 <= v <= 255)%Z -> Z.of_N (Byte.to_N (toUint8 v)) = v.
Proof.
  intro H. unfold toUint8. rewrite Z.mod_small by lia.
  destruct (Byte.of_N (Z.to_N v)) as [b|] eqn:E.
  - apply Byte.to_of_N in E. rewrite E. lia.
  - apply Byte.of_N_None_iff in E. lia.
Qed.

Lemma length_rows (width height from : Z) (m : nat) :
  (0 <= width)%Z ->
  Buffer_length (rows width height from m) = (3 * width * Z.of_nat m)%Z.
Proof.
  intro Hw. revert from. induction m as [|m IH]; intro from.
  - cbn. lia.
  - rewrite rows_cons, Buffer_length_app, length_row, IH. lia.
Qed.

(** The pixel loop fills the whole buffer, pixel after pixel and row after
    row, with the three channel values of each pixel; no byte stays
    unwritten and no store falls outside the buffer.  Every channel value
    lies between 0 and 254, so each byte holds its value unchanged (nothing
    wraps around at 256). *)
Theorem gradient_pixels (width height : Z) :
  (0 <= width)%Z -> (0 <= height)%Z ->
  gradient width height = rows width height 0 (Z.to_nat height) /\
  Buffer_length (gradient width height) = (width * height * 3)%Z /\
  (forall x y, (0 <= x < width)%Z -> (0 <= y < height)%Z ->
     Forall (fun v => (0 <= v <= 254)%Z /\
                      Z.of_N (Byte.to_N (toUint8 v)) = v)
       (pixel width height x y)).
Proof.
  intros Hw Hh.
  assert (Hg : gradient width height = rows width height 0 (Z.to_nat height)).
  { unfold gradient, Buffer_alloc. cbv zeta.
    replace (Z.to_nat (width * height * 3))
      with (3 * (Z.to_nat width * Z.to_nat height))%nat
      by (rewrite (Z2Nat.inj_mul (width * height) 3) by nia;
          rewrite (Z2Nat.inj_mul width height) by lia;
          change (Z.to_nat 3) with 3%nat; lia).
    apply (outer_loop width height (Z.to_nat height) Hw 0 []). reflexivity. }
  split; [exact Hg|]. split.
  - rewrite Hg, length_rows by exact Hw. lia.
  - intros x y Hx Hy. eapply Forall_impl; [|apply pixel_range; eassumption].
    intros v Hv. cbv beta in Hv. split; [exact Hv|]. apply toUint8_value. lia.
Qed.

(** A picture of two columns and one row. *)
Lemma gradient_pixels_witness :
  gradient 2 1 = [x00; x00; x00; x7f; x00; x55].
Proof.
  destruct (gradient_pixels 2 1) as (H & _); [lia | lia |].
  rewrite H. reflexivity.
Defined.

End SampleImageFacts.
